(** * Metrics route of the analytics dashboard: a shallow embedding

    The source file [src/app/page.tsx] holds, after the landing page
    component, two listings of the analytics route:

    - lines 39-293, a complete handler whose plan map stores
      [renewalPrice] / [billingPeriodDays] / [planType] and whose timestamp
      parser guards with [!value];
    - lines 295-662, the same handler in which the lines of the first
      listing are followed by the lines that replace them ([PlanLike],
      [mrrCents], [revenueByDay], the parser with the 1e12 threshold).

    Module [R1] embeds the first listing, module [R2] the replacing lines of
    the second one.  The helpers [getDaysAgo] and [retryWithBackoff] are
    the same text in both and are embedded once.  Where the listings
    differ the specification follows the second one, so the properties
    are stated on [R2]; [R1] is there for the places where a property
    concerns it or where it does what [R2] does not.

    Conventions of the embedding:
    - in [R1] and [R2] a JavaScript number is an exact rational ([Qc]);
      NaN and the infinities only arise from [Number(string)] and are the
      [None] of [Number_of_string].  The accumulations whose result
      depends on rounding (the sum of monthly prices, the revenue per
      product and its ranking) are embedded a second time on IEEE 754
      doubles, in module [R2F];
    - a [Date] is its time value, an integer number of milliseconds since
      the epoch; an invalid date is [None];
    - in [R1] and [R2] the clock is read once ([now]) and
      [setDate(getDate() - d)] moves back d * 86400000 ms, as it does in
      a zone that keeps one offset.  The revenue trend, whose dates
      depend on the zone and on each reading of the clock, is embedded a
      second time with both, in modules [R1T] and [R2T];
    - [toISOString().split("T")[0]] is the UTC calendar day; the text
      YYYY-MM-DD is represented by the day number it denotes. *)

From Stdlib Require Import QArith Qcanon Qround Lqa.
From stdpp Require Import base numbers list strings gmap.
From Stdlib Require Import Sorting.Sorted Sorting.Permutation.
From Stdlib Require Import Floats.SpecFloat.

Local Open Scope Z_scope.

(** ** JavaScript values used by the route *)

(** What the host's built-ins do on text, which the route does not define:
    [Number(s)] ([None] when the result is not finite), [new Date(s)]
    ([None] for an invalid date) and [s.trim()]. *)
Class Host := {
  Number_of_string : string -> option Qc;
  Date_of_string : string -> option Z;
  trim : string -> string
}.

(** A timestamp field as it arrives: absent ([null] or [undefined]), a
    number, or a string. *)
Inductive JsTime :=
| TAbsent
| TNum (x : Qc)
| TStr (s : string).

(** An own property of a JSON object: not there, [null], or a value. *)
Inductive field (A : Type) :=
| Missing
| Null
| Value (a : A).
Arguments Missing {A}.
Arguments Null {A}.
Arguments Value {A} a.

(** [x ?? d] on a property. *)
Definition nullish_or {A} (x : field A) (d : A) : A :=
  match x with Value a => a | _ => d end.

(** Truthiness of a string-valued expression that may be absent. *)
Definition truthy_string (x : option string) : bool :=
  match x with
  | Some s => negb (String.eqb s "")
  | None => false
  end.

Definition Date := Z.

Definition ms_per_day : Z := 1000 * 60 * 60 * 24.

(** ToIntegerOrInfinity on a finite number: truncation toward zero. *)
Definition truncate (x : Qc) : Z :=
  if decide (0 ≤ x)%Qc then Qfloor x else Qceiling x.

Definition max_time_value : Z := 8640000000000000.

(** [new Date(tv)] for a finite number [tv] (TimeClip). *)
Definition Date_of_number (tv : Qc) : option Date :=
  if decide (Qc_of_Z (- max_time_value) ≤ tv ∧ tv ≤ Qc_of_Z max_time_value)%Qc
  then Some (truncate tv)
  else None.

(** [new Date(value)] for a value that is present. *)
Definition Date_of_value `{Host} (value : JsTime) : option Date :=
  match value with
  | TAbsent => None
  | TNum x => Date_of_number x
  | TStr s => Date_of_string s
  end.

(** The calendar day of [d.toISOString().split("T")[0]]. *)
Definition dateKey (d : Date) : Z := d / ms_per_day.

(** [getDaysAgo(days)], lines 59-63 and 320-324, when the clock reads
    [now] and the zone keeps one offset; [getDaysAgo_at] below is the
    helper with the zone and the reading of its call. *)
Definition getDaysAgo (now : Date) (days : Z) : Date :=
  now - days * ms_per_day.

(** [Math.round]: the nearest integer, halves toward +infinity. *)
Definition Math_round (x : Qc) : Z := Qfloor (x + Q2Qc (1 # 2))%Qc.

(** ** Records of the commerce platform *)

(** [PlanLike], lines 312-317; also the shape of an embedded
    [membership.plan] and of an element of the plans collection. *)
Record PlanLike := {
  plan_id : field string;
  renewal_price : field Qc;
  billing_period : field Qc;
  plan_type : field string
}.

Record Membership := {
  status : string;
  created_at : JsTime;
  canceled_at : JsTime;
  renewal_period_start : JsTime;
  renewal_period_end : JsTime;
  plan : option PlanLike
}.

(** [payment.product], of which only [id] is read. *)
Record ProductRef := { ref_id : field string }.

Record Payment := {
  paid_at : JsTime;            (* payment.created_at *)
  usd_total : field Qc;
  total : field Qc;
  subtotal : field Qc;
  product : option ProductRef
}.

Record Product := {
  product_id : string;
  title : field string
}.

(** ** The response body *)

Record Metrics := {
  metrics_mrr : Qc;
  metrics_churnRate : Qc;
  metrics_newSubscriptions : nat;
  metrics_totalActiveSubscribers : nat
}.

Record TrendEntry := { date : Z; trend_revenue : Qc }.

Record ProductRevenue := { name : string; revenue : Qc }.

Record Snapshot := {
  body_metrics : Metrics;
  body_revenueTrend : list TrendEntry;
  body_topProducts : list ProductRevenue
}.

Record ErrorBody := { error : string; message : string }.

(** [NextResponse.json(body)] and [NextResponse.json(body, { status })]. *)
Inductive Response :=
| JsonOk (body : Snapshot)
| JsonError (body : ErrorBody) (status_code : Z).

(** A value that was thrown: an [Error] with its message, or anything
    else ([undefined] included). *)
Inductive Thrown :=
| ErrorObject (msg : string)
| NotAnError.

(** ** retryWithBackoff, lines 66-86 and 327-347 *)

(** What the wrapper does, in order: the i-th invocation of [fn]
    (counted from 0) and the timers it awaits. *)
Inductive event :=
| Attempt (i : nat)
| Sleep (ms : Z).

Section Retry.
Context {E T : Type}.

(** The operation, as the outcome of its i-th invocation: [inl e] when
    the promise rejects with [e], [inr v] when it resolves to [v]. *)
Variable fn : nat -> E + T.
Variable maxRetries : nat.
Variable initialDelay : Z.

(** The [for] loop from index [i] on, with [remaining] iterations left;
    [lastError] is [None] while still [undefined].  The result is
    [inl lastError] for [throw lastError]. *)
Fixpoint retry_loop (remaining i : nat) (lastError : option E)
  : (option E + T) * list event :=
  match remaining with
  | O => (inl lastError, [])
  | S remaining' =>
    match fn i with
    | inr v => (inr v, [Attempt i])
    | inl e =>
      let waits :=
        if decide (Z.of_nat i < Z.of_nat maxRetries - 1)
        then [Sleep (initialDelay * 2 ^ Z.of_nat i)]
        else [] in
      let rest := retry_loop remaining' (S i) (Some e) in
      (rest.1, Attempt i :: waits ++ rest.2)
    end
  end.

Definition retryWithBackoff : (option E + T) * list event :=
  retry_loop maxRetries 0%nat None.
End Retry.

(** Attempts [i .. i+j-1], each followed by its timer. *)
Definition timers_from (initialDelay : Z) (i j : nat) : list event :=
  flat_map (fun x => [Attempt x; Sleep (initialDelay * 2 ^ Z.of_nat x)]) (seq i j).

(** The timeline of [k] attempts, [k] at least 1: attempt [i] (counted
    from 0) is followed by a timer of [initialDelay * 2^i], except the
    last one, which nothing follows. *)
Definition backoff_schedule (initialDelay : Z) (k : nat) : list event :=
  timers_from initialDelay 0 (k - 1) ++ [Attempt (k - 1)].

(** The timers of a timeline, in order. *)
Definition sleeps (evs : list event) : list Z :=
  flat_map (fun ev => match ev with Sleep ms => [ms] | Attempt _ => [] end) evs.

(** ** The data source *)

Record ListParams := { company_id : option string; first : Z }.

(** A list endpoint called with given parameters: what its i-th call
    settles to and how long that call takes.  The envelope's [data] may be
    missing ([None]). *)
Record Endpoint (A : Type) := {
  respond : nat -> Thrown + option (list A);
  latency : nat -> Z
}.
Arguments respond {A} _ _.
Arguments latency {A} _ _.

Record Sdk := {
  memberships_list : ListParams -> Endpoint Membership;
  payments_list : ListParams -> Endpoint Payment;
  products_list : ListParams -> Endpoint Product;
  plans_list : ListParams -> Endpoint PlanLike
}.

(** The instant at which a retried call settles, from its timeline. *)
Definition settle_time {A} (ep : Endpoint A) (evs : list event) : Z :=
  fold_left
    (fun t ev => match ev with Attempt i => t + latency ep i | Sleep ms => t + ms end)
    evs 0.

(** [Promise.all]: the rejection that comes first in time wins (the
    earlier array position on a tie); [None] when every promise resolved. *)
Definition first_rejection (settled : list (option (option Thrown) * Z))
  : option (option Thrown) :=
  fst <$>
  fold_left
    (fun best s =>
       match s.1, best with
       | None, _ => best
       | Some e, None => Some (e, s.2)
       | Some e, Some (_, t) => if decide (s.2 < t) then Some (e, s.2) else best
       end)
    settled None.

Definition rejection {A} (r : option Thrown + A) : option (option Thrown) :=
  match r with inl e => Some e | inr _ => None end.

(** [response?.data || []] of a resolved call. *)
Definition data_or_empty {A} (r : option Thrown + option (list A)) : list A :=
  match r with inr (Some l) => l | _ => [] end.

(** [retryWithBackoff(() => list(params))] with the default arguments. *)
Definition fetch {A} (ep : Endpoint A)
  : (option Thrown + option (list A)) * list event :=
  retryWithBackoff (respond ep) 3 1000.

(** What one invocation of the endpoint did: its response and the
    timelines of the four retried calls (memberships, payments, products,
    plans). *)
Record Run := { response : Response; timelines : list (list event) }.

Section Handler.

(** The response to a missing company identifier. *)
Variable configError : ErrorBody.
(** The parameters of the four list calls for a company identifier. *)
Variable params : string -> ListParams * ListParams * ListParams * ListParams.
(** Everything between the fetch and the response; a JavaScript
    computation may throw where the embedded one cannot. *)
Variable compute :
  Date -> list Membership -> list Payment -> list Product -> list PlanLike ->
  Thrown + Snapshot.

(** The body of [try] once the company identifier is there: [inl] is what
    reaches [catch]. *)
Definition fetch_and_compute (c : string) (sdk : Sdk) (now : Date)
  : (option Thrown + Response) * list (list event) :=
  let m := fetch (memberships_list sdk (params c).1.1.1) in
  let p := fetch (payments_list sdk (params c).1.1.2) in
  let r := fetch (products_list sdk (params c).1.2) in
  let l := fetch (plans_list sdk (params c).2) in
  let logs := [m.2; p.2; r.2; l.2] in
  match first_rejection
          [(rejection m.1, settle_time (memberships_list sdk (params c).1.1.1) m.2);
           (rejection p.1, settle_time (payments_list sdk (params c).1.1.2) p.2);
           (rejection r.1, settle_time (products_list sdk (params c).1.2) r.2);
           (rejection l.1, settle_time (plans_list sdk (params c).2) l.2)] with
  | Some e => (inl e, logs)
  | None =>
    match compute now (data_or_empty m.1) (data_or_empty p.1)
                  (data_or_empty r.1) (data_or_empty l.1) with
    | inl e => (inl (Some e), logs)
    | inr body => (inr (JsonOk body), logs)
    end
  end.

(** The body of [try]: the guard [if (!companyId)] comes first. *)
Definition try_block (companyId : option string) (sdk : Sdk) (now : Date)
  : (option Thrown + Response) * list (list event) :=
  match companyId with
  | Some c =>
    if truthy_string companyId then fetch_and_compute c sdk now
    else (inr (JsonError configError 500), [])
  | None => (inr (JsonError configError 500), [])
  end.

(** [catch (error)], lines 281-292 and 650-661. *)
Definition catch_block (e : option Thrown) : Response :=
  JsonError
    {| error := "Failed to fetch analytics data";
       message := match e with
                  | Some (ErrorObject msg) => msg
                  | _ => "Unknown error"
                  end |}
    500.

Definition handler (companyId : option string) (sdk : Sdk) (now : Date) : Run :=
  let r := try_block companyId sdk now in
  {| response := match r.1 with inl e => catch_block e | inr resp => resp end;
     timelines := r.2 |}.
End Handler.

(** ** A [Map] in insertion order and a stable [sort] *)

(** [productRevenueMap]: a [Map] is iterated in the order its keys were
    first set, so it is kept as an association list in that order. *)
Definition ProductMap := list (string * ProductRevenue).

Definition map_get (id : string) (m : ProductMap) : option ProductRevenue :=
  snd <$> find (fun kv => String.eqb kv.1 id) m.

(** [existing.revenue += r] on the entry of [id]. *)
Fixpoint add_revenue (id : string) (r : Qc) (m : ProductMap) : ProductMap :=
  match m with
  | [] => []
  | (k, e) :: m' =>
    if String.eqb k id
    then (k, {| name := name e; revenue := (revenue e + r)%Qc |}) :: m'
    else (k, e) :: add_revenue id r m'
  end.

(** [Array.prototype.sort] is stable; for a comparator that is a total
    preorder the result is then determined, and insertion computes it.
    The comparator is [(a, b) => b.revenue - a.revenue]: [a] stays before
    [b] unless [b] has the larger revenue. *)
Fixpoint insert_sorted (a : ProductRevenue) (l : list ProductRevenue)
  : list ProductRevenue :=
  match l with
  | [] => [a]
  | b :: l' =>
    if decide (revenue b ≤ revenue a)%Qc
    then a :: b :: l'
    else b :: insert_sorted a l'
  end.

Definition sort_by_revenue (l : list ProductRevenue) : list ProductRevenue :=
  foldr insert_sorted [] l.

(** [n, n-1, ..., 0]: the values of [i] in [for (let i = n; i >= 0; i--)]. *)
Fixpoint countdown (n : nat) : list nat :=
  match n with
  | O => [O]
  | S n' => n :: countdown n'
  end.

(** ** Property reads shared by both listings *)

(** [membership.plan?.id]. *)
Definition plan_id_of (membership : Membership) : option string :=
  match plan membership with
  | Some p => match plan_id p with Value i => Some i | _ => None end
  | None => None
  end.

(** [payment.product?.id]. *)
Definition product_id_of (payment : Payment) : option string :=
  match product payment with
  | Some r => match ref_id r with Value i => Some i | _ => None end
  | None => None
  end.

(** [product?.title || `Product ${productId}`]. *)
Definition display_name (products : list Product) (productId : string) : string :=
  match find (fun p => String.eqb (product_id p) productId) products with
  | Some p =>
    match title p with
    | Value t => if String.eqb t "" then "Product " +:+ productId else t
    | _ => "Product " +:+ productId
    end
  | None => "Product " +:+ productId
  end.

(** ** The route with [PlanLike] and [mrrCents] (lines 295-662) *)

Module R2.
Section Metrics.
Context `{Host}.

(** [parseTimestamp], lines 349-370. *)
Definition parseTimestamp (value : JsTime) : option Date :=
  match value with
  | TAbsent => None
  | _ =>
    let rawNumber :=
      match value with
      | TStr s =>
        if negb (String.eqb (trim s) "") then Number_of_string s else None
      | TNum x => Some x
      | TAbsent => None
      end in
    let fromNumber :=
      match rawNumber with
      | Some x =>
        let milliseconds :=
          if decide (Qc_of_Z 1000000000000 < x)%Qc
          then x else (x * Qc_of_Z 1000)%Qc in
        Date_of_number milliseconds
      | None => None
      end in
    match fromNumber with
    | Some d => Some d
    | None => Date_of_value value
    end
  end.

(** Line 372. *)
Definition activeStatuses : gset string := {[ "active"; "trialing" ]}.

(** Lines 424-429. *)
Definition planMap (plans : list PlanLike) : gmap string PlanLike :=
  fold_left
    (fun m plan =>
       match plan_id plan with
       | Value i => if negb (String.eqb i "") then <[i := plan]> m else m
       | _ => m
       end)
    plans ∅.

Definition thirtyDaysAgo (now : Date) : Date := getDaysAgo now 30.
Definition ninetyDaysAgo (now : Date) : Date := getDaysAgo now 90.

(** Line 442. *)
Definition activeMemberships (memberships : list Membership) : list Membership :=
  List.filter (fun membership => bool_decide (status membership ∈ activeStatuses))
    memberships.

(** [{}] and [{ ...base, ...over }] on plan objects: every own property
    of [over], [null] ones included, replaces that of [base]. *)
Definition empty_object : PlanLike :=
  {| plan_id := Missing; renewal_price := Missing;
     billing_period := Missing; plan_type := Missing |}.

Definition spread_field {A} (base over : field A) : field A :=
  match over with Missing => base | _ => over end.

Definition spread (base over : PlanLike) : PlanLike :=
  {| plan_id := spread_field (plan_id base) (plan_id over);
     renewal_price := spread_field (renewal_price base) (renewal_price over);
     billing_period := spread_field (billing_period base) (billing_period over);
     plan_type := spread_field (plan_type base) (plan_type over) |}.

(** The constant [plan] of the reducer, lines 484-490. *)
Definition effectivePlan (pm : gmap string PlanLike) (membership : Membership)
  : PlanLike :=
  let planId := plan_id_of membership in
  let fallbackPlan := plan membership in
  let planDetails :=
    if truthy_string planId then planId ≫= (fun i => pm !! i) else None in
  spread (default empty_object fallbackPlan) (default empty_object planDetails).

(** Lines 492-498: [None] where the reducer returns [sum] unchanged. *)
Definition monthlyPrice (p : PlanLike) : option Qc :=
  match plan_type p with
  | Value t =>
    if String.eqb t "renewal" then
      let renewalPrice := nullish_or (renewal_price p) 0%Qc in
      let billingPeriod :=
        match billing_period p with
        | Value b => if decide (b ≠ 0%Qc ∧ (0 < b)%Qc) then b else 1%Qc
        | _ => 1%Qc
        end in
      Some (renewalPrice / billingPeriod)%Qc
    else None
  | _ => None
  end.

(** Lines 483-501. *)
Definition mrrCents (pm : gmap string PlanLike) (memberships : list Membership) : Qc :=
  fold_left
    (fun sum membership =>
       match monthlyPrice (effectivePlan pm membership) with
       | Some price => (sum + price)%Qc
       | None => sum
       end)
    (activeMemberships memberships) 0%Qc.

(** Lines 504-511. *)
Definition newSubscriptions (now : Date) (memberships : list Membership) : nat :=
  length
    (List.filter
       (fun membership =>
          match parseTimestamp (created_at membership) with
          | Some createdAt =>
            (thirtyDaysAgo now <=? createdAt) && (createdAt <=? now)
          | None => false
          end)
       memberships).

(** Lines 515-532. *)
Definition subscribersThirtyDaysAgo (now : Date) (memberships : list Membership) : nat :=
  length
    (List.filter
       (fun membership =>
          let createdAt := parseTimestamp (created_at membership) in
          let cancelledAt := parseTimestamp (canceled_at membership) in
          match createdAt with
          | None => false
          | Some c =>
            if thirtyDaysAgo now <? c then false
            else match cancelledAt with
                 | Some x => if x <=? thirtyDaysAgo now then false else true
                 | None => true
                 end
          end)
       memberships).

(** Lines 534-543. *)
Definition cancelledInLast30Days (now : Date) (memberships : list Membership) : nat :=
  length
    (List.filter
       (fun membership =>
          match parseTimestamp (canceled_at membership) with
          | Some cancelledAt =>
            (thirtyDaysAgo now <=? cancelledAt) && (cancelledAt <=? now)
          | None => false
          end)
       memberships).

(** Lines 545-547. *)
Definition churnRate (now : Date) (memberships : list Membership) : Qc :=
  if decide (0 < subscribersThirtyDaysAgo now memberships)%nat
  then (Qc_of_Z (Z.of_nat (cancelledInLast30Days now memberships))
        / Qc_of_Z (Z.of_nat (subscribersThirtyDaysAgo now memberships))
        * Qc_of_Z 100)%Qc
  else 0%Qc.

(** [payment.usd_total ?? payment.total ?? payment.subtotal ?? 0],
    lines 574 and 603. *)
Definition paymentTotal (payment : Payment) : Qc :=
  match usd_total payment with
  | Value a => a
  | _ => match total payment with
         | Value b => b
         | _ => nullish_or (subtotal payment) 0%Qc
         end
  end.

(** Lines 551-561 and 572-576. *)
Definition revenueByDay (now : Date) (payments : list Payment) : gmap Z Qc :=
  fold_left
    (fun m payment =>
       match parseTimestamp (paid_at payment) with
       | None => m
       | Some paymentDate =>
         if (paymentDate <? ninetyDaysAgo now) || (now <? paymentDate) then m
         else
           let key := dateKey paymentDate in
           let current := default 0%Qc (m !! key) in
           <[key := (current + paymentTotal payment)%Qc]> m
       end)
    payments ∅.

(** Lines 578-586. *)
Definition revenueTrend (now : Date) (payments : list Payment) : list TrendEntry :=
  let byDay := revenueByDay now payments in
  map
    (fun i =>
       let key := dateKey (getDaysAgo now (Z.of_nat i)) in
       let dailyRevenue := default 0%Qc (byDay !! key) in
       {| date := key; trend_revenue := (dailyRevenue / Qc_of_Z 100)%Qc |})
    (countdown 89).

(** The filter of lines 592-595. *)
Definition in_last_30_days (now : Date) (payment : Payment) : bool :=
  match parseTimestamp (paid_at payment) with
  | Some paymentDate =>
    (thirtyDaysAgo now <=? paymentDate) && (paymentDate <=? now)
  | None => false
  end.

(** The body of [forEach], lines 600-615. *)
Definition record_payment (products : list Product) (m : ProductMap)
  (payment : Payment) : ProductMap :=
  match product_id_of payment with
  | Some productId =>
    if truthy_string (Some productId) then
      let existing := map_get productId m in
      let revenue := (paymentTotal payment / Qc_of_Z 100)%Qc in
      match existing with
      | Some _ => add_revenue productId revenue m
      | None =>
        m ++ [(productId,
               {| name := display_name products productId; revenue := revenue |})]
      end
    else m
  | None => m
  end.

(** Lines 589-615. *)
Definition productRevenueMap (now : Date) (payments : list Payment)
  (products : list Product) : ProductMap :=
  fold_left (record_payment products)
    (List.filter (in_last_30_days now) payments) [].

(** Lines 634-636. *)
Definition topProducts (now : Date) (payments : list Payment)
  (products : list Product) : list ProductRevenue :=
  take 5 (sort_by_revenue (map snd (productRevenueMap now payments products))).

(** The object passed to [NextResponse.json], lines 639-648. *)
Definition snapshot (now : Date) (memberships : list Membership)
  (payments : list Payment) (products : list Product) (plans : list PlanLike)
  : Snapshot :=
  {| body_metrics :=
       {| metrics_mrr :=
            (Qc_of_Z (Math_round (mrrCents (planMap plans) memberships))
             / Qc_of_Z 100)%Qc;
          metrics_churnRate :=
            (Qc_of_Z (Math_round (churnRate now memberships * Qc_of_Z 100))
             / Qc_of_Z 100)%Qc;
          metrics_newSubscriptions := newSubscriptions now memberships;
          metrics_totalActiveSubscribers := length (activeMemberships memberships) |};
     body_revenueTrend := revenueTrend now payments;
     body_topProducts := topProducts now payments products |}.

(** Lines 386-394. *)
Definition configError : ErrorBody :=
  {| error := "Missing Whop configuration";
     message := "NEXT_PUBLIC_WHOP_COMPANY_ID must be set to use the analytics dashboard." |}.

(** Lines 398 and 404-406. *)
Definition params (companyId : string)
  : ListParams * ListParams * ListParams * ListParams :=
  ({| company_id := Some companyId; first := 1000 |},
   {| company_id := Some companyId; first := 1000 |},
   {| company_id := Some companyId; first := 100 |},
   {| company_id := Some companyId; first := 200 |}).

(** The computation of the [try] block; on typed records it returns. *)
Definition compute (now : Date) (memberships : list Membership)
  (payments : list Payment) (products : list Product) (plans : list PlanLike)
  : Thrown + Snapshot :=
  inr (snapshot now memberships payments products plans).

(** [GET], lines 374-662; [companyId] is the environment's
    [NEXT_PUBLIC_WHOP_COMPANY_ID]. *)
Definition GET (companyId : option string) (sdk : Sdk) (now : Date) : Run :=
  handler configError params compute companyId sdk now.

End Metrics.
End R2.

(** ** The route with the [renewalPrice] plan map (lines 39-293) *)

Module R1.

(** A value of [planMap], lines 116-125. *)
Record PlanDetails := {
  renewalPrice : Qc;
  billingPeriodDays : option Qc;
  planType : field string
}.

Section Metrics.
Context `{Host}.

(** [parseTimestamp], lines 42-56.  [!value] holds of an absent value, of
    the number 0 and of the empty string. *)
Definition parseTimestamp (value : JsTime) : option Date :=
  let falsy :=
    match value with
    | TAbsent => true
    | TNum x => bool_decide (x = 0%Qc)
    | TStr s => String.eqb s ""
    end in
  if falsy then None
  else
    let numericValue :=
      match value with
      | TNum x => Some x
      | TStr s => Number_of_string s
      | TAbsent => None
      end in
    match numericValue with
    | Some x => Date_of_number (x * Qc_of_Z 1000)%Qc
    | None => Date_of_value value
    end.

(** Lines 116-125. *)
Definition planMap (plans : list PlanLike) : gmap string PlanDetails :=
  fold_left
    (fun m plan =>
       match plan_id plan with
       | Value i =>
         <[i := {| renewalPrice := nullish_or (renewal_price plan) 0%Qc;
                   billingPeriodDays :=
                     match billing_period plan with
                     | Value b => Some b
                     | _ => None
                     end;
                   planType := plan_type plan |}]> m
       | _ => m
       end)
    plans ∅.

Definition thirtyDaysAgo (now : Date) : Date := getDaysAgo now 30.

(** Lines 132-134. *)
Definition activeMemberships (memberships : list Membership) : list Membership :=
  List.filter
    (fun membership =>
       String.eqb (status membership) "active"
       || String.eqb (status membership) "trialing")
    memberships.

(** The plan details of [membership.plan.id], when that id is truthy. *)
Definition planDetails_of (pm : gmap string PlanDetails) (membership : Membership)
  : option PlanDetails :=
  if truthy_string (plan_id_of membership)
  then plan_id_of membership ≫= (fun i => pm !! i)
  else None.

(** Lines 136-153. *)
Definition getCycleLengthInDays (pm : gmap string PlanDetails)
  (membership : Membership) : option Qc :=
  let fromPlan :=
    match planDetails_of pm membership ≫= billingPeriodDays with
    | Some b => if decide (b ≠ 0%Qc ∧ (0 < b)%Qc) then Some b else None
    | None => None
    end in
  match parseTimestamp (renewal_period_start membership),
        parseTimestamp (renewal_period_end membership) with
  | Some start, Some end_ =>
    let diff := (Qc_of_Z (end_ - start) / Qc_of_Z ms_per_day)%Qc in
    if decide (0 < diff)%Qc then Some diff else fromPlan
  | _, _ => fromPlan
  end.

(** Lines 157-176. *)
Definition mrr (pm : gmap string PlanDetails) (memberships : list Membership) : Qc :=
  fold_left
    (fun sum membership =>
       match planDetails_of pm membership with
       | None => sum
       | Some planDetails =>
         match planType planDetails with
         | Value t =>
           if String.eqb t "renewal" then
             if decide (renewalPrice planDetails = 0%Qc) then sum
             else
               let cycleDays :=
                 default (Qc_of_Z 30) (getCycleLengthInDays pm membership) in
               let monthlyPrice :=
                 if decide (0 < cycleDays)%Qc
                 then (renewalPrice planDetails * (Qc_of_Z 30 / cycleDays))%Qc
                 else renewalPrice planDetails in
               (sum + monthlyPrice)%Qc
           else sum
         | _ => sum
         end
       end)
    (activeMemberships memberships) 0%Qc.

(** Lines 179-185. *)
Definition newSubscriptions (now : Date) (memberships : list Membership) : nat :=
  length
    (List.filter
       (fun membership =>
          match parseTimestamp (created_at membership) with
          | Some createdAt =>
            (thirtyDaysAgo now <=? createdAt) && (createdAt <=? now)
          | None => false
          end)
       memberships).

(** Lines 189-195. *)
Definition subscribersThirtyDaysAgo (now : Date) (memberships : list Membership) : nat :=
  length
    (List.filter
       (fun membership =>
          match parseTimestamp (created_at membership) with
          | Some createdAt => createdAt <=? thirtyDaysAgo now
          | None => false
          end)
       memberships).

(** Lines 197-205. *)
Definition cancelledInLast30Days (now : Date) (memberships : list Membership) : nat :=
  length
    (List.filter
       (fun membership =>
          match parseTimestamp (canceled_at membership) with
          | Some cancelledAt =>
            (thirtyDaysAgo now <=? cancelledAt) && (cancelledAt <=? now)
            && (String.eqb (status membership) "canceled"
                || String.eqb (status membership) "past_due")
          | None => false
          end)
       memberships).

(** Lines 207-209. *)
Definition churnRate (now : Date) (memberships : list Membership) : Qc :=
  if decide (0 < subscribersThirtyDaysAgo now memberships)%nat
  then (Qc_of_Z (Z.of_nat (cancelledInLast30Days now memberships))
        / Qc_of_Z (Z.of_nat (subscribersThirtyDaysAgo now memberships))
        * Qc_of_Z 100)%Qc
  else 0%Qc.

(** [Number(payment.total ?? payment.usd_total ?? 0)], lines 224 and 248. *)
Definition paymentTotal (payment : Payment) : Qc :=
  match total payment with
  | Value a => a
  | _ => nullish_or (usd_total payment) 0%Qc
  end.

(** Lines 212-232. *)
Definition revenueTrend (now : Date) (payments : list Payment) : list TrendEntry :=
  map
    (fun i =>
       let dateStr := dateKey (getDaysAgo now (Z.of_nat i)) in
       let dailyRevenue :=
         fold_left (fun sum payment => (sum + paymentTotal payment)%Qc)
           (List.filter
              (fun payment =>
                 match parseTimestamp (paid_at payment) with
                 | Some paymentDate => dateKey paymentDate =? dateStr
                 | None => false
                 end)
              payments)
           0%Qc in
       {| date := dateStr; trend_revenue := (dailyRevenue / Qc_of_Z 100)%Qc |})
    (countdown 89).

(** The filter of lines 238-241. *)
Definition in_last_30_days (now : Date) (payment : Payment) : bool :=
  match parseTimestamp (paid_at payment) with
  | Some paymentDate =>
    (thirtyDaysAgo now <=? paymentDate) && (paymentDate <=? now)
  | None => false
  end.

(** The body of [forEach], lines 243-261. *)
Definition record_payment (products : list Product) (m : ProductMap)
  (payment : Payment) : ProductMap :=
  match product_id_of payment with
  | Some productId =>
    if truthy_string (Some productId) then
      let revenue := (paymentTotal payment / Qc_of_Z 100)%Qc in
      match map_get productId m with
      | Some _ => add_revenue productId revenue m
      | None =>
        m ++ [(productId,
               {| name := display_name products productId; revenue := revenue |})]
      end
    else m
  | None => m
  end.

(** Lines 235-267. *)
Definition topProducts (now : Date) (payments : list Payment)
  (products : list Product) : list ProductRevenue :=
  take 5
    (sort_by_revenue
       (map snd
          (fold_left (record_payment products)
             (List.filter (in_last_30_days now) payments) []))).

(** The object passed to [NextResponse.json], lines 270-279. *)
Definition snapshot (now : Date) (memberships : list Membership)
  (payments : list Payment) (products : list Product) (plans : list PlanLike)
  : Snapshot :=
  {| body_metrics :=
       {| metrics_mrr :=
            (Qc_of_Z (Math_round (mrr (planMap plans) memberships))
             / Qc_of_Z 100)%Qc;
          metrics_churnRate :=
            (Qc_of_Z (Math_round (churnRate now memberships * Qc_of_Z 100))
             / Qc_of_Z 100)%Qc;
          metrics_newSubscriptions := newSubscriptions now memberships;
          metrics_totalActiveSubscribers := length (activeMemberships memberships) |};
     body_revenueTrend := revenueTrend now payments;
     body_topProducts := topProducts now payments products |}.

(** Lines 92-101. *)
Definition configError : ErrorBody :=
  {| error := "Failed to fetch analytics data";
     message := "Server configuration is missing WHOP_COMPANY_ID" |}.

(** Lines 104-109. *)
Definition params (companyId : string)
  : ListParams * ListParams * ListParams * ListParams :=
  ({| company_id := Some companyId; first := 1000 |},
   {| company_id := None; first := 1000 |},
   {| company_id := Some companyId; first := 100 |},
   {| company_id := Some companyId; first := 1000 |}).

(** The computation of the [try] block; on typed records it returns. *)
Definition compute (now : Date) (memberships : list Membership)
  (payments : list Payment) (products : list Product) (plans : list PlanLike)
  : Thrown + Snapshot :=
  inr (snapshot now memberships payments products plans).

(** [GET], lines 88-293; [companyId] is the environment's
    [WHOP_COMPANY_ID]. *)
Definition GET (companyId : option string) (sdk : Sdk) (now : Date) : Run :=
  handler configError params compute companyId sdk now.

End Metrics.
End R1.

(** ** The server's zone and clock *)

(** The offset of local time from UTC, in milliseconds: the one in force
    at an instant, and the one by which a local time is taken back to an
    instant (LocalTZA with its flag set and unset). *)
Record Zone := {
  offset_at : Date -> Z;
  offset_of_local : Z -> Z
}.

Definition LocalTime (z : Zone) (t : Date) : Z := t + offset_at z t.

Definition UTC (z : Zone) (t : Z) : Date := t - offset_of_local z t.

(** [date.setDate(date.getDate() - days)]: in local time the calendar day
    moves back by [days] and the time of day stays. *)
Definition setDate_back (z : Zone) (date : Date) (days : Z) : Date :=
  UTC z (LocalTime z date - days * ms_per_day).

(** The zone of the server, and what [new Date()] reads at its first,
    second, ... evaluation while a request is served. *)
Record Clock := {
  zone : Zone;
  reading : nat -> Date
}.

(** [getDaysAgo(days)], lines 59-63 and 320-324, when its [new Date()] is
    the [k]-th reading of the clock. *)
Definition getDaysAgo_at (clock : Clock) (k : nat) (days : Z) : Date :=
  setDate_back (zone clock) (reading clock k) days.

(** The revenue trend of lines 551-586 with the clock and the zone. *)
Module R2T.
Section Metrics.
Context `{Host}.
Variable clock : Clock.

(** [const now = new Date()], [getDaysAgo(30)] and [getDaysAgo(90)]: the
    first three readings. *)
Definition now : Date := reading clock 0.
Definition thirtyDaysAgo : Date := getDaysAgo_at clock 1 30.
Definition ninetyDaysAgo : Date := getDaysAgo_at clock 2 90.

(** Lines 551-561 and 572-576. *)
Definition revenueByDay (payments : list Payment) : gmap Z Qc :=
  fold_left
    (fun m payment =>
       match R2.parseTimestamp (paid_at payment) with
       | None => m
       | Some paymentDate =>
         if (paymentDate <? ninetyDaysAgo) || (now <? paymentDate) then m
         else
           let key := dateKey paymentDate in
           let current := default 0%Qc (m !! key) in
           <[key := (current + R2.paymentTotal payment)%Qc]> m
       end)
    payments ∅.

(** Lines 578-586: the iteration for [i] is the [(89 - i)]-th of the loop
    and reads the clock once. *)
Definition revenueTrend (payments : list Payment) : list TrendEntry :=
  let byDay := revenueByDay payments in
  map
    (fun i =>
       let key := dateKey (getDaysAgo_at clock (3 + (89 - i)) (Z.of_nat i)) in
       let dailyRevenue := default 0%Qc (byDay !! key) in
       {| date := key; trend_revenue := (dailyRevenue / Qc_of_Z 100)%Qc |})
    (countdown 89).

End Metrics.
End R2T.

(** The revenue trend of lines 212-232 with the clock and the zone; the
    loop follows the readings of [now] and [getDaysAgo(30)]. *)
Module R1T.
Section Metrics.
Context `{Host}.
Variable clock : Clock.

Definition revenueTrend (payments : list Payment) : list TrendEntry :=
  map
    (fun i =>
       let dateStr := dateKey (getDaysAgo_at clock (2 + (89 - i)) (Z.of_nat i)) in
       let dailyRevenue :=
         fold_left (fun sum payment => (sum + R1.paymentTotal payment)%Qc)
           (List.filter
              (fun payment =>
                 match R1.parseTimestamp (paid_at payment) with
                 | Some paymentDate => dateKey paymentDate =? dateStr
                 | None => false
                 end)
              payments)
           0%Qc in
       {| date := dateStr; trend_revenue := (dailyRevenue / Qc_of_Z 100)%Qc |})
    (countdown 89).

End Metrics.
End R1T.

(** ** Numbers as IEEE 754 doubles

    The sums of lines 483-501 and 600-636 are taken again on binary64
    numbers, with the operations of the Standard Library's [SpecFloat]
    (round to nearest, ties to even; infinities, NaN and signed zeros). *)

Definition float64 := spec_float.

Definition f64_add : float64 -> float64 -> float64 := SFadd 53 1024.
Definition f64_sub : float64 -> float64 -> float64 := SFsub 53 1024.
Definition f64_div : float64 -> float64 -> float64 := SFdiv 53 1024.

Definition f64_zero : float64 := S754_zero false.

(** The double of an integer literal. *)
Definition f64_of_Z (z : Z) : float64 := binary_normalize 53 1024 z 0 false.

(** The double a number of the JSON text is read as: the one nearest to
    the fraction (one rounding, of numerator over denominator). *)
Definition f64_of_Qc (q : Qc) : float64 :=
  match Qnum q with
  | Z0 => f64_zero
  | Zpos n => f64_div (S754_finite false n 0) (S754_finite false (Qden q) 0)
  | Zneg n => f64_div (S754_finite true n 0) (S754_finite false (Qden q) 0)
  end.

(** [x > 0], which NaN is not. *)
Definition is_positive (x : float64) : bool := SFltb f64_zero x.

(** The exponent of a finite double is at least -1074. *)
Definition lower_bounded (x : float64) : Prop :=
  match x with
  | S754_finite _ _ e => -1074 <= e
  | _ => True
  end.

(** Where a double stands among the others: below, among or above the
    finite ones, and for a finite one its value in units of 2^-1074. *)
Definition rank (x : float64) : Z * Z :=
  match x with
  | S754_zero _ => (0, 0)
  | S754_infinity s => (if s then -1 else 1, 0)
  | S754_nan => (0, 0)
  | S754_finite s m e => (0, cond_Zopp s (Zpos m * 2 ^ (e + 1074)))
  end.

Definition rank_lt (a b : Z * Z) : Prop := a.1 < b.1 \/ (a.1 = b.1 /\ a.2 < b.2).

(** A double that is not negative: +0, a positive finite double or
    +infinity. *)
Definition not_negative (x : float64) : Prop :=
  match x with
  | S754_zero false | S754_infinity false | S754_finite false _ _ => True
  | _ => False
  end.

Module R2F.

Record ProductRevenue := { name : string; revenue : float64 }.

Definition ProductMap := list (string * ProductRevenue).

Definition map_get (id : string) (m : ProductMap) : option ProductRevenue :=
  snd <$> find (fun kv => String.eqb kv.1 id) m.

(** [existing.revenue += r] on the entry of [id], line 607. *)
Fixpoint add_revenue (id : string) (r : float64) (m : ProductMap) : ProductMap :=
  match m with
  | [] => []
  | (k, e) :: m' =>
    if String.eqb k id
    then (k, {| name := name e; revenue := f64_add (revenue e) r |}) :: m'
    else (k, e) :: add_revenue id r m'
  end.

(** [(a, b) => b.revenue - a.revenue], line 635. *)
Definition comparator (a b : ProductRevenue) : float64 :=
  f64_sub (revenue b) (revenue a).

(** [Array.prototype.sort] is stable: where the comparator orders the
    elements consistently, [a] stays before a later [b] unless the
    comparator gives a positive number for them, and insertion computes
    the result.  (For a comparator that is not consistent the order is
    left to the engine.) *)
Fixpoint insert_sorted (a : ProductRevenue) (l : list ProductRevenue)
  : list ProductRevenue :=
  match l with
  | [] => [a]
  | b :: l' =>
    if is_positive (comparator a b)
    then b :: insert_sorted a l'
    else a :: b :: l'
  end.

Definition sort_by_revenue (l : list ProductRevenue) : list ProductRevenue :=
  foldr insert_sorted [] l.

(** Lines 492-498: [None] where the reducer returns [sum] unchanged. *)
Definition monthlyPrice (p : PlanLike) : option float64 :=
  match plan_type p with
  | Value t =>
    if String.eqb t "renewal" then
      let renewalPrice := f64_of_Qc (nullish_or (renewal_price p) 0%Qc) in
      let billingPeriod :=
        match billing_period p with
        | Value b => if is_positive (f64_of_Qc b) then f64_of_Qc b else f64_of_Z 1
        | _ => f64_of_Z 1
        end in
      Some (f64_div renewalPrice billingPeriod)
    else None
  | _ => None
  end.

(** Lines 483-501. *)
Definition mrrCents (pm : gmap string PlanLike) (memberships : list Membership)
  : float64 :=
  fold_left
    (fun sum membership =>
       match monthlyPrice (R2.effectivePlan pm membership) with
       | Some price => f64_add sum price
       | None => sum
       end)
    (R2.activeMemberships memberships) f64_zero.

Section Metrics.
Context `{Host}.

(** The filter of lines 592-595, on the constants [thirtyDaysAgo] and
    [now] of the handler. *)
Definition in_last_30_days (thirtyDaysAgo now : Date) (payment : Payment) : bool :=
  match R2.parseTimestamp (paid_at payment) with
  | Some paymentDate => (thirtyDaysAgo <=? paymentDate) && (paymentDate <=? now)
  | None => false
  end.

(** The body of [forEach], lines 600-615. *)
Definition record_payment (products : list Product) (m : ProductMap)
  (payment : Payment) : ProductMap :=
  match product_id_of payment with
  | Some productId =>
    if truthy_string (Some productId) then
      let existing := map_get productId m in
      let revenue := f64_div (f64_of_Qc (R2.paymentTotal payment)) (f64_of_Z 100) in
      match existing with
      | Some _ => add_revenue productId revenue m
      | None =>
        m ++ [(productId,
               {| name := display_name products productId; revenue := revenue |})]
      end
    else m
  | None => m
  end.

(** Lines 589-615. *)
Definition productRevenueMap (thirtyDaysAgo now : Date) (payments : list Payment)
  (products : list Product) : ProductMap :=
  fold_left (record_payment products)
    (List.filter (in_last_30_days thirtyDaysAgo now) payments) [].

(** Lines 634-636. *)
Definition topProducts (thirtyDaysAgo now : Date) (payments : list Payment)
  (products : list Product) : list ProductRevenue :=
  take 5 (sort_by_revenue (map snd (productRevenueMap thirtyDaysAgo now payments products))).

End Metrics.
End R2F.

(** ** A host for closed examples

    Texts made of decimal digits are numbers, no text is a date, and
    [trim] has nothing to remove from the texts used here. *)

Definition digit_value (c : Ascii.ascii) : option Z :=
  let n := Z.of_N (Ascii.N_of_ascii c) in
  if decide (48 <= n <= 57) then Some (n - 48) else None.

Fixpoint digits_value (acc : Z) (s : string) : option Z :=
  match s with
  | EmptyString => Some acc
  | String c s' =>
    match digit_value c with
    | Some d => digits_value (10 * acc + d) s'
    | None => None
    end
  end.

#[export] Instance digits_host : Host := {|
  Number_of_string := fun s => Qc_of_Z <$> digits_value 0 s;
  Date_of_string := fun _ => None;
  trim := fun s => s
|}.

(** ** Statements of the specification, in its own words *)

(** The sum of a list of amounts. *)
Definition sum_Qc (l : list Qc) : Qc := foldr Qcplus 0%Qc l.

(** "first non-null of a prioritized list of equivalent fields", 0 when
    all are absent. *)
Fixpoint first_non_null (fields : list (field Qc)) : Qc :=
  match fields with
  | [] => 0%Qc
  | Value a :: _ => a
  | _ :: rest => first_non_null rest
  end.

(** The amount of a payment as the specification resolves it: usd_total,
    then total, then subtotal, else 0. *)
Definition amount_of (p : Payment) : Qc :=
  first_non_null [usd_total p; total p; subtotal p].

(** An instant that is resolvable and lies in [[lo, hi]]. *)
Definition within (lo hi : Z) (t : option Date) : bool :=
  match t with
  | Some d => (lo <=? d) && (d <=? hi)
  | None => false
  end.

(** An instant that is resolvable and lies on or before [limit]. *)
Definition on_or_before (limit : Z) (t : option Date) : bool :=
  match t with
  | Some d => d <=? limit
  | None => false
  end.

(** How many records satisfy a test. *)
Definition count {A} (f : A -> bool) (l : list A) : nat := length (List.filter f l).

(** "created on or before now-30d and not (canceled on or before
    now-30d)", on normalized instants. *)
Definition live_30_days_ago `{Host} (now : Date) (m : Membership) : bool :=
  on_or_before (now - 30 * ms_per_day) (R2.parseTimestamp (created_at m))
  && negb (on_or_before (now - 30 * ms_per_day) (R2.parseTimestamp (canceled_at m))).

(** "canceled within [now-30d, now]". *)
Definition canceled_in_last_30_days `{Host} (now : Date) (m : Membership) : bool :=
  within (now - 30 * ms_per_day) now (R2.parseTimestamp (canceled_at m)).

(** The plan found by id, when the membership's plan has a usable id. *)
Definition resolved_plan (pm : gmap string PlanLike) (m : Membership)
  : option PlanLike :=
  match plan_id_of m with
  | Some i => if String.eqb i "" then None else pm !! i
  | None => None
  end.

(** [over]'s property when it has it, else [base]'s. *)
Definition override {A} (base over : field A) : field A :=
  match over with
  | Missing => base
  | Null => Null
  | Value a => Value a
  end.

(** "a resolvable created-at instant inside [now-90d, now]". *)
Definition in_last_90_days `{Host} (now : Date) (p : Payment) : bool :=
  within (now - 90 * ms_per_day) now (R2.parseTimestamp (paid_at p)).

(** The payment's calendar day is [k]. *)
Definition paid_on `{Host} (k : Z) (p : Payment) : bool :=
  match R2.parseTimestamp (paid_at p) with
  | Some d => dateKey d =? k
  | None => false
  end.

(** The payment's calendar day is one of the 90 days from that of
    now-89d on. *)
Definition paid_since_first_day `{Host} (now : Date) (p : Payment) : bool :=
  match R2.parseTimestamp (paid_at p) with
  | Some d => dateKey now - 89 <=? dateKey d
  | None => false
  end.

(** Minor units of the payments of the window that landed on day [k]. *)
Definition day_total `{Host} (now : Date) (k : Z) (payments : list Payment) : Qc :=
  sum_Qc (map R2.paymentTotal
            (List.filter (fun p => in_last_90_days now p && paid_on k p) payments)).

(** "total revenue of all payments whose date falls in the window",
    after major-unit conversion. *)
Definition window_total `{Host} (now : Date) (payments : list Payment) : Qc :=
  (sum_Qc (map R2.paymentTotal (List.filter (in_last_90_days now) payments))
   / Qc_of_Z 100)%Qc.

(** The same total without the payments that landed on the calendar day
    of now-90d. *)
Definition emitted_total `{Host} (now : Date) (payments : list Payment) : Qc :=
  (sum_Qc (map R2.paymentTotal
             (List.filter
                (fun p => in_last_90_days now p && paid_since_first_day now p)
                payments))
   / Qc_of_Z 100)%Qc.

(** The total, in major units, of the payments whose calendar day is one
    of the 90 days of the trend, whatever their instant. *)
Definition calendar_total `{Host} (now : Date) (payments : list Payment) : Qc :=
  (sum_Qc (map R2.paymentTotal
             (List.filter
                (fun p =>
                   match R2.parseTimestamp (paid_at p) with
                   | Some d => (dateKey now - 89 <=? dateKey d) && (dateKey d <=? dateKey now)
                   | None => false
                   end)
                payments))
   / Qc_of_Z 100)%Qc.

(** The sum over the entries of a trend. *)
Definition trend_total (trend : list TrendEntry) : Qc :=
  sum_Qc (map trend_revenue trend).

(** [n] consecutive days from day [a] on. *)
Definition days_from (a : Z) (n : nat) : list Z :=
  map (fun i => a + Z.of_nat i) (seq 0 n).

(** "a resolvable created-at inside [now-30d, now] and a resolvable
    product id". *)
Definition counts_for_products `{Host} (now : Date) (p : Payment) : bool :=
  within (now - 30 * ms_per_day) now (R2.parseTimestamp (paid_at p))
  && truthy_string (product_id_of p).

(** The product id of a payment that counts. *)
Definition counted_product `{Host} (now : Date) (p : Payment) : option string :=
  if counts_for_products now p then product_id_of p else None.

(** The distinct elements of a list, in the order in which each is first
    encountered. *)
Fixpoint first_encounters (l : list string) : list string :=
  match l with
  | [] => []
  | x :: l' =>
    x :: filter (fun y => y <> x) (first_encounters l')
  end.

(** The product ids of the payments that count, in first-encountered
    order. *)
Definition products_seen `{Host} (now : Date) (payments : list Payment) : list string :=
  first_encounters (omap (counted_product now) payments).

(** Major units accumulated for a product id over the payments that count. *)
Definition product_total `{Host} (now : Date) (payments : list Payment)
  (productId : string) : Qc :=
  sum_Qc
    (map (fun p => (R2.paymentTotal p / Qc_of_Z 100)%Qc)
       (List.filter
          (fun p => bool_decide (counted_product now p = Some productId))
          payments)).

(** The entry of a product id: its display name and its total. *)
Definition product_entry `{Host} (now : Date) (payments : list Payment)
  (products : list Product) (productId : string) : ProductRevenue :=
  {| name := display_name products productId;
     revenue := product_total now payments productId |}.

(** The map with the keys [ks], in that order, where each product id has
    its display name and the revenue [total] gives it. *)
Definition render (products : list Product) (total : string -> Qc)
  (ks : list string) : ProductMap :=
  map (fun i => (i, {| name := display_name products i; revenue := total i |})) ks.

(** A ranking by revenue, largest first. *)
Definition descending (a b : ProductRevenue) : Prop := (revenue b ≤ revenue a)%Qc.

(** The zone keeps one offset. *)
Definition fixed_offset (z : Zone) : Prop :=
  exists c, forall t, offset_at z t = c /\ offset_of_local z t = c.

(** The title the products collection lists for a product id: that of the
    first product with the id, when it is a text. *)
Definition listed_title (products : list Product) (productId : string)
  : option string :=
  match List.filter (fun p => bool_decide (product_id p = productId)) products with
  | p :: _ => match title p with Value t => Some t | _ => None end
  | [] => None
  end.

(** "resolves each product's display name from the Product collection by
    id with fallback label Product {id}". *)
Definition shown_name (products : list Product) (productId : string) : string :=
  match listed_title products productId with
  | Some t => if bool_decide (t = "") then "Product " +:+ productId else t
  | None => "Product " +:+ productId
  end.

(** "a resolvable product id": the id of the payment's product, when the
    payment has a product with an id that is not the empty text. *)
Definition resolvable_product_id (p : Payment) : option string :=
  match product p with
  | Some r =>
    match ref_id r with
    | Value i => if bool_decide (i = "") then None else Some i
    | _ => None
    end
  | None => None
  end.

(** "a resolvable created-at inside [lo, hi] and a resolvable product
    id". *)
Definition counts_between `{Host} (lo hi : Date) (p : Payment) : bool :=
  within lo hi (R2.parseTimestamp (paid_at p))
  && bool_decide (is_Some (resolvable_product_id p)).

(** The product id of a payment that counts. *)
Definition product_counted `{Host} (lo hi : Date) (p : Payment) : option string :=
  if counts_between lo hi p then resolvable_product_id p else None.

(** The product ids of the payments that count, in first-encountered
    order. *)
Definition products_between `{Host} (lo hi : Date) (payments : list Payment)
  : list string :=
  first_encounters (omap (product_counted lo hi) payments).

(** Doubles added up in list order, starting from the first. *)
Definition f64_sum (l : list float64) : float64 :=
  match l with
  | [] => f64_zero
  | x :: l' => fold_left f64_add l' x
  end.

(** The revenue accumulated for a product id: the amounts of its payments
    that count, each in major units, added up in the order of the
    payments. *)
Definition accumulated_revenue `{Host} (lo hi : Date) (payments : list Payment)
  (productId : string) : float64 :=
  f64_sum
    (map (fun p => f64_div (f64_of_Qc (amount_of p)) (f64_of_Z 100))
       (List.filter
          (fun p => bool_decide (product_counted lo hi p = Some productId))
          payments)).

(** The entry of a product id. *)
Definition entry_of `{Host} (lo hi : Date) (payments : list Payment)
  (products : list Product) (productId : string) : R2F.ProductRevenue :=
  {| R2F.name := shown_name products productId;
     R2F.revenue := accumulated_revenue lo hi payments productId |}.

(** [x] exceeds [y]: the difference [x - y] is positive. *)
Definition exceeds (x y : float64) : bool := is_positive (f64_sub x y).

(** A ranking by revenue, largest first: no entry is exceeded by a later
    one. *)
Definition descending64 (a b : R2F.ProductRevenue) : Prop :=
  exceeds (R2F.revenue b) (R2F.revenue a) = false.

Definition strictly_descending64 (a b : R2F.ProductRevenue) : Prop :=
  exceeds (R2F.revenue a) (R2F.revenue b) = true.

(** Two entries tie when neither revenue exceeds the other. *)
Definition tie (a b : R2F.ProductRevenue) : bool :=
  negb (exceeds (R2F.revenue a) (R2F.revenue b))
  && negb (exceeds (R2F.revenue b) (R2F.revenue a)).

(** The entries that tie with [e], in list order. *)
Definition tied_with (e : R2F.ProductRevenue) (l : list R2F.ProductRevenue)
  : list R2F.ProductRevenue :=
  List.filter (tie e) l.

(** The differences order the numbers of [l] consistently: of two numbers
    at most one exceeds the other, and a number that exceeds neither of
    two others lies between none of them (what sort asks of its
    comparator, and what holds of doubles none of which is NaN). *)
Definition consistent (l : list float64) : bool :=
  forallb
    (fun x =>
       forallb
         (fun y =>
            negb (exceeds x y && exceeds y x)
            && forallb
                 (fun z => implb (exceeds x z) (exceeds x y || exceeds y z))
                 l)
         l)
    l.

(** No two entries at different places tie. *)
Fixpoint no_tie (l : list R2F.ProductRevenue) : bool :=
  match l with
  | [] => true
  | a :: l' => forallb (fun b => negb (tie a b)) l' && no_tie l'
  end.

(** The map with the keys [ks], in that order, where each product id has
    its display name and the revenue [total] gives it. *)
Definition render64 (products : list Product) (total : string -> float64)
  (ks : list string) : R2F.ProductMap :=
  map (fun i => (i, {| R2F.name := display_name products i;
                       R2F.revenue := total i |})) ks.

(** "total revenue of all payments whose date falls in the window", for
    the window from [lo] to [hi], after major-unit conversion. *)
Definition total_between `{Host} (lo hi : Date) (payments : list Payment) : Qc :=
  (sum_Qc (map amount_of
             (List.filter (fun p => within lo hi (R2.parseTimestamp (paid_at p)))
                payments))
   / Qc_of_Z 100)%Qc.

(** ** Records used in closed examples *)

(** A membership created at the epoch and never cancelled. *)
Definition epoch_membership : Membership :=
  {| status := "active"; created_at := TNum 0%Qc; canceled_at := TAbsent;
     renewal_period_start := TAbsent; renewal_period_end := TAbsent;
     plan := None |}.

(** A membership created and cancelled at the epoch. *)
Definition epoch_cancelled_membership : Membership :=
  {| status := "canceled"; created_at := TNum 0%Qc; canceled_at := TNum 0%Qc;
     renewal_period_start := TAbsent; renewal_period_end := TAbsent;
     plan := None |}.

(** A payment of 500 made at the epoch. *)
Definition epoch_payment : Payment :=
  {| paid_at := TNum 0%Qc; usd_total := Value (Qc_of_Z 500); total := Missing;
     subtotal := Missing; product := Some {| ref_id := Value "prod_1" |} |}.

(** An operation that times out twice and then resolves to 42, and one
    that never gets through. *)
Definition fails_twice (i : nat) : string + Z :=
  if decide (i < 2)%nat then inl "ETIMEDOUT" else inr 42.

Definition always_fails (i : nat) : string + Z := inl "ECONNRESET".

(** List endpoints that always resolve with the same records, or always
    reject with the same error. *)
Definition resolves {A} (l : list A) : Endpoint A :=
  {| respond := fun _ => inr (Some l); latency := fun _ => 120 |}.

Definition rejects {A} (msg : string) : Endpoint A :=
  {| respond := fun _ => inl (ErrorObject msg); latency := fun _ => 30 |}.

(** A platform on which every collection is empty, and one on which the
    payments list is down. *)
Definition all_empty : Sdk :=
  {| memberships_list := fun _ => resolves [];
     payments_list := fun _ => resolves [];
     products_list := fun _ => resolves [];
     plans_list := fun _ => resolves [] |}.

Definition payments_down : Sdk :=
  {| memberships_list := fun _ => resolves [];
     payments_list := fun _ => rejects "upstream 502";
     products_list := fun _ => resolves [];
     plans_list := fun _ => resolves [] |}.

(** A quarterly renewal plan, 300 minor units every 90 days, embedded in
    an active membership and listed in the plans collection. *)
Definition quarterly_plan : PlanLike :=
  {| plan_id := Value "plan_q"; renewal_price := Value (Qc_of_Z 300);
     billing_period := Value (Qc_of_Z 90); plan_type := Value "renewal" |}.

Definition quarterly_membership : Membership :=
  {| status := "active"; created_at := TAbsent; canceled_at := TAbsent;
     renewal_period_start := TAbsent; renewal_period_end := TAbsent;
     plan := Some quarterly_plan |}.

(** The membership of the end-to-end example: active, with an embedded
    plan that has no id and a [null] billing period. *)
Definition embedded_plan : PlanLike :=
  {| plan_id := Missing; renewal_price := Value (Qc_of_Z 1000);
     billing_period := Null; plan_type := Value "renewal" |}.

Definition embedded_membership : Membership :=
  {| status := "active"; created_at := TAbsent; canceled_at := TAbsent;
     renewal_period_start := TAbsent; renewal_period_end := TAbsent;
     plan := Some embedded_plan |}.

(** One and a half days after day 100, and a payment of 500 made 13 hours
    into day 10, which is 89 days and 23 hours earlier. *)
Definition noon_of_day_100 : Date := 100 * ms_per_day + 12 * 3600000.

Definition payment_on_day_10 : Payment :=
  {| paid_at := TNum (Qc_of_Z (10 * 86400 + 13 * 3600));
     usd_total := Value (Qc_of_Z 500); total := Missing; subtotal := Missing;
     product := None |}.

(** A payment of 500 stamped 18 hours into day 100, six hours after
    [noon_of_day_100]. *)
Definition payment_later_today : Payment :=
  {| paid_at := TNum (Qc_of_Z (100 * 86400 + 18 * 3600));
     usd_total := Value (Qc_of_Z 500); total := Missing; subtotal := Missing;
     product := None |}.

(** Six payments on day 90, one per product, of 100, 600, 300, 500, 200
    and 400 minor units; the third product is in the catalogue. *)
Definition payment_for (productId : string) (amount : Z) : Payment :=
  {| paid_at := TNum (Qc_of_Z (90 * 86400)); usd_total := Value (Qc_of_Z amount);
     total := Missing; subtotal := Missing;
     product := Some {| ref_id := Value productId |} |}.

Definition six_payments : list Payment :=
  [payment_for "prod_a" 100; payment_for "prod_b" 600; payment_for "prod_c" 300;
   payment_for "prod_d" 500; payment_for "prod_e" 200; payment_for "prod_f" 400].

Definition catalogue : list Product :=
  [{| product_id := "prod_c"; title := Value "Course" |}].

(** Thirty days before [noon_of_day_100]. *)
Definition noon_of_day_70 : Date := 70 * ms_per_day + 12 * 3600000.

(** Payments of 30 minor units for one product and of 10 and 20 for
    another: 0.1 + 0.2 is a larger double than 0.3. *)
Definition thirty_and_ten_plus_twenty : list Payment :=
  [payment_for "prod_b" 30; payment_for "prod_a" 10; payment_for "prod_a" 20].

(** A server on UTC, and one on Europe/Berlin in the year 2026: UTC+1,
    and UTC+2 from 29 March 01:00 UTC (1774746000000) to 25 October
    01:00 UTC (1792890000000); the local hour that is skipped in March
    is taken at UTC+1, the one that comes twice in October at UTC+2. *)
Definition utc : Zone :=
  {| offset_at := fun _ => 0; offset_of_local := fun _ => 0 |}.

Definition europe_berlin_2026 : Zone :=
  {| offset_at := fun t =>
       if (1774746000000 <=? t) && (t <? 1792890000000) then 7200000 else 3600000;
     offset_of_local := fun t =>
       if (1774746000000 + 7200000 <=? t) && (t <? 1792890000000 + 7200000)
       then 7200000 else 3600000 |}.

(** A clock that reads [t] throughout a request. *)
Definition steady (z : Zone) (t : Date) : Clock :=
  {| zone := z; reading := fun _ => t |}.

(** 2026-03-29T23:30:00Z, which is 01:30 of 30 March in Berlin; day 20541
    is 29 March 2026. *)
Definition berlin_evening : Clock := steady europe_berlin_2026 1774827000000.

(** A payment of 500 made at noon UTC of 29 March 2026. *)
Definition payment_of_29_march : Payment :=
  {| paid_at := TNum (Qc_of_Z (20541 * 86400 + 12 * 3600));
     usd_total := Value (Qc_of_Z 500); total := Missing; subtotal := Missing;
     product := None |}.

(** Active memberships whose embedded renewal plans cost 1 minor unit
    every 12 days and every 3 days. *)
Definition plan_every (days : Z) : PlanLike :=
  {| plan_id := Missing; renewal_price := Value (Qc_of_Z 1);
     billing_period := Value (Qc_of_Z days); plan_type := Value "renewal" |}.

Definition member_paying_every (days : Z) : Membership :=
  {| status := "active"; created_at := TAbsent; canceled_at := TAbsent;
     renewal_period_start := TAbsent; renewal_period_end := TAbsent;
     plan := Some (plan_every days) |}.

(** A canceled membership on the quarterly plan. *)
Definition canceled_quarterly_membership : Membership :=
  {| status := "canceled"; created_at := TAbsent; canceled_at := TAbsent;
     renewal_period_start := TAbsent; renewal_period_end := TAbsent;
     plan := Some quarterly_plan |}.

(** ** Further statements about the code *)

(** The time spent on timers in a timeline. *)
Definition total_sleep (evs : list event) : Z := foldr Z.add 0 (sleeps evs).

(** The plan carries the id [i]. *)
Definition has_id (i : string) (p : PlanLike) : bool :=
  match plan_id p with
  | Value j => String.eqb j i
  | _ => false
  end.

(** The value [planMap] of lines 116-125 keeps for a plan. *)
Definition plan_details (p : PlanLike) : R1.PlanDetails :=
  {| R1.renewalPrice := nullish_or (renewal_price p) 0%Qc;
     R1.billingPeriodDays :=
       match billing_period p with Value b => Some b | _ => None end;
     R1.planType := plan_type p |}.

(** Under the parser of lines 42-56: the payment's calendar day is [k]. *)
Definition R1_paid_on `{Host} (k : Z) (p : Payment) : bool :=
  match R1.parseTimestamp (paid_at p) with
  | Some d => dateKey d =? k
  | None => false
  end.

(** Under the parser and the amount of lines 42-56 and 224: the total, in
    major units, of the payments whose calendar day is one of the 90 days
    of the trend. *)
Definition R1_calendar_total `{Host} (now : Date) (payments : list Payment) : Qc :=
  (sum_Qc (map R1.paymentTotal
             (List.filter
                (fun p =>
                   match R1.parseTimestamp (paid_at p) with
                   | Some d => (dateKey now - 89 <=? dateKey d) && (dateKey d <=? dateKey now)
                   | None => false
                   end)
                payments))
   / Qc_of_Z 100)%Qc.

(** A membership on the quarterly plan whose current renewal period runs
    for 30 days. *)
Definition renewing_membership : Membership :=
  {| status := "trialing"; created_at := TAbsent; canceled_at := TAbsent;
     renewal_period_start := TNum (Qc_of_Z 1700000000);
     renewal_period_end := TNum (Qc_of_Z 1702592000);
     plan := Some quarterly_plan |}.

(** A membership created on day 10 and canceled on day 90. *)
Definition churned_membership : Membership :=
  {| status := "canceled"; created_at := TNum (Qc_of_Z (10 * 86400));
     canceled_at := TNum (Qc_of_Z (90 * 86400));
     renewal_period_start := TAbsent; renewal_period_end := TAbsent;
     plan := None |}.

(** A membership created thirty days before [noon_of_day_100], to the
    millisecond. *)
Definition boundary_membership : Membership :=
  {| status := "active"; created_at := TNum (Qc_of_Z (70 * 86400 + 12 * 3600));
     canceled_at := TAbsent;
     renewal_period_start := TAbsent; renewal_period_end := TAbsent;
     plan := None |}.

(** The same membership, canceled on day 20. *)
Definition boundary_membership_canceled : Membership :=
  {| status := "canceled"; created_at := TNum (Qc_of_Z (70 * 86400 + 12 * 3600));
     canceled_at := TNum (Qc_of_Z (20 * 86400));
     renewal_period_start := TAbsent; renewal_period_end := TAbsent;
     plan := None |}.

(** * Properties of the route *)

(** Order goals on [Qc] are sent to [lra] on the underlying fractions. *)
Ltac qc_lra :=
  unfold Qcle, Qclt, Qcmult, Qcplus, Qcminus, Qcopp, Q2Qc, Qc_of_Z,
    max_time_value in *;
  simpl this in *; rewrite ?Qred_correct in *; unfold inject_Z in *;
  repeat match goal with
         | |- context [Z.opp (Zpos ?p)] => change (Z.opp (Zpos p)) with (Zneg p)
         | H : context [Z.opp (Zpos ?p)] |- _ =>
           change (Z.opp (Zpos p)) with (Zneg p) in H
         end;
  lra.

(** ** Timestamp normalizer *)

Lemma Date_of_number_in_range (x : Qc) :
  (Qc_of_Z (- max_time_value) ≤ x)%Qc -> (x ≤ Qc_of_Z max_time_value)%Qc ->
  Date_of_number x = Some (truncate x).
Proof.
  intros Hlo Hhi. unfold Date_of_number.
  destruct (decide _) as [_ | Hn]; [reflexivity | tauto].
Qed.

(** A number up to the threshold is read as seconds. *)
Lemma parseTimestamp_seconds `{Host} (x : Qc) :
  (Qc_of_Z (-8640000000000) ≤ x)%Qc -> (x ≤ Qc_of_Z 1000000000000)%Qc ->
  R2.parseTimestamp (TNum x) = Some (truncate (x * Qc_of_Z 1000)%Qc).
Proof.
  intros Hlo Hhi. unfold R2.parseTimestamp.
  destruct (decide (Qc_of_Z 1000000000000 < x)%Qc) as [Hgt | _].
  - exfalso. apply (Qclt_not_le _ _ Hgt Hhi).
  - rewrite Date_of_number_in_range; [reflexivity | qc_lra | qc_lra].
Qed.

(** A number above the threshold is read as milliseconds. *)
Lemma parseTimestamp_milliseconds `{Host} (x : Qc) :
  (Qc_of_Z 1000000000000 < x)%Qc -> (x ≤ Qc_of_Z max_time_value)%Qc ->
  R2.parseTimestamp (TNum x) = Some (truncate x).
Proof.
  intros Hlo Hhi. unfold R2.parseTimestamp.
  destruct (decide (Qc_of_Z 1000000000000 < x)%Qc) as [_ | Hn]; [| tauto].
  rewrite Date_of_number_in_range; [reflexivity | qc_lra | assumption].
Qed.

(** C7, as stated, fails at the epoch seconds of 2000-01-01T00:00:00Z:
    the number is read as seconds, and so is its thousandfold, which does
    not exceed the threshold. *)
Lemma C7_counterexample :
  R2.parseTimestamp (TNum (Qc_of_Z 946684800)) = Some 946684800000 /\
  R2.parseTimestamp (TNum (Qc_of_Z 946684800 * Qc_of_Z 1000)%Qc)
  = Some 946684800000000 /\
  R2.parseTimestamp (TNum (Qc_of_Z 946684800))
  <> R2.parseTimestamp (TNum (Qc_of_Z 946684800 * Qc_of_Z 1000)%Qc).
Proof. vm_compute. repeat split; congruence. Qed.

(** A number below the range of seconds is not a date as seconds; the
    fallback [new Date(value)] reads it as milliseconds where it can. *)
Lemma parseTimestamp_fallback `{Host} (x : Qc) :
  (x < Qc_of_Z (-8640000000000))%Qc ->
  R2.parseTimestamp (TNum x) = Date_of_number x.
Proof.
  intros Hlo. unfold R2.parseTimestamp, Date_of_value.
  destruct (decide (Qc_of_Z 1000000000000 < x)%Qc) as [Hgt | _]; [exfalso; qc_lra |].
  unfold Date_of_number at 1.
  destruct (decide _) as [[Hlo' _] | _]; [exfalso; qc_lra | reflexivity].
Qed.

Lemma parseTimestamp_too_large `{Host} (x : Qc) :
  (Qc_of_Z max_time_value < x)%Qc -> R2.parseTimestamp (TNum x) = None.
Proof.
  intros Hbig. unfold R2.parseTimestamp, Date_of_value, Date_of_number.
  destruct (decide (Qc_of_Z 1000000000000 < x)%Qc) as [_ | Hn]; [| exfalso; qc_lra].
  destruct (decide _) as [[_ Hle] | _]; [exfalso; qc_lra | reflexivity].
Qed.

(** C7 (amended): for epoch seconds [t] with 10^9 < t <= 10^12 the
    normalizer gives the same instant for [t] and for [t * 1000]; a
    number [x] is read as epoch seconds when -8.64e12 <= x <= 10^12 and
    as epoch milliseconds when 10^12 < x <= 8.64e15, and also, through
    the fallback, when -8.64e15 <= x < -8.64e12; beyond 8.64e15 on either
    side it is no instant. *)
Theorem C7_seconds_milliseconds_equivalence `{Host} (t x : Qc) :
  (Qc_of_Z 1000000000 < t)%Qc -> (t ≤ Qc_of_Z 1000000000000)%Qc ->
  (R2.parseTimestamp (TNum t) = Some (truncate (t * Qc_of_Z 1000)%Qc) /\
   R2.parseTimestamp (TNum (t * Qc_of_Z 1000)%Qc)
   = Some (truncate (t * Qc_of_Z 1000)%Qc) /\
   R2.parseTimestamp (TNum (t * Qc_of_Z 1000)%Qc) = R2.parseTimestamp (TNum t)) /\
  ((Qc_of_Z (-8640000000000) ≤ x)%Qc -> (x ≤ Qc_of_Z 1000000000000)%Qc ->
   R2.parseTimestamp (TNum x) = Some (truncate (x * Qc_of_Z 1000)%Qc)) /\
  ((Qc_of_Z 1000000000000 < x)%Qc -> (x ≤ Qc_of_Z max_time_value)%Qc ->
   R2.parseTimestamp (TNum x) = Some (truncate x)) /\
  ((Qc_of_Z (- max_time_value) ≤ x)%Qc -> (x < Qc_of_Z (-8640000000000))%Qc ->
   R2.parseTimestamp (TNum x) = Some (truncate x)) /\
  ((Qc_of_Z max_time_value < x)%Qc \/ (x < Qc_of_Z (- max_time_value))%Qc ->
   R2.parseTimestamp (TNum x) = None).
Proof.
  intros Hlo Hhi. split.
  { assert (Hs : R2.parseTimestamp (TNum t) = Some (truncate (t * Qc_of_Z 1000)%Qc)).
    { apply parseTimestamp_seconds; [qc_lra | assumption]. }
    assert (Hm : R2.parseTimestamp (TNum (t * Qc_of_Z 1000)%Qc)
                 = Some (truncate (t * Qc_of_Z 1000)%Qc)).
    { apply parseTimestamp_milliseconds; qc_lra. }
    rewrite Hs, Hm. auto. }
  split; [apply parseTimestamp_seconds |].
  split; [apply parseTimestamp_milliseconds |].
  split.
  - intros Hx Hx'. rewrite parseTimestamp_fallback by exact Hx'.
    apply Date_of_number_in_range; [exact Hx | qc_lra].
  - intros [Hbig | Hsmall]; [now apply parseTimestamp_too_large |].
    rewrite parseTimestamp_fallback by qc_lra.
    unfold Date_of_number.
    destruct (decide _) as [[Hlo' _] | _]; [| reflexivity].
    exfalso. apply (Qclt_not_le _ _ Hsmall Hlo').
Qed.

Lemma C7_witness :
  (Qc_of_Z 1000000000 < Qc_of_Z 1700000000)%Qc /\
  (Qc_of_Z 1700000000 ≤ Qc_of_Z 1000000000000)%Qc /\
  R2.parseTimestamp (TNum (Qc_of_Z 1700000000 * Qc_of_Z 1000)%Qc)
  = R2.parseTimestamp (TNum (Qc_of_Z 1700000000)) /\
  R2.parseTimestamp (TNum (Qc_of_Z (-8640000000001))) = Some (-8640000000001).
Proof.
  assert (Hlo : (Qc_of_Z 1000000000 < Qc_of_Z 1700000000)%Qc) by reflexivity.
  assert (Hhi : (Qc_of_Z 1700000000 ≤ Qc_of_Z 1000000000000)%Qc)
    by (vm_compute; discriminate).
  split; [exact Hlo | split; [exact Hhi |]].
  destruct (C7_seconds_milliseconds_equivalence (Qc_of_Z 1700000000)
              (Qc_of_Z (-8640000000001)) Hlo Hhi)
    as ((_ & _ & Heq) & _ & _ & Hfallback & _).
  split; [exact Heq |].
  rewrite Hfallback; [reflexivity | vm_compute; discriminate | reflexivity].
Defined.

Lemma filter_all_false {A} (f : A -> bool) (l : list A) :
  Forall (fun x => f x = false) l -> List.filter f l = [].
Proof.
  induction 1 as [| x l Hx _ IH]; [reflexivity |].
  simpl. rewrite Hx. exact IH.
Qed.

Lemma R1_parse_epoch `{Host} : R1.parseTimestamp (TNum 0%Qc) = None.
Proof. reflexivity. Qed.

Lemma R1_parse_empty `{Host} : R1.parseTimestamp (TStr "") = None.
Proof. reflexivity. Qed.

Lemma R2_parse_epoch `{Host} : R2.parseTimestamp (TNum 0%Qc) = Some 0.
Proof. reflexivity. Qed.

Lemma R2_parse_empty `{Host} :
  trim "" = "" -> Date_of_string "" = None -> R2.parseTimestamp (TStr "") = None.
Proof. intros Ht Hd. unfold R2.parseTimestamp. rewrite Ht. simpl. exact Hd. Qed.

(** C10, as stated, fails on the normalizer of lines 349-370, whose guard
    tests [null] and [undefined] only: the number 0 is the epoch instant. *)
Lemma C10_counterexample : R2.parseTimestamp (TNum 0%Qc) <> None.
Proof. vm_compute. discriminate. Qed.

(** C10 (amended): the normalizer guarded by [!value] (lines 42-56) maps
    the number 0 and the empty text to none, so that memberships and
    payments stamped with either are left out by every window filter of
    that listing; the normalizer guarded by [=== null || === undefined]
    (lines 349-370) maps the empty text to none as well, but the number 0
    to the epoch instant, and a membership created at the epoch is then
    counted among the subscribers of thirty days ago. *)
Theorem C10_epoch_and_empty_text `{Host} (now : Date)
  (memberships : list Membership) (payments : list Payment)
  (products : list Product) (m : Membership) :
  trim "" = "" -> Date_of_string "" = None ->
  Forall (fun x => (created_at x = TNum 0%Qc \/ created_at x = TStr "")
                   /\ (canceled_at x = TNum 0%Qc \/ canceled_at x = TStr ""))
    memberships ->
  Forall (fun p => paid_at p = TNum 0%Qc \/ paid_at p = TStr "") payments ->
  created_at m = TNum 0%Qc -> canceled_at m = TAbsent -> 0 <= R2.thirtyDaysAgo now ->
  (R1.parseTimestamp (TNum 0%Qc) = None /\ R1.parseTimestamp (TStr "") = None) /\
  (R1.newSubscriptions now memberships = 0%nat /\
   R1.subscribersThirtyDaysAgo now memberships = 0%nat /\
   R1.cancelledInLast30Days now memberships = 0%nat /\
   Forall (fun e => trend_revenue e = 0%Qc) (R1.revenueTrend now payments) /\
   R1.topProducts now payments products = []) /\
  (R2.parseTimestamp (TStr "") = None /\
   R2.parseTimestamp (TNum 0%Qc) = Some 0 /\
   R2.subscribersThirtyDaysAgo now [m] = 1%nat /\
   R1.subscribersThirtyDaysAgo now [m] = 0%nat).
Proof.
  intros Ht Hd Hms Hps Hc Hx Hnow.
  split; [split; reflexivity |]. split.
  - assert (Hcreated : forall f : Date -> bool,
      List.filter (fun x => match R1.parseTimestamp (created_at x) with
                            | Some d => f d | None => false end) memberships = []).
    { intros f. apply filter_all_false. eapply Forall_impl; [exact Hms |].
      intros x [[-> | ->] _]; reflexivity. }
    assert (Hpaid : forall f : Date -> bool,
      List.filter (fun p => match R1.parseTimestamp (paid_at p) with
                            | Some d => f d | None => false end) payments = []).
    { intros f. apply filter_all_false. eapply Forall_impl; [exact Hps |].
      intros x [-> | ->]; reflexivity. }
    repeat split.
    + unfold R1.newSubscriptions. now rewrite Hcreated.
    + unfold R1.subscribersThirtyDaysAgo. now rewrite Hcreated.
    + unfold R1.cancelledInLast30Days. rewrite filter_all_false; [reflexivity |].
      eapply Forall_impl; [exact Hms |]. intros x [_ [-> | ->]]; reflexivity.
    + unfold R1.revenueTrend. apply Forall_map, Forall_forall. intros i _.
      simpl. rewrite Hpaid. apply Qcmult_0_l.
    + unfold R1.topProducts, R1.in_last_30_days. now rewrite Hpaid.
  - split; [now apply R2_parse_empty |]. split; [reflexivity |]. split.
    + unfold R2.subscribersThirtyDaysAgo. simpl. rewrite Hc, Hx.
      change (R2.parseTimestamp (TNum 0%Qc)) with (Some 0).
      change (R2.parseTimestamp TAbsent) with (@None Date).
      destruct (R2.thirtyDaysAgo now <? 0) eqn:E; [lia | now rewrite E].
    + unfold R1.subscribersThirtyDaysAgo. simpl. now rewrite Hc.
Qed.

Lemma C10_witness :
  R1.subscribersThirtyDaysAgo 8640000000 [epoch_membership] = 0%nat /\
  R2.subscribersThirtyDaysAgo 8640000000 [epoch_membership] = 1%nat.
Proof.
  assert (Hms : Forall
            (fun x => (created_at x = TNum 0%Qc \/ created_at x = TStr "")
                      /\ (canceled_at x = TNum 0%Qc \/ canceled_at x = TStr ""))
            [epoch_cancelled_membership]).
  { repeat constructor. }
  assert (Hps : Forall (fun p => paid_at p = TNum 0%Qc \/ paid_at p = TStr "")
                  [epoch_payment]).
  { repeat constructor. }
  assert (Hnow : 0 <= R2.thirtyDaysAgo 8640000000) by (vm_compute; discriminate).
  pose proof (C10_epoch_and_empty_text 8640000000 [epoch_cancelled_membership]
                [epoch_payment] [] epoch_membership eq_refl eq_refl Hms Hps
                eq_refl eq_refl Hnow) as (_ & _ & _ & _ & H2 & H1).
  split; [exact H1 | exact H2].
Defined.

(** ** Retry wrapper *)

Section RetryFacts.
Context {E T : Type}.
Variable fn : nat -> E + T.
Variable maxRetries : nat.
Variable initialDelay : Z.

Lemma retry_loop_succeeds (j : nat) :
  forall (remaining i : nat) (lastError : option E) (v : T),
  (j < remaining)%nat -> (i + j < maxRetries)%nat ->
  (forall x, (i <= x < i + j)%nat -> exists e, fn x = inl e) ->
  fn (i + j)%nat = inr v ->
  retry_loop fn maxRetries initialDelay remaining i lastError
  = (inr v, timers_from initialDelay i j ++ [Attempt (i + j)]).
Proof.
  induction j as [| j IH]; intros remaining i lastError v Hrem Hmax Hfail Hok.
  - destruct remaining as [| r]; [lia |]. simpl.
    rewrite Nat.add_0_r in Hok. rewrite Hok. now rewrite Nat.add_0_r.
  - destruct remaining as [| r]; [lia |]. simpl.
    destruct (Hfail i ltac:(lia)) as [e He]. rewrite He.
    destruct (decide _) as [_ | Hn]; [| lia].
    rewrite (IH r (S i) (Some e) v); try lia.
    + unfold timers_from. simpl. replace (i + S j)%nat with (S (i + j)) by lia.
      reflexivity.
    + intros x Hx. apply Hfail. lia.
    + replace (S i + j)%nat with (i + S j)%nat by lia. exact Hok.
Qed.

Lemma retry_loop_exhausted (remaining : nat) :
  forall (i : nat) (lastError : option E),
  (1 <= remaining)%nat -> (i + remaining = maxRetries)%nat ->
  (forall x, (i <= x < maxRetries)%nat -> exists e, fn x = inl e) ->
  exists e, fn (maxRetries - 1)%nat = inl e /\
    retry_loop fn maxRetries initialDelay remaining i lastError
    = (inl (Some e), timers_from initialDelay i (remaining - 1) ++ [Attempt (maxRetries - 1)]).
Proof.
  induction remaining as [| r IH]; intros i lastError Hrem Hsum Hfail; [lia |].
  destruct (Hfail i ltac:(lia)) as [e He]. simpl. rewrite He.
  destruct r as [| r].
  - exists e. replace (maxRetries - 1)%nat with i by lia. split; [exact He |].
    destruct (decide _) as [Hlt | _]; [lia |]. reflexivity.
  - destruct (IH (S i) (Some e)) as (e' & He' & Hrun); try lia.
    { intros x Hx. apply Hfail. lia. }
    exists e'. split; [exact He' |]. rewrite Hrun.
    destruct (decide _) as [_ | Hn]; [| lia].
    simpl. now rewrite Nat.sub_0_r.
Qed.
End RetryFacts.

Lemma sleeps_backoff_schedule (d : Z) (k : nat) :
  sleeps (backoff_schedule d k)
  = map (fun i => d * 2 ^ Z.of_nat i) (seq 0 (k - 1)).
Proof.
  unfold backoff_schedule, sleeps, timers_from. rewrite flat_map_app. simpl.
  rewrite app_nil_r.
  induction (seq 0 (k - 1)) as [| x l IH]; [reflexivity |].
  simpl. now rewrite IH.
Qed.

(** With no attempt allowed the loop body never runs and [undefined] is
    thrown. *)
Lemma retryWithBackoff_no_attempt {E T : Type} (fn : nat -> E + T) (d : Z) :
  retryWithBackoff fn 0 d = (inl None, []).
Proof. reflexivity. Qed.

(** C8: with [n] attempts allowed, an operation that fails on attempts
    1..k-1 and succeeds on attempt k <= n makes the wrapper return the
    success value after the timeline attempt, timer [initialDelay * 2^0],
    attempt, timer [initialDelay * 2^1], ..., attempt k, with no timer
    after it; an operation that fails on all [n] attempts makes it throw
    the failure of the last attempt, after the same timeline of [n]
    attempts, again with no timer after the last one.  A success on the
    third attempt waits [initialDelay], then [2 * initialDelay]. *)
Theorem C8_retryWithBackoff {E T : Type} (fn : nat -> E + T) (n : nat) (d : Z) :
  (forall (k : nat) (v : T),
      (1 <= k <= n)%nat ->
      (forall j, (j < k - 1)%nat -> exists e, fn j = inl e) ->
      fn (k - 1)%nat = inr v ->
      retryWithBackoff fn n d = (inr v, backoff_schedule d k)) /\
  ((1 <= n)%nat ->
   (forall j, (j < n)%nat -> exists e, fn j = inl e) ->
   exists e, fn (n - 1)%nat = inl e /\
     retryWithBackoff fn n d = (inl (Some e), backoff_schedule d n)) /\
  (forall k, sleeps (backoff_schedule d k)
             = map (fun i => d * 2 ^ Z.of_nat i) (seq 0 (k - 1))) /\
  backoff_schedule d 3 = [Attempt 0; Sleep d; Attempt 1; Sleep (2 * d); Attempt 2].
Proof.
  split; [| split; [| split]].
  - intros k v Hk Hfail Hok. unfold retryWithBackoff, backoff_schedule.
    apply (retry_loop_succeeds fn n d (k - 1) n 0%nat None v); try lia.
    + intros x Hx. apply Hfail. lia.
    + exact Hok.
  - intros Hn Hfail. unfold retryWithBackoff, backoff_schedule.
    apply (retry_loop_exhausted fn n d n 0%nat None); try lia.
    intros x Hx. apply Hfail. lia.
  - apply sleeps_backoff_schedule.
  - unfold backoff_schedule. simpl. f_equal. f_equal; [f_equal; lia |].
    f_equal. f_equal. f_equal. lia.
Qed.

Lemma C8_witness :
  retryWithBackoff fails_twice 3 1000
  = (inr 42, [Attempt 0; Sleep 1000; Attempt 1; Sleep 2000; Attempt 2]) /\
  exists e, always_fails 2%nat = inl e /\
    retryWithBackoff always_fails 3 1000
    = (inl (Some e), [Attempt 0; Sleep 1000; Attempt 1; Sleep 2000; Attempt 2]).
Proof.
  split.
  - apply (proj1 (C8_retryWithBackoff fails_twice 3 1000) 3%nat 42).
    + lia.
    + intros j Hj. exists "ETIMEDOUT". destruct j as [| [| j]]; [reflexivity | reflexivity | simpl in Hj; lia].
    + reflexivity.
  - apply (proj1 (proj2 (C8_retryWithBackoff always_fails 3 1000))).
    + lia.
    + intros j _. exists "ECONNRESET". reflexivity.
Defined.

(** ** Aggregation endpoint *)

Lemma first_rejection_fold (settled : list (option (option Thrown) * Z)) :
  forall best : option (option Thrown * Z),
  let step := fun (best : option (option Thrown * Z)) (s : option (option Thrown) * Z) =>
       match s.1, best with
       | None, _ => best
       | Some e, None => Some (e, s.2)
       | Some e, Some (_, t) => if decide (s.2 < t) then Some (e, s.2) else best
       end in
  (fold_left step settled best = None <->
   best = None /\ Forall (fun s => s.1 = None) settled).
Proof.
  induction settled as [| s l IH]; intros best step.
  - simpl. split; [intros ->; split; [reflexivity | constructor] | tauto].
  - simpl. subst step. rewrite IH. destruct s as [[e |] t]; simpl.
    + destruct best as [[e' t'] |].
      * destruct (decide (t < t')); split; intros [Hb Hl]; try discriminate;
          inversion Hl; discriminate.
      * split; intros [Hb Hl]; try discriminate. inversion Hl; discriminate.
    + split; intros [Hb Hl]; (split; [exact Hb |]).
      * constructor; [reflexivity | exact Hl].
      * now inversion Hl.
Qed.

Lemma first_rejection_None (settled : list (option (option Thrown) * Z)) :
  first_rejection settled = None <-> Forall (fun s => s.1 = None) settled.
Proof.
  unfold first_rejection. rewrite fmap_None.
  rewrite (first_rejection_fold settled None). tauto.
Qed.

Lemma catch_block_shape (e : option Thrown) :
  exists msg, catch_block e
              = JsonError {| error := "Failed to fetch analytics data"; message := msg |} 500.
Proof. unfold catch_block. eauto. Qed.

Section HandlerFacts.
Variable configError : ErrorBody.
Variable params : string -> ListParams * ListParams * ListParams * ListParams.
Variable compute :
  Date -> list Membership -> list Payment -> list Product -> list PlanLike ->
  Thrown + Snapshot.

Lemma handler_unconfigured (companyId : option string) (sdk : Sdk) (now : Date) :
  truthy_string companyId = false ->
  handler configError params compute companyId sdk now
  = {| response := JsonError configError 500; timelines := [] |}.
Proof.
  intros Hc. unfold handler, try_block. destruct companyId as [c |]; [| reflexivity].
  now rewrite Hc.
Qed.

Lemma handler_configured (c : string) (sdk : Sdk) (now : Date) :
  truthy_string (Some c) = true ->
  response (handler configError params compute (Some c) sdk now)
  = match (fetch_and_compute params compute c sdk now).1 with
    | inl e => catch_block e
    | inr resp => resp
    end.
Proof. intros Hc. unfold handler, try_block. now rewrite Hc. Qed.

Lemma fetch_and_compute_resolved (c : string) (sdk : Sdk) (now : Date)
  ms ps rs ls :
  (fetch (memberships_list sdk (params c).1.1.1)).1 = inr ms ->
  (fetch (payments_list sdk (params c).1.1.2)).1 = inr ps ->
  (fetch (products_list sdk (params c).1.2)).1 = inr rs ->
  (fetch (plans_list sdk (params c).2)).1 = inr ls ->
  (fetch_and_compute params compute c sdk now).1
  = match compute now (default [] ms) (default [] ps) (default [] rs) (default [] ls) with
    | inl e => inl (Some e)
    | inr body => inr (JsonOk body)
    end.
Proof.
  intros Hm Hp Hr Hl. unfold fetch_and_compute. rewrite Hm, Hp, Hr, Hl.
  replace (first_rejection _) with (@None (option Thrown)).
  2:{ symmetry. apply first_rejection_None. repeat constructor. }
  destruct ms, ps, rs, ls; simpl; destruct (compute _ _ _ _ _); reflexivity.
Qed.

Lemma fetch_and_compute_rejected (c : string) (sdk : Sdk) (now : Date) :
  rejection (fetch (memberships_list sdk (params c).1.1.1)).1 <> None \/
  rejection (fetch (payments_list sdk (params c).1.1.2)).1 <> None \/
  rejection (fetch (products_list sdk (params c).1.2)).1 <> None \/
  rejection (fetch (plans_list sdk (params c).2)).1 <> None ->
  exists e, (fetch_and_compute params compute c sdk now).1 = inl e.
Proof.
  intros Hrej. unfold fetch_and_compute.
  destruct (first_rejection _) as [e |] eqn:Hfirst; [eauto |].
  exfalso. apply first_rejection_None in Hfirst.
  inversion_clear Hfirst as [| ? ? H1 Hf1]. inversion_clear Hf1 as [| ? ? H2 Hf2].
  inversion_clear Hf2 as [| ? ? H3 Hf3]. inversion_clear Hf3 as [| ? ? H4 _].
  simpl in *. tauto.
Qed.
End HandlerFacts.

Lemma fetch_and_compute_response params' compute' c sdk now resp :
  (fetch_and_compute params' compute' c sdk now).1 = inr resp ->
  exists body, resp = JsonOk body.
Proof.
  unfold fetch_and_compute. destruct (first_rejection _); [discriminate |].
  destruct (compute' _ _ _ _ _) as [e | body]; [discriminate |].
  simpl. intros [= <-]. eauto.
Qed.

(** C9: without a (non-empty) company identifier the endpoint answers
    with the configuration error body and status 500 and no list call is
    made; with one, as soon as one of the four retried calls is rejected
    the answer is an [{error, message}] body with status 500, and when all
    four resolve the answer is the snapshot computed from their data, or
    the [{error, message}] body of whatever the computation threw.  Every
    invocation therefore answers with a whole snapshot or with an error
    of status 500. *)
Theorem C9_all_or_nothing (configError : ErrorBody)
  (params : string -> ListParams * ListParams * ListParams * ListParams)
  (compute : Date -> list Membership -> list Payment -> list Product ->
             list PlanLike -> Thrown + Snapshot)
  (companyId : option string) (sdk : Sdk) (now : Date) :
  let run := handler configError params compute companyId sdk now in
  (truthy_string companyId = false ->
   run = {| response := JsonError configError 500; timelines := [] |}) /\
  (forall c, companyId = Some c -> truthy_string companyId = true ->
   rejection (fetch (memberships_list sdk (params c).1.1.1)).1 <> None \/
   rejection (fetch (payments_list sdk (params c).1.1.2)).1 <> None \/
   rejection (fetch (products_list sdk (params c).1.2)).1 <> None \/
   rejection (fetch (plans_list sdk (params c).2)).1 <> None ->
   exists msg,
     response run
     = JsonError {| error := "Failed to fetch analytics data"; message := msg |} 500) /\
  (forall c ms ps rs ls, companyId = Some c -> truthy_string companyId = true ->
   (fetch (memberships_list sdk (params c).1.1.1)).1 = inr ms ->
   (fetch (payments_list sdk (params c).1.1.2)).1 = inr ps ->
   (fetch (products_list sdk (params c).1.2)).1 = inr rs ->
   (fetch (plans_list sdk (params c).2)).1 = inr ls ->
   response run
   = match compute now (default [] ms) (default [] ps) (default [] rs)
             (default [] ls) with
     | inl e => JsonError {| error := "Failed to fetch analytics data";
                             message := match e with
                                        | ErrorObject msg => msg
                                        | NotAnError => "Unknown error"
                                        end |} 500
     | inr body => JsonOk body
     end) /\
  ((exists body, response run = JsonOk body) \/
   (exists err, response run = JsonError err 500)).
Proof.
  intros run. subst run. split; [| split; [| split]].
  - apply handler_unconfigured.
  - intros c -> Hc Hrej. rewrite handler_configured by exact Hc.
    destruct (fetch_and_compute_rejected params compute c sdk now Hrej) as [e ->].
    apply catch_block_shape.
  - intros c ms ps rs ls -> Hc Hm Hp Hr Hl. rewrite handler_configured by exact Hc.
    rewrite (fetch_and_compute_resolved params compute c sdk now ms ps rs ls)
      by assumption.
    destruct (compute _ _ _ _ _) as [[msg |] | body]; reflexivity.
  - destruct (truthy_string companyId) eqn:Hc.
    + destruct companyId as [c |]; [| discriminate].
      rewrite handler_configured by exact Hc.
      destruct (fetch_and_compute params compute c sdk now).1 as [e | resp] eqn:Hrun.
      * right. unfold catch_block. eauto.
      * left. eapply fetch_and_compute_response. exact Hrun.
    + right. rewrite handler_unconfigured by exact Hc. simpl. eauto.
Qed.

Lemma C9_witness :
  R1.GET None payments_down 0
  = {| response := JsonError R1.configError 500; timelines := [] |} /\
  (exists msg,
     response (R1.GET (Some "biz_1") payments_down 0)
     = JsonError {| error := "Failed to fetch analytics data"; message := msg |} 500) /\
  response (R2.GET (Some "biz_1") all_empty 0)
  = JsonOk (R2.snapshot 0 [] [] [] []).
Proof.
  split; [| split].
  - apply (proj1 (C9_all_or_nothing R1.configError R1.params R1.compute None
                    payments_down 0)).
    reflexivity.
  - apply (proj1 (proj2 (C9_all_or_nothing R1.configError R1.params R1.compute
                           (Some "biz_1") payments_down 0)) "biz_1");
      [reflexivity | reflexivity |].
    right. left. vm_compute. discriminate.
  - apply (proj1 (proj2 (proj2 (C9_all_or_nothing R2.configError R2.params R2.compute
                                  (Some "biz_1") all_empty 0)))
             "biz_1" (Some []) (Some []) (Some []) (Some []));
      reflexivity.
Defined.

(** The payments call is tried three times, 1000 and 2000 ms apart, the
    other three once; the message is that of the payments failure. *)
Example GET_payments_down :
  R2.GET (Some "biz_1") payments_down 0
  = {| response :=
         JsonError {| error := "Failed to fetch analytics data";
                      message := "upstream 502" |} 500;
       timelines :=
         [[Attempt 0];
          [Attempt 0; Sleep 1000; Attempt 1; Sleep 2000; Attempt 2];
          [Attempt 0];
          [Attempt 0]] |}.
Proof. reflexivity. Qed.

(** ** Monthly recurring revenue *)

Lemma Qc_zero_div (x : Qc) : (0 / x)%Qc = 0%Qc.
Proof. apply Qcmult_0_l. Qed.

(** A positive billing period divides the price as it is, in days. *)
Lemma monthlyPrice_per_period (p : PlanLike) (b : Qc) :
  plan_type p = Value "renewal" -> billing_period p = Value b -> (0 < b)%Qc ->
  R2.monthlyPrice p = Some (nullish_or (renewal_price p) 0 / b)%Qc.
Proof.
  intros Ht Hb Hpos. unfold R2.monthlyPrice. rewrite Ht, Hb. simpl.
  destruct (decide _) as [_ | Hn]; [reflexivity |].
  exfalso. apply Hn. split; [| exact Hpos].
  intros ->. now apply Qclt_not_eq in Hpos.
Qed.

(** Without a positive billing period the price counts as monthly. *)
Lemma monthlyPrice_default_period (p : PlanLike) :
  plan_type p = Value "renewal" ->
  (forall b, billing_period p = Value b -> (b ≤ 0)%Qc) ->
  R2.monthlyPrice p = Some (nullish_or (renewal_price p) 0)%Qc.
Proof.
  intros Ht Hb. unfold R2.monthlyPrice. rewrite Ht. simpl.
  assert (H1 : forall x : Qc, (x / 1)%Qc = x) by (intros x; apply (right_id 1%Qc Qcdiv)).
  destruct (billing_period p) as [| | b]; rewrite ?H1; try reflexivity.
  destruct (decide _) as [[_ Hpos] | _]; [| now rewrite H1].
  exfalso. apply (Qclt_not_le _ _ Hpos). now apply Hb.
Qed.

(** C1 at the spec's own example: an active membership on a renewal plan
    of 300 minor units per 90 days.  [mrrCents] (lines 483-501) divides
    the price by the billing period in days and yields 10/3, not 100;
    the reducer [mrr] of lines 157-176, which multiplies by
    [30 / cycleDays], yields 100. *)
Theorem C1_mrrCents_quarterly_plan `{Host} :
  R2.mrrCents (R2.planMap [quarterly_plan]) [quarterly_membership] = Q2Qc (10 # 3) /\
  R2.mrrCents (R2.planMap [quarterly_plan]) [quarterly_membership] <> Qc_of_Z 100 /\
  R1.mrr (R1.planMap [quarterly_plan]) [quarterly_membership] = Qc_of_Z 100.
Proof.
  assert (H2 : R2.mrrCents (R2.planMap [quarterly_plan]) [quarterly_membership]
               = Q2Qc (10 # 3)).
  { apply Qc_is_canon. vm_compute. reflexivity. }
  split; [exact H2 | split].
  - rewrite H2. intros Heq. apply (f_equal this) in Heq. vm_compute in Heq.
    discriminate.
  - apply Qc_is_canon. vm_compute. reflexivity.
Qed.

Lemma spread_override (base over : PlanLike) :
  plan_id (R2.spread base over) = override (plan_id base) (plan_id over) /\
  renewal_price (R2.spread base over)
  = override (renewal_price base) (renewal_price over) /\
  billing_period (R2.spread base over)
  = override (billing_period base) (billing_period over) /\
  plan_type (R2.spread base over) = override (plan_type base) (plan_type over).
Proof.
  unfold R2.spread, R2.spread_field, override. simpl.
  repeat split; match goal with |- context [match ?x with _ => _ end] => now destruct x end.
Qed.

Lemma effectivePlan_merge (pm : gmap string PlanLike) (m : Membership) :
  R2.effectivePlan pm m
  = R2.spread (default R2.empty_object (plan m))
      (default R2.empty_object (resolved_plan pm m)).
Proof.
  unfold R2.effectivePlan, resolved_plan, truthy_string.
  destruct (plan_id_of m) as [i |]; [| reflexivity].
  simpl. now destruct (String.eqb i "").
Qed.

Lemma revenueTrend_length `{Host} (now : Date) (payments : list Payment) :
  length (R2.revenueTrend now payments) = 90%nat.
Proof. unfold R2.revenueTrend. now rewrite length_map. Qed.

(** C2: for one active membership whose embedded plan is of type
    "renewal" with renewal price 1000, a [null] billing period and no id,
    and empty payments, products and plans, the snapshot has mrr 10,
    one active subscriber, no new subscription, churn rate 0, a revenue
    trend of 90 entries of revenue 0 and no top product, whatever the
    instant; the effective plan there is the embedded one, and in general
    it is the merge in which each property of the plan found by id
    replaces the embedded plan's and the embedded plan fills the rest. *)
Theorem C2_end_to_end `{Host} (now : Date) :
  let s := R2.snapshot now [embedded_membership] [] [] [] in
  metrics_mrr (body_metrics s) = Qc_of_Z 10 /\
  metrics_totalActiveSubscribers (body_metrics s) = 1%nat /\
  metrics_newSubscriptions (body_metrics s) = 0%nat /\
  metrics_churnRate (body_metrics s) = 0%Qc /\
  length (body_revenueTrend s) = 90%nat /\
  Forall (fun e => trend_revenue e = 0%Qc) (body_revenueTrend s) /\
  body_topProducts s = [] /\
  R2.effectivePlan (R2.planMap []) embedded_membership = embedded_plan /\
  (forall pm m,
     R2.effectivePlan pm m
     = R2.spread (default R2.empty_object (plan m))
         (default R2.empty_object (resolved_plan pm m))) /\
  (forall base over,
     plan_id (R2.spread base over) = override (plan_id base) (plan_id over) /\
     renewal_price (R2.spread base over)
     = override (renewal_price base) (renewal_price over) /\
     billing_period (R2.spread base over)
     = override (billing_period base) (billing_period over) /\
     plan_type (R2.spread base over) = override (plan_type base) (plan_type over)).
Proof.
  intros s. subst s. unfold R2.snapshot.
  cbn [body_metrics body_revenueTrend body_topProducts metrics_mrr
       metrics_churnRate metrics_newSubscriptions metrics_totalActiveSubscribers].
  split; [apply Qc_is_canon; vm_compute; reflexivity |].
  split; [reflexivity |].
  split; [reflexivity |].
  split; [apply Qc_is_canon; vm_compute; reflexivity |].
  split; [apply revenueTrend_length |].
  split.
  { unfold R2.revenueTrend. apply Forall_map, Forall_forall. intros i _.
    cbn [trend_revenue]. unfold R2.revenueByDay. cbn [fold_left].
    rewrite lookup_empty. apply Qc_zero_div. }
  split; [reflexivity |].
  split; [reflexivity |].
  split; [apply effectivePlan_merge | apply spread_override].
Qed.

(** The listing of lines 39-293 skips a membership whose plan has no id:
    on the same input its mrr is 0. *)
Example R1_end_to_end_mrr `{Host} (now : Date) :
  metrics_mrr (body_metrics (R1.snapshot now [embedded_membership] [] [] []))
  = 0%Qc.
Proof. apply Qc_is_canon. vm_compute. reflexivity. Qed.

(** ** Churn *)

Lemma count_ext {A} (f g : A -> bool) (l : list A) :
  (forall x, f x = g x) -> count f l = count g l.
Proof.
  intros Hfg. unfold count. f_equal. apply List.filter_ext. exact Hfg.
Qed.

Lemma subscribersThirtyDaysAgo_count `{Host} (now : Date) (ms : list Membership) :
  R2.subscribersThirtyDaysAgo now ms = count (live_30_days_ago now) ms.
Proof.
  unfold R2.subscribersThirtyDaysAgo. apply (count_ext _ (live_30_days_ago now)).
  intros m. unfold live_30_days_ago, on_or_before, R2.thirtyDaysAgo, getDaysAgo.
  destruct (R2.parseTimestamp (created_at m)) as [c |]; [| reflexivity].
  destruct (Z.ltb_spec (now - 30 * ms_per_day) c) as [Hlt | Hge].
  - destruct (Z.leb_spec c (now - 30 * ms_per_day)); [lia | reflexivity].
  - destruct (Z.leb_spec c (now - 30 * ms_per_day)); [| lia]. simpl.
    destruct (R2.parseTimestamp (canceled_at m)) as [x |]; [| reflexivity].
    now destruct (x <=? now - 30 * ms_per_day).
Qed.

Lemma cancelledInLast30Days_count `{Host} (now : Date) (ms : list Membership) :
  R2.cancelledInLast30Days now ms = count (canceled_in_last_30_days now) ms.
Proof.
  unfold R2.cancelledInLast30Days. apply (count_ext _ (canceled_in_last_30_days now)).
  intros m. reflexivity.
Qed.


(** ** Revenue trend *)

Section RevenueTrend.
Local Open Scope Qc_scope.

Lemma sum_Qc_app (l1 l2 : list Qc) : sum_Qc (l1 ++ l2) = sum_Qc l1 + sum_Qc l2.
Proof.
  induction l1 as [| x l1 IH]; simpl.
  - now rewrite Qcplus_0_l.
  - rewrite IH. ring.
Qed.

Lemma sum_Qc_map_div {A} (f : A -> Qc) (c : Qc) (l : list A) :
  sum_Qc (map (fun x => f x / c) l) = sum_Qc (map f l) / c.
Proof.
  unfold Qcdiv. induction l as [| x l IH]; simpl.
  - ring.
  - rewrite IH. ring.
Qed.

Lemma sum_Qc_map_plus {A} (f g : A -> Qc) (l : list A) :
  sum_Qc (map (fun x => f x + g x) l) = sum_Qc (map f l) + sum_Qc (map g l).
Proof.
  induction l as [| x l IH]; simpl.
  - ring.
  - rewrite IH. ring.
Qed.

Lemma sum_Qc_map_zero {A} (f : A -> Qc) (l : list A) :
  (forall x, In x l -> f x = 0) -> sum_Qc (map f l) = 0.
Proof.
  induction l as [| x l IH]; intros Hz; simpl; [reflexivity |].
  rewrite (Hz x) by now left. rewrite IH; [ring |]. intros y Hy. apply Hz. now right.
Qed.

(** Summing, over distinct keys, an amount placed on one key. *)
Lemma sum_Qc_indicator (k : Z) (a : Qc) (ks : list Z) :
  NoDup ks ->
  sum_Qc (map (fun k' => if (k =? k')%Z then a else 0) ks)
  = if bool_decide (k ∈ ks) then a else 0.
Proof.
  induction 1 as [| k' ks Hnotin Hnd IH]; simpl; [reflexivity |].
  rewrite IH. destruct (Z.eqb_spec k k') as [-> | Hne].
  - rewrite (bool_decide_eq_false_2 (k' ∈ ks)) by exact Hnotin.
    rewrite bool_decide_eq_true_2 by left. ring.
  - destruct (bool_decide (k ∈ ks)) eqn:E.
    + apply bool_decide_eq_true_1 in E.
      rewrite bool_decide_eq_true_2 by now right. ring.
    + apply bool_decide_eq_false_1 in E.
      rewrite bool_decide_eq_false_2; [ring |].
      intros Hin. apply elem_of_cons in Hin. tauto.
Qed.

Section TrendFacts.
Context `{Host}.
Variable now : Date.

Lemma dateKey_getDaysAgo (i : Z) : dateKey (getDaysAgo now i) = (dateKey now - i)%Z.
Proof.
  unfold dateKey, getDaysAgo.
  replace (now - i * ms_per_day)%Z with (now + (- i) * ms_per_day)%Z by lia.
  rewrite Z.div_add by (unfold ms_per_day; lia). lia.
Qed.

Lemma countdown_days (a : Z) (n : nat) :
  map (fun i => (a - Z.of_nat i)%Z) (countdown n)
  = days_from (a - Z.of_nat n) (S n).
Proof.
  unfold days_from. induction n as [| n IH].
  - simpl. f_equal. lia.
  - change (countdown (S n)) with (S n :: countdown n).
    rewrite map_cons, IH.
    change (seq 0 (S (S n))) with (0%nat :: seq 1 (S n)).
    rewrite <- (seq_shift (S n) 0), map_cons, !map_map. f_equal; [lia |].
    apply map_ext. intros i. lia.
Qed.

Lemma days_from_cons (a : Z) (n : nat) :
  days_from a (S n) = a :: days_from (a + 1) n.
Proof.
  unfold days_from. change (seq 0 (S n)) with (0%nat :: seq 1 n).
  rewrite <- seq_shift, map_cons, map_map. f_equal; [lia |].
  apply map_ext. intros i. lia.
Qed.

Lemma elem_of_days_from (k a : Z) (n : nat) :
  k ∈ days_from a n <-> (a <= k < a + Z.of_nat n)%Z.
Proof.
  revert a. induction n as [| n IH]; intros a.
  - unfold days_from. simpl. rewrite elem_of_nil. lia.
  - rewrite days_from_cons, elem_of_cons, IH. lia.
Qed.

Lemma days_from_sorted (a : Z) (n : nat) : StronglySorted Z.lt (days_from a n).
Proof.
  revert a. induction n as [| n IH]; intros a.
  - constructor.
  - rewrite days_from_cons. constructor; [apply IH |].
    apply Forall_forall. intros k Hk. apply elem_of_days_from in Hk. lia.
Qed.

Lemma days_from_NoDup (a : Z) (n : nat) : NoDup (days_from a n).
Proof.
  revert a. induction n as [| n IH]; intros a.
  - constructor.
  - rewrite days_from_cons. constructor; [| apply IH].
    rewrite elem_of_days_from. lia.
Qed.

Lemma day_total_cons (k : Z) (p : Payment) (ps : list Payment) :
  day_total now k (p :: ps)
  = (if in_last_90_days now p && paid_on k p then R2.paymentTotal p else 0)
    + day_total now k ps.
Proof.
  unfold day_total. simpl.
  destruct (in_last_90_days now p && paid_on k p); simpl; [reflexivity | ring].
Qed.

Lemma revenueByDay_acc (ps : list Payment) :
  forall (m0 : gmap Z Qc) (k : Z),
  default 0
    (fold_left
       (fun m payment =>
          match R2.parseTimestamp (paid_at payment) with
          | None => m
          | Some paymentDate =>
            if (paymentDate <? R2.ninetyDaysAgo now)%Z || (now <? paymentDate)%Z
            then m
            else
              let key := dateKey paymentDate in
              let current := default 0 (m !! key) in
              <[key := current + R2.paymentTotal payment]> m
          end)
       ps m0 !! k)
  = default 0 (m0 !! k) + day_total now k ps.
Proof.
  induction ps as [| p ps IH]; intros m0 k.
  - unfold day_total. simpl. ring.
  - rewrite day_total_cons. cbn [fold_left]. rewrite IH.
    unfold in_last_90_days, paid_on, within, R2.ninetyDaysAgo, getDaysAgo.
    destruct (R2.parseTimestamp (paid_at p)) as [d |]; [| simpl; ring].
    destruct (Z.ltb_spec d (now - 90 * ms_per_day)) as [Hlo | Hlo].
    { destruct (Z.leb_spec (now - 90 * ms_per_day) d); [lia |]. simpl. ring. }
    destruct (Z.leb_spec (now - 90 * ms_per_day) d); [| lia].
    destruct (Z.ltb_spec now d) as [Hhi | Hhi].
    { destruct (Z.leb_spec d now); [lia |]. simpl. ring. }
    destruct (Z.leb_spec d now); [| lia]. simpl.
    destruct (Z.eqb_spec (dateKey d) k) as [-> | Hne].
    + rewrite lookup_insert_eq. simpl. ring.
    + rewrite lookup_insert_ne by exact Hne. ring.
Qed.

Lemma revenueByDay_lookup (ps : list Payment) (k : Z) :
  default 0 (R2.revenueByDay now ps !! k) = day_total now k ps.
Proof.
  unfold R2.revenueByDay. rewrite revenueByDay_acc, lookup_empty. simpl. ring.
Qed.

Lemma revenueTrend_days (ps : list Payment) :
  R2.revenueTrend now ps
  = map (fun k => {| date := k; trend_revenue := day_total now k ps / Qc_of_Z 100 |})
      (days_from (dateKey now - 89) 90).
Proof.
  unfold R2.revenueTrend.
  change (days_from (dateKey now - 89) 90)
    with (days_from (dateKey now - Z.of_nat 89) (S 89)).
  rewrite <- (countdown_days (dateKey now) 89), map_map.
  apply map_ext. intros i. cbv zeta.
  now rewrite dateKey_getDaysAgo, revenueByDay_lookup.
Qed.

Lemma sum_day_totals (ks : list Z) (ps : list Payment) :
  NoDup ks ->
  sum_Qc (map (fun k => day_total now k ps) ks)
  = sum_Qc (map R2.paymentTotal
              (List.filter
                 (fun p => in_last_90_days now p
                           && match R2.parseTimestamp (paid_at p) with
                              | Some d => bool_decide (dateKey d ∈ ks)
                              | None => false
                              end)
                 ps)).
Proof.
  intros Hnd. induction ps as [| p ps IH].
  - apply sum_Qc_map_zero. reflexivity.
  - rewrite (map_ext _ _ (fun k => day_total_cons k p ps)).
    rewrite sum_Qc_map_plus, IH. cbn [List.filter].
    unfold paid_on.
    destruct (in_last_90_days now p); simpl.
    2:{ rewrite sum_Qc_map_zero by reflexivity. ring. }
    destruct (R2.parseTimestamp (paid_at p)) as [d |].
    2:{ rewrite sum_Qc_map_zero by reflexivity. ring. }
    rewrite (sum_Qc_indicator (dateKey d) (R2.paymentTotal p) ks Hnd).
    destruct (bool_decide (dateKey d ∈ ks)); simpl; ring.
Qed.
End TrendFacts.

Lemma emitted_filter `{Host} (now : Date) (p : Payment) :
  in_last_90_days now p
  && match R2.parseTimestamp (paid_at p) with
     | Some d => bool_decide (dateKey d ∈ days_from (dateKey now - 89) 90)
     | None => false
     end
  = in_last_90_days now p && paid_since_first_day now p.
Proof.
  unfold in_last_90_days, paid_since_first_day, within.
  destruct (R2.parseTimestamp (paid_at p)) as [d |]; [| reflexivity].
  destruct (Z.leb_spec (now - 90 * ms_per_day) d); [| reflexivity].
  destruct (Z.leb_spec d now) as [Hle |]; [| reflexivity]. simpl.
  assert (Hkey : (dateKey d <= dateKey now)%Z).
  { unfold dateKey. apply Z.div_le_mono; [unfold ms_per_day; lia | exact Hle]. }
  destruct (Z.leb_spec (dateKey now - 89) (dateKey d)).
  - apply bool_decide_eq_true_2, elem_of_days_from. lia.
  - apply bool_decide_eq_false_2. rewrite elem_of_days_from. lia.
Qed.

(** A day on which no payment of the window landed has revenue 0. *)
Lemma day_total_none `{Host} (now : Date) (k : Z) (payments : list Payment) :
  Forall (fun p => paid_on k p = false) payments ->
  (day_total now k payments / Qc_of_Z 100)%Qc = 0%Qc.
Proof.
  intros Hnone. unfold day_total.
  replace (List.filter _ payments) with (@nil Payment); [apply Qcmult_0_l |].
  symmetry. induction Hnone as [| p ps Hp _ IH]; [reflexivity |].
  simpl. rewrite Hp, andb_false_r. exact IH.
Qed.

(** A payment made 89 days and 23 hours before now lies inside
    [now-90d, now] but landed on the calendar day of now-90d, which is
    not one of the 90 days of the trend; a payment stamped later on the
    day of [now] is on one of them and is left out by the guard of line
    559. *)
Example revenueTrend_window_edge :
  trend_total (R2.revenueTrend noon_of_day_100 [payment_on_day_10]) = 0%Qc /\
  window_total noon_of_day_100 [payment_on_day_10] = Qc_of_Z 5 /\
  trend_total (R2.revenueTrend noon_of_day_100 [payment_on_day_10])
  <> window_total noon_of_day_100 [payment_on_day_10] /\
  trend_total (R2.revenueTrend noon_of_day_100 [payment_later_today]) = 0%Qc /\
  calendar_total noon_of_day_100 [payment_later_today] = Qc_of_Z 5 /\
  trend_total (R2.revenueTrend noon_of_day_100 [payment_later_today])
  <> calendar_total noon_of_day_100 [payment_later_today].
Proof.
  assert (Ht : trend_total (R2.revenueTrend noon_of_day_100 [payment_on_day_10])
               = 0%Qc)
    by (apply Qc_is_canon; vm_compute; reflexivity).
  assert (Hw : window_total noon_of_day_100 [payment_on_day_10] = Qc_of_Z 5)
    by (apply Qc_is_canon; vm_compute; reflexivity).
  assert (Ht' : trend_total (R2.revenueTrend noon_of_day_100 [payment_later_today])
                = 0%Qc)
    by (apply Qc_is_canon; vm_compute; reflexivity).
  assert (Hc : calendar_total noon_of_day_100 [payment_later_today] = Qc_of_Z 5)
    by (apply Qc_is_canon; vm_compute; reflexivity).
  assert (Hne : (0 : Qc) <> Qc_of_Z 5).
  { intros Heq. apply (f_equal this) in Heq. vm_compute in Heq. discriminate. }
  rewrite Ht, Hw, Ht', Hc. repeat split; assumption.
Qed.

End RevenueTrend.

(** ** The clock and the zone *)

(** In a zone that keeps one offset, [setDate] moves an instant back by
    whole days of 86400000 ms. *)
Lemma setDate_back_fixed_offset (z : Zone) (t : Date) (days : Z) :
  fixed_offset z -> setDate_back z t days = getDaysAgo t days.
Proof.
  intros [c Hc]. unfold setDate_back, UTC, LocalTime, getDaysAgo.
  rewrite (proj1 (Hc t)), (proj2 (Hc _)). lia.
Qed.

Lemma getDaysAgo_at_steady (clock : Clock) (t : Date) (k : nat) (days : Z) :
  fixed_offset (zone clock) -> reading clock k = t ->
  getDaysAgo_at clock k days = getDaysAgo t days.
Proof.
  intros Hz Hr. unfold getDaysAgo_at. rewrite Hr. now apply setDate_back_fixed_offset.
Qed.

Lemma elem_of_countdown (i n : nat) : i ∈ countdown n -> (i <= n)%nat.
Proof.
  induction n as [| n IH]; cbn [countdown]; rewrite elem_of_cons.
  - rewrite elem_of_nil. lia.
  - intros [-> | Hin]; [lia |]. specialize (IH Hin). lia.
Qed.

(** With one offset and one reading, the trend of lines 551-586 is the
    one computed from that reading. *)
Lemma R2T_revenueTrend_steady `{Host} (clock : Clock) (t : Date)
  (payments : list Payment) :
  fixed_offset (zone clock) -> (forall k, reading clock k = t) ->
  R2T.revenueTrend clock payments = R2.revenueTrend t payments.
Proof.
  intros Hz Hr. unfold R2T.revenueTrend, R2.revenueTrend.
  assert (Hby : R2T.revenueByDay clock payments = R2.revenueByDay t payments).
  { unfold R2T.revenueByDay, R2.revenueByDay, R2T.ninetyDaysAgo, R2T.now,
      R2.ninetyDaysAgo.
    rewrite (getDaysAgo_at_steady clock t 2 90 Hz (Hr _)), (Hr 0%nat). reflexivity. }
  rewrite Hby. apply map_ext. intros i. cbv zeta.
  now rewrite (getDaysAgo_at_steady clock t _ _ Hz (Hr _)).
Qed.

(** With one offset, the trend of lines 212-232 depends on the days of
    the readings of its loop only. *)
Lemma R1T_revenueTrend_same_day `{Host} (clock : Clock) (t : Date)
  (payments : list Payment) :
  fixed_offset (zone clock) ->
  (forall k, (2 <= k <= 91)%nat -> dateKey (reading clock k) = dateKey t) ->
  R1T.revenueTrend clock payments = R1.revenueTrend t payments.
Proof.
  intros Hz Hr. unfold R1T.revenueTrend, R1.revenueTrend.
  apply map_ext_in. intros i Hi. apply list_elem_of_In, elem_of_countdown in Hi.
  cbv zeta.
  assert (Hkey : dateKey (getDaysAgo_at clock (2 + (89 - i)) (Z.of_nat i))
                 = dateKey (getDaysAgo t (Z.of_nat i))).
  { unfold getDaysAgo_at. rewrite setDate_back_fixed_offset by exact Hz.
    rewrite !dateKey_getDaysAgo, Hr by lia. reflexivity. }
  now rewrite Hkey.
Qed.

Section TrendClock.
Context `{Host}.

(** Where the zone keeps one offset and the clock reads the same instant
    throughout, the trend has 90 entries, one per calendar day from that
    of now-89d through that of now, ascending and without duplicates,
    each with the major-unit total of the payments of [now-90d, now] that
    landed on its day. *)
Lemma revenueTrend_steady_clock (clock : Clock) (now : Date) (payments : list Payment) :
  fixed_offset (zone clock) -> (forall k, reading clock k = now) ->
  let trend := R2T.revenueTrend clock payments in
  length trend = 90%nat /\
  map date trend = days_from (dateKey now - 89) 90 /\
  StronglySorted Z.lt (map date trend) /\
  NoDup (map date trend) /\
  Forall (fun e => trend_revenue e
                   = (day_total now (date e) payments / Qc_of_Z 100)%Qc) trend /\
  trend_total trend = emitted_total now payments.
Proof.
  intros Hz Hr trend. subst trend. rewrite (R2T_revenueTrend_steady clock now) by assumption.
  assert (Hdates : map date (R2.revenueTrend now payments)
                   = days_from (dateKey now - 89) 90).
  { rewrite revenueTrend_days, map_map. cbn [date]. apply List.map_id. }
  split; [unfold R2.revenueTrend; now rewrite length_map |].
  split; [exact Hdates |]. rewrite Hdates.
  split; [apply days_from_sorted |].
  split; [apply days_from_NoDup |].
  split.
  - rewrite revenueTrend_days. apply Forall_map, Forall_forall. intros k _.
    reflexivity.
  - unfold trend_total, emitted_total. rewrite revenueTrend_days, map_map.
    cbn [trend_revenue]. rewrite sum_Qc_map_div.
    rewrite sum_day_totals by apply days_from_NoDup.
    do 3 f_equal. apply List.filter_ext. intros p. apply emitted_filter.
Qed.
End TrendClock.

Lemma StronglySorted_suffix {A} (R : A -> A -> Prop) (l l' : list A) :
  StronglySorted R (l ++ l') -> StronglySorted R l'.
Proof.
  induction l as [| a l IH]; [tauto |].
  cbn [app]. intros Hs. apply IH. now inversion Hs.
Qed.

(** C4 fails on a server whose zone shifts its clock.  In Europe/Berlin
    at 2026-03-29T23:30:00Z it is 01:30 of 30 March, summer time;
    [setDate] takes [getDaysAgo(1)] to 01:30 of 29 March, winter time,
    which is 00:30 UTC of the same 29 March as [getDaysAgo(0)].  The
    trend has its 90 entries, but 29 March (day 20541) twice and the day
    of now-89d (day 20452) not at all: its dates are neither without
    duplicates nor strictly ascending, and a payment of 5.00 made on
    29 March is in two entries, so that the entries add up to 10.00
    where the payments of the window total 5.00. *)
Theorem C4_revenueTrend_clock_shift :
  let trend := R2T.revenueTrend berlin_evening [payment_of_29_march] in
  length trend = 90%nat /\
  dateKey (R2T.now berlin_evening - 89 * ms_per_day) = 20452 /\
  map date (take 1 trend) = [20453] /\
  map date (drop 87 trend) = [20540; 20541; 20541] /\
  Forall2 (fun e r => trend_revenue e = Qc_of_Z r) (drop 87 trend) [0; 5; 5] /\
  ~ NoDup (map date trend) /\
  ~ StronglySorted Z.lt (map date trend) /\
  trend_total trend = Qc_of_Z 10 /\
  total_between (R2T.ninetyDaysAgo berlin_evening) (R2T.now berlin_evening)
    [payment_of_29_march] = Qc_of_Z 5.
Proof.
  intros trend.
  assert (Hlast : map date (drop 87 trend) = [20540; 20541; 20541])
    by (vm_compute; reflexivity).
  assert (Hsplit : map date trend
                   = map date (take 87 trend) ++ [20540; 20541; 20541]).
  { rewrite <- Hlast, <- map_app. now rewrite take_drop. }
  split; [reflexivity |]. split; [reflexivity |]. split; [vm_compute; reflexivity |].
  split; [exact Hlast |].
  split.
  { vm_compute. repeat constructor; apply Qc_is_canon; reflexivity. }
  split.
  { rewrite Hsplit. intros Hnd. apply NoDup_app in Hnd as (_ & _ & Hnd).
    apply NoDup_cons in Hnd as [_ Hnd]. apply NoDup_cons in Hnd as [Hnotin _].
    apply Hnotin. left. }
  split.
  { rewrite Hsplit. intros Hs. apply StronglySorted_suffix in Hs.
    inversion Hs as [| ? ? Hs' _]. inversion Hs' as [| ? ? _ Hall].
    inversion Hall as [| ? ? Hlt _]. lia. }
  split; apply Qc_is_canon; vm_compute; reflexivity.
Qed.

(** ** Top products *)

Section SortFacts.
Local Open Scope Qc_scope.

Lemma insert_sorted_Permutation (a : ProductRevenue) (l : list ProductRevenue) :
  Permutation (insert_sorted a l) (a :: l).
Proof.
  induction l as [| b l IH]; simpl; [reflexivity |].
  destruct (decide (revenue b ≤ revenue a)); [reflexivity |].
  rewrite IH. apply perm_swap.
Qed.

Lemma sort_by_revenue_Permutation (l : list ProductRevenue) :
  Permutation (sort_by_revenue l) l.
Proof.
  induction l as [| a l IH]; simpl; [reflexivity |].
  rewrite insert_sorted_Permutation. now apply perm_skip.
Qed.

Lemma insert_sorted_sorted (a : ProductRevenue) (l : list ProductRevenue) :
  StronglySorted descending l -> StronglySorted descending (insert_sorted a l).
Proof.
  induction 1 as [| b l Hl IH Hb]; simpl.
  - repeat constructor.
  - destruct (decide (revenue b ≤ revenue a)) as [Hle | Hgt].
    + constructor; [constructor; assumption |].
      constructor; [exact Hle |].
      eapply Forall_impl; [exact Hb |]. intros c Hc. unfold descending in *.
      now apply Qcle_trans with (revenue b).
    + constructor; [exact IH |].
      rewrite insert_sorted_Permutation.
      constructor; [| exact Hb]. unfold descending.
      apply Qclt_le_weak. now apply Qcnot_le_lt.
Qed.

Lemma sort_by_revenue_sorted (l : list ProductRevenue) :
  StronglySorted descending (sort_by_revenue l).
Proof.
  induction l as [| a l IH]; simpl; [constructor |].
  now apply insert_sorted_sorted.
Qed.

End SortFacts.

Section FirstEncounters.
Implicit Types l : list string.

Lemma elem_of_first_encounters l (x : string) : x ∈ first_encounters l <-> x ∈ l.
Proof.
  induction l as [| a l IH]; [reflexivity |].
  cbn [first_encounters]. rewrite !elem_of_cons, list_elem_of_filter, IH.
  destruct (decide (x = a)); tauto.
Qed.

Lemma NoDup_first_encounters l : NoDup (first_encounters l).
Proof.
  induction l as [| a l IH]; [constructor |].
  cbn [first_encounters]. constructor; [| now apply NoDup_filter].
  rewrite list_elem_of_filter. tauto.
Qed.

Lemma first_encounters_snoc l (x : string) :
  first_encounters (l ++ [x])
  = if bool_decide (x ∈ l) then first_encounters l else first_encounters l ++ [x].
Proof.
  induction l as [| a l IH].
  - reflexivity.
  - cbn [app first_encounters]. rewrite IH.
    destruct (bool_decide (x ∈ l)) eqn:El.
    + apply bool_decide_eq_true_1 in El.
      rewrite bool_decide_eq_true_2 by now right. reflexivity.
    + apply bool_decide_eq_false_1 in El. rewrite filter_app.
      destruct (decide (x = a)) as [-> | Hne].
      * rewrite bool_decide_eq_true_2 by left.
        rewrite filter_cons_False by tauto. now rewrite filter_nil, app_nil_r.
      * rewrite bool_decide_eq_false_2.
        2:{ rewrite elem_of_cons. tauto. }
        rewrite filter_cons_True by exact Hne. now rewrite filter_nil.
Qed.
End FirstEncounters.

Section ProductMapFacts.
Local Open Scope Qc_scope.
Context `{Host}.
Variable now : Date.
Variable products : list Product.

Lemma render_ext (total total' : string -> Qc) (ks : list string) :
  (forall i, i ∈ ks -> total i = total' i) ->
  render products total ks = render products total' ks.
Proof.
  intros Heq. unfold render. apply map_ext_in. intros i Hi.
  rewrite (Heq i); [reflexivity |]. now apply list_elem_of_In.
Qed.

Lemma render_snoc (total : string -> Qc) (ks : list string) (i : string) :
  render products total (ks ++ [i])
  = render products total ks
    ++ [(i, {| name := display_name products i; revenue := total i |})].
Proof. unfold render. now rewrite map_app. Qed.

Lemma map_get_render (total : string -> Qc) (ks : list string) (i : string) :
  map_get i (render products total ks)
  = if bool_decide (i ∈ ks)
    then Some {| name := display_name products i; revenue := total i |}
    else None.
Proof.
  unfold map_get. induction ks as [| k ks IH].
  - reflexivity.
  - cbn [render map find fst]. destruct (String.eqb_spec k i) as [-> | Hne].
    + rewrite bool_decide_eq_true_2 by left. reflexivity.
    + fold (render products total ks). rewrite IH.
      destruct (bool_decide (i ∈ ks)) eqn:E.
      * apply bool_decide_eq_true_1 in E.
        rewrite bool_decide_eq_true_2 by now right. reflexivity.
      * apply bool_decide_eq_false_1 in E. rewrite bool_decide_eq_false_2; [reflexivity |].
        rewrite elem_of_cons. intros [-> | Hin]; tauto.
Qed.

Lemma add_revenue_render (total : string -> Qc) (ks : list string) (i : string) (r : Qc) :
  NoDup ks ->
  add_revenue i r (render products total ks)
  = render products (fun k => if bool_decide (k = i) then total k + r else total k) ks.
Proof.
  induction 1 as [| k ks Hnotin Hnd IH].
  - reflexivity.
  - cbn [render map add_revenue]. destruct (String.eqb_spec k i) as [-> | Hne].
    + rewrite bool_decide_eq_true_2 by reflexivity. cbn [name revenue]. f_equal.
      apply render_ext. intros k Hk. rewrite bool_decide_eq_false_2; [reflexivity |].
      intros ->. contradiction.
    + rewrite bool_decide_eq_false_2 by exact Hne. f_equal. exact IH.
Qed.

Lemma product_total_snoc (ps : list Payment) (p : Payment) (i : string) :
  product_total now (ps ++ [p]) i
  = product_total now ps i
    + (if bool_decide (counted_product now p = Some i)
       then R2.paymentTotal p / Qc_of_Z 100 else 0).
Proof.
  unfold product_total. rewrite List.filter_app, map_app, sum_Qc_app.
  f_equal. cbn [List.filter].
  destruct (bool_decide (counted_product now p = Some i)); simpl; ring.
Qed.

Lemma product_total_unseen (ps : list Payment) (i : string) :
  i ∉ omap (counted_product now) ps -> product_total now ps i = 0.
Proof.
  intros Hnotin. unfold product_total.
  replace (List.filter _ ps) with (@nil Payment); [reflexivity |].
  symmetry. apply filter_all_false. apply Forall_forall. intros p Hp.
  apply bool_decide_eq_false_2. intros Hc. apply Hnotin.
  apply list_elem_of_omap. eauto.
Qed.

Lemma in_last_30_days_within (p : Payment) :
  R2.in_last_30_days now p
  = within (now - 30 * ms_per_day) now (R2.parseTimestamp (paid_at p)).
Proof. reflexivity. Qed.

(** A payment that does not count leaves the map as it is. *)
Lemma record_payment_skipped (m : ProductMap) (p : Payment) :
  R2.in_last_30_days now p = true -> counted_product now p = None ->
  R2.record_payment products m p = m.
Proof.
  intros Hin Hnone. unfold counted_product, counts_for_products in Hnone.
  rewrite <- in_last_30_days_within, Hin in Hnone. simpl in Hnone.
  unfold R2.record_payment. destruct (product_id_of p) as [i |]; [| reflexivity].
  destruct (truthy_string (Some i)); [discriminate | reflexivity].
Qed.

Lemma record_payment_counted (m : ProductMap) (p : Payment) (i : string) :
  counted_product now p = Some i ->
  R2.in_last_30_days now p = true /\
  R2.record_payment products m p
  = match map_get i m with
    | Some _ => add_revenue i (R2.paymentTotal p / Qc_of_Z 100) m
    | None =>
      m ++ [(i, {| name := display_name products i;
                   revenue := R2.paymentTotal p / Qc_of_Z 100 |})]
    end.
Proof.
  unfold counted_product, counts_for_products. rewrite <- in_last_30_days_within.
  destruct (R2.in_last_30_days now p); [| discriminate]. simpl.
  destruct (truthy_string (product_id_of p)) eqn:Ht; [| discriminate].
  intros Hid. split; [reflexivity |].
  unfold R2.record_payment. rewrite Hid in *. now rewrite Ht.
Qed.

Lemma not_in_window_not_counted (p : Payment) :
  R2.in_last_30_days now p = false -> counted_product now p = None.
Proof.
  intros Hout. unfold counted_product, counts_for_products.
  now rewrite <- in_last_30_days_within, Hout.
Qed.

Lemma productRevenueMap_render (ps : list Payment) :
  R2.productRevenueMap now ps products
  = render products (product_total now ps) (products_seen now ps).
Proof.
  unfold R2.productRevenueMap, products_seen.
  induction ps as [| p ps IH] using rev_ind; [reflexivity |].
  rewrite List.filter_app, fold_left_app, IH, omap_app. clear IH.
  destruct (counted_product now p) as [i |] eqn:Hc.
  - destruct (record_payment_counted
                (render products (product_total now ps)
                   (first_encounters (omap (counted_product now) ps))) p i Hc)
      as [Hin Hstep].
    cbn [List.filter]. rewrite Hin. cbn [fold_left]. rewrite Hstep.
    cbn [omap list_omap]. rewrite Hc. cbn [app].
    rewrite first_encounters_snoc, map_get_render.
    rewrite (bool_decide_ext _ _ (elem_of_first_encounters _ i)).
    destruct (bool_decide (i ∈ omap (counted_product now) ps)) eqn:Eseen.
    + rewrite add_revenue_render by apply NoDup_first_encounters.
      apply render_ext. intros k _. rewrite product_total_snoc, Hc.
      destruct (decide (k = i)) as [-> | Hne].
      * now rewrite !bool_decide_eq_true_2 by reflexivity.
      * rewrite !bool_decide_eq_false_2 by congruence. ring.
    + apply bool_decide_eq_false_1 in Eseen. rewrite render_snoc. f_equal.
      * apply render_ext. intros k Hk. rewrite product_total_snoc, Hc.
        rewrite bool_decide_eq_false_2; [ring |].
        intros [= ->]. apply Eseen. now apply elem_of_first_encounters.
      * rewrite product_total_snoc, Hc, bool_decide_eq_true_2 by reflexivity.
        rewrite product_total_unseen by exact Eseen. do 3 f_equal. ring.
  - cbn [omap list_omap]. rewrite Hc, app_nil_r.
    assert (Hsame : render products (product_total now ps)
                      (first_encounters (omap (counted_product now) ps))
                    = render products (product_total now (ps ++ [p]))
                        (first_encounters (omap (counted_product now) ps))).
    { apply render_ext. intros k _. rewrite product_total_snoc, Hc.
      rewrite bool_decide_eq_false_2 by discriminate. ring. }
    cbn [List.filter]. destruct (R2.in_last_30_days now p) eqn:Hin.
    + cbn [fold_left]. rewrite record_payment_skipped by assumption. exact Hsame.
    + exact Hsame.
Qed.
End ProductMapFacts.

Lemma omap_cons {A B} (f : A -> option B) (x : A) (l : list A) :
  omap f (x :: l) = match f x with Some y => y :: omap f l | None => omap f l end.
Proof. reflexivity. Qed.

Lemma StronglySorted_take {A} (R : A -> A -> Prop) (n : nat) (l : list A) :
  StronglySorted R l -> StronglySorted R (take n l).
Proof.
  intros Hs. revert n. induction Hs as [| a l Hl IH Ha]; intros [| n]; simpl;
    try constructor; [apply IH | now apply Forall_take].
Qed.

Lemma values_render `{Host} (now : Date) (payments : list Payment)
  (products : list Product) :
  map snd (render products (product_total now payments) (products_seen now payments))
  = map (product_entry now payments products) (products_seen now payments).
Proof. unfold render. rewrite map_map. reflexivity. Qed.

(** ** Payment amount *)

Lemma paymentTotal_amount_of (p : Payment) : R2.paymentTotal p = amount_of p.
Proof.
  unfold R2.paymentTotal, amount_of, first_non_null, nullish_or.
  destruct (usd_total p), (total p), (subtotal p); reflexivity.
Qed.

(** C5: the amount of a payment is the first non-null of usd_total,
    total and subtotal, and 0 when all three are absent; the revenue of
    every trend entry and of every product entry is accumulated from
    that amount. *)
Theorem C5_payment_amount `{Host} :
  (forall p, R2.paymentTotal p = amount_of p) /\
  (forall now payments,
     Forall
       (fun e =>
          trend_revenue e
          = (sum_Qc (map amount_of
                       (List.filter
                          (fun p => in_last_90_days now p && paid_on (date e) p)
                          payments))
             / Qc_of_Z 100)%Qc)
       (R2.revenueTrend now payments)) /\
  (forall now payments products,
     Forall
       (fun kv =>
          revenue kv.2
          = sum_Qc (map (fun p => (amount_of p / Qc_of_Z 100)%Qc)
                      (List.filter
                         (fun p => bool_decide (counted_product now p = Some kv.1))
                         payments)))
       (R2.productRevenueMap now payments products)).
Proof.
  split; [exact paymentTotal_amount_of | split].
  - intros now payments. rewrite revenueTrend_days.
    apply Forall_map, Forall_forall. intros k _. cbn [trend_revenue date].
    unfold day_total. rewrite (map_ext _ _ paymentTotal_amount_of). reflexivity.
  - intros now payments products. rewrite productRevenueMap_render.
    unfold render. apply Forall_map, Forall_forall. intros i _.
    cbn [snd fst revenue]. unfold product_total.
    now rewrite (map_ext _ _ (fun p => f_equal (fun x => (x / Qc_of_Z 100)%Qc)
                                 (paymentTotal_amount_of p))).
Qed.

(** ** Doubles: signs and order of differences *)

Section Doubles.

Lemma shr_1_m (mrs : shr_record) :
  0 <= shr_m mrs -> shr_m (shr_1 mrs) = shr_m mrs / 2.
Proof.
  destruct mrs as [m r s]. cbn [shr_m]. intros Hm.
  destruct m as [| p | p]; [reflexivity | | lia].
  destruct p as [p | p |]; cbn [shr_1 shr_m].
  - rewrite Pos2Z.inj_xI. apply Z.div_unique with 1; lia.
  - rewrite (Pos2Z.inj_xO p). apply Z.div_unique with 0; lia.
  - reflexivity.
Qed.

Lemma iter_shr_1_m (p : positive) :
  forall mrs, 0 <= shr_m mrs ->
  shr_m (iter_pos shr_1 p mrs) = shr_m mrs / 2 ^ Zpos p.
Proof.
  induction p as [p IH | p IH |]; intros mrs Hm; cbn [iter_pos].
  - assert (Hpow : 0 < 2 ^ Zpos p) by (apply Z.pow_pos_nonneg; lia).
    assert (H1 : 0 <= shr_m (shr_1 mrs))
      by (rewrite shr_1_m by exact Hm; apply Z.div_pos; lia).
    assert (H2 : 0 <= shr_m (iter_pos shr_1 p (shr_1 mrs)))
      by (rewrite IH by exact H1; apply Z.div_pos; lia).
    rewrite IH, IH, shr_1_m by assumption.
    rewrite !Z.div_div by lia.
    f_equal. change 2 with (2 ^ 1) at 1. rewrite <- !Z.pow_add_r by lia. f_equal. lia.
  - assert (Hpow : 0 < 2 ^ Zpos p) by (apply Z.pow_pos_nonneg; lia).
    assert (H1 : 0 <= shr_m (iter_pos shr_1 p mrs))
      by (rewrite IH by exact Hm; apply Z.div_pos; lia).
    rewrite IH, IH by assumption.
    rewrite Z.div_div by lia.
    f_equal. rewrite <- Z.pow_add_r by lia. f_equal. lia.
  - now apply shr_1_m.
Qed.

Lemma digits2_pos_lower (m : positive) :
  2 ^ (Zpos (digits2_pos m) - 1) <= Zpos m.
Proof.
  induction m as [m IH | m IH |]; cbn [digits2_pos].
  - rewrite Pos2Z.inj_succ, Pos2Z.inj_xI.
    replace (Z.succ (Zpos (digits2_pos m)) - 1) with (1 + (Zpos (digits2_pos m) - 1)) by lia.
    rewrite Z.pow_add_r by lia. change (2 ^ 1) with 2. lia.
  - rewrite Pos2Z.inj_succ, (Pos2Z.inj_xO m).
    replace (Z.succ (Zpos (digits2_pos m)) - 1) with (1 + (Zpos (digits2_pos m) - 1)) by lia.
    rewrite Z.pow_add_r by lia. change (2 ^ 1) with 2. lia.
  - reflexivity.
Qed.

(** Shifting a positive mantissa to its place keeps it positive, and the
    exponent it gets is at least -1074. *)
Lemma shr_fexp_positive (m : positive) (e : Z) (l : location) :
  -1074 <= e ->
  0 < shr_m (shr_fexp 53 1024 (Zpos m) e l).1 /\ -1074 <= (shr_fexp 53 1024 (Zpos m) e l).2.
Proof.
  intros He. unfold shr_fexp, shr, fexp, emin. cbn [Zdigits2].
  set (d := Zpos (digits2_pos m)).
  assert (Hr : shr_m (shr_record_of_loc (Zpos m) l) = Zpos m)
    by (destruct l as [| []]; reflexivity).
  destruct (Z.max (d + e - 53) (3 - 1024 - 53) - e) as [| n | n] eqn:En; cbn [fst snd].
  - rewrite Hr. lia.
  - rewrite iter_shr_1_m by (rewrite Hr; lia). rewrite Hr. split; [| lia].
    assert (Hn : Zpos n <= d - 1) by lia.
    apply Z.div_str_pos. split; [apply Z.pow_pos_nonneg; lia |].
    apply Z.le_trans with (2 ^ (d - 1)); [apply Z.pow_le_mono_r; lia |].
    apply digits2_pos_lower.
  - rewrite Hr. lia.
Qed.

Lemma shr_fexp_exponent (m e : Z) (l : location) :
  -1074 <= (shr_fexp 53 1024 m e l).2.
Proof.
  unfold shr_fexp, shr, fexp, emin.
  destruct (Z.max (Zdigits2 m + e - 53) (3 - 1024 - 53) - e) as [| n | n] eqn:En;
    cbn [snd]; lia.
Qed.

Lemma round_nearest_even_ge (m : Z) (l : location) : m <= round_nearest_even m l.
Proof.
  destruct l as [| []]; cbn [round_nearest_even]; try lia.
  destruct (Z.even m); lia.
Qed.

(** Rounding a positive number at an exponent of at least -1074 gives a
    positive double or +infinity. *)
Lemma binary_round_aux_positive (s : bool) (m : positive) (e : Z) (l : location) :
  -1074 <= e ->
  (exists m' e', binary_round_aux 53 1024 s (Zpos m) e l = S754_finite s m' e')
  \/ binary_round_aux 53 1024 s (Zpos m) e l = S754_infinity s.
Proof.
  intros He. unfold binary_round_aux.
  destruct (shr_fexp_positive m e l He) as [Hm1 He1].
  destruct (shr_fexp 53 1024 (Zpos m) e l) as [mrs' e'] eqn:E1. cbn [fst snd] in Hm1, He1.
  pose proof (round_nearest_even_ge (shr_m mrs') (loc_of_shr_record mrs')) as Hr.
  destruct (round_nearest_even (shr_m mrs') (loc_of_shr_record mrs')) as [| m1 | m1] eqn:Em1;
    try lia.
  destruct (shr_fexp_positive m1 e' loc_Exact He1) as [Hm2 _].
  destruct (shr_fexp 53 1024 (Zpos m1) e' loc_Exact) as [mrs'' e''] eqn:E2.
  cbn [fst] in Hm2.
  destruct (shr_m mrs'') as [| m2 | m2]; try lia.
  destruct (e'' <=? 1024 - 53); eauto.
Qed.

(** What rounding gives is 0, a finite double with an exponent of at
    least -1074, an infinity or NaN, and has the sign it was given. *)
Lemma binary_round_aux_shape (s : bool) (m e : Z) (l : location) :
  match binary_round_aux 53 1024 s m e l with
  | S754_zero s' | S754_infinity s' => s' = s
  | S754_finite s' _ e' => s' = s /\ -1074 <= e'
  | S754_nan => True
  end.
Proof.
  unfold binary_round_aux.
  destruct (shr_fexp 53 1024 m e l) as [mrs' e'].
  pose proof (shr_fexp_exponent
                (round_nearest_even (shr_m mrs') (loc_of_shr_record mrs')) e' loc_Exact)
    as He.
  destruct (shr_fexp 53 1024 _ e' loc_Exact) as [mrs'' e'']. cbn [snd] in He.
  destruct (shr_m mrs''); [reflexivity | | exact I].
  destruct (e'' <=? 1024 - 53); [split; [reflexivity | exact He] | reflexivity].
Qed.

Lemma shl_align_exponent (m : positive) (e e' : Z) :
  -1074 <= e -> -1074 <= e' -> -1074 <= (shl_align m e e').2.
Proof. intros He He'. unfold shl_align. destruct (e' - e); cbn [snd]; lia. Qed.

Lemma binary_round_shape (s : bool) (m : positive) (e : Z) :
  match binary_round 53 1024 s m e with
  | S754_zero s' | S754_infinity s' => s' = s
  | S754_finite s' _ e' => s' = s /\ -1074 <= e'
  | S754_nan => True
  end.
Proof.
  unfold binary_round. destruct (shl_align m e _) as [mz ez].
  apply binary_round_aux_shape.
Qed.

Lemma binary_round_positive (s : bool) (m : positive) (e : Z) :
  -1074 <= e ->
  (exists m' e', binary_round 53 1024 s m e = S754_finite s m' e')
  \/ binary_round 53 1024 s m e = S754_infinity s.
Proof.
  intros He. unfold binary_round.
  assert (Hez : -1074 <= (shl_align m e (fexp 53 1024 (Zpos (digits2_pos m) + e))).2).
  { apply shl_align_exponent; [exact He |]. unfold fexp, emin. lia. }
  destruct (shl_align m e _) as [mz ez]. cbn [snd] in Hez.
  now apply binary_round_aux_positive.
Qed.

(** The sign of what [binary_normalize] gives is the sign of the integer
    it is given. *)
Lemma binary_normalize_positive (D e : Z) :
  -1074 <= e ->
  is_positive (binary_normalize 53 1024 D e false) = true <-> 0 < D.
Proof.
  intros He. destruct D as [| m | m]; cbn [binary_normalize].
  - split; [discriminate | lia].
  - split; [lia | intros _].
    destruct (binary_round_positive false m e He) as [(m' & e' & ->) | ->]; reflexivity.
  - split; [| lia]. intros Hp. exfalso.
    pose proof (binary_round_shape true m e) as Hs.
    destruct (binary_round 53 1024 true m e) as [s' | s' | | s' m' e'].
    + subst s'. discriminate.
    + subst s'. discriminate.
    + discriminate.
    + destruct Hs as [-> _]. discriminate.
Qed.

Lemma iter_xO (d : positive) (m : positive) :
  Zpos (Pos.iter xO m d) = Zpos m * 2 ^ Zpos d.
Proof.
  induction d as [| d IH] using Pos.peano_ind.
  - cbn [Pos.iter]. rewrite (Pos2Z.inj_xO m). change (2 ^ 1) with 2. lia.
  - rewrite Pos.iter_succ, (Pos2Z.inj_xO (Pos.iter xO m d)), IH, Pos2Z.inj_succ.
    rewrite Z.pow_succ_r by lia. lia.
Qed.

Lemma shl_align_fst (m : positive) (e e' : Z) :
  e' <= e -> Zpos (shl_align m e e').1 = Zpos m * 2 ^ (e - e').
Proof.
  intros He. unfold shl_align.
  destruct (e' - e) as [| d | d] eqn:Ed; cbn [fst]; try lia.
  - replace (e - e') with 0 by lia. change (2 ^ 0) with 1. lia.
  - rewrite iter_xO. f_equal. f_equal. lia.
Qed.
End Doubles.

Section DoublesOrder.

Lemma ulps_positive (m : positive) (e : Z) : -1074 <= e -> 0 < Zpos m * 2 ^ (e + 1074).
Proof. intros He. apply Z.mul_pos_pos; [lia | apply Z.pow_pos_nonneg; lia]. Qed.

(** For doubles none of which is NaN, the difference is positive exactly
    when the first stands above the second. *)
Lemma exceeds_rank (x y : float64) :
  lower_bounded x -> lower_bounded y -> x <> S754_nan -> y <> S754_nan ->
  exceeds x y = true <-> rank_lt (rank y) (rank x).
Proof.
  intros Hx Hy Hnx Hny. unfold rank_lt.
  destruct x as [sx | sx | | sx mx ex]; [| | congruence |];
    destruct y as [sy | sy | | sy my ey]; try congruence; cbn [lower_bounded] in *.
  - destruct sx, sy; cbn; split; (discriminate || lia).
  - destruct sx, sy; cbn; split; (discriminate || lia || reflexivity).
  - pose proof (ulps_positive my ey Hy).
    destruct sx, sy; cbn [rank cond_Zopp fst snd]; cbn -[Z.mul Z.pow];
      split; (discriminate || lia || reflexivity).
  - destruct sx, sy; cbn; split; (discriminate || lia || reflexivity).
  - destruct sx, sy; cbn; split; (discriminate || lia || reflexivity).
  - destruct sx, sy; cbn; split; (discriminate || lia || reflexivity).
  - pose proof (ulps_positive mx ex Hx).
    destruct sx, sy; cbn [rank cond_Zopp fst snd]; cbn -[Z.mul Z.pow];
      split; (discriminate || lia || reflexivity).
  - destruct sx, sy; cbn; split; (discriminate || lia || reflexivity).
  - unfold exceeds, f64_sub, SFsub.
    assert (Hez : -1074 <= Z.min ex ey) by lia.
    rewrite (binary_normalize_positive _ _ Hez).
    rewrite !shl_align_fst by lia. cbn [rank fst snd].
    set (ez := Z.min ex ey) in *.
    assert (Hp : 0 < 2 ^ (ez + 1074)) by (apply Z.pow_pos_nonneg; lia).
    assert (Hex : 2 ^ (ex + 1074) = 2 ^ (ex - ez) * 2 ^ (ez + 1074)).
    { rewrite <- Z.pow_add_r by lia. f_equal. lia. }
    assert (Hey : 2 ^ (ey + 1074) = 2 ^ (ey - ez) * 2 ^ (ez + 1074)).
    { rewrite <- Z.pow_add_r by lia. f_equal. lia. }
    rewrite Hex, Hey.
    set (P := 2 ^ (ez + 1074)) in *. set (a := Zpos mx * 2 ^ (ex - ez)).
    set (b := Zpos my * 2 ^ (ey - ez)).
    replace (Zpos mx * (2 ^ (ex - ez) * P)) with (a * P) by (unfold a; ring).
    replace (Zpos my * (2 ^ (ey - ez) * P)) with (b * P) by (unfold b; ring).
    destruct sx, sy; cbn [cond_Zopp];
      (split; [intros Hd; right; split; [reflexivity | nia]
              | intros [Hd | [_ Hd]]; [lia | nia]]).
Qed.

(** Doubles none of which is NaN are ordered consistently by their
    differences. *)
Lemma consistent_without_nan (l : list float64) :
  Forall (fun x => lower_bounded x /\ x <> S754_nan) l -> consistent l = true.
Proof.
  intros Hl. rewrite Forall_forall in Hl.
  assert (Hwf : forall u, In u l -> lower_bounded u /\ u <> S754_nan).
  { intros u Hu. apply (Hl u), list_elem_of_In, Hu. }
  clear Hl. unfold consistent.
  apply forallb_forall. intros x Hx. apply forallb_forall. intros y Hy.
  destruct (Hwf x Hx) as [Hbx Hnx]. destruct (Hwf y Hy) as [Hby Hny].
  pose proof (exceeds_rank x y Hbx Hby Hnx Hny) as Hxy.
  pose proof (exceeds_rank y x Hby Hbx Hny Hnx) as Hyx.
  apply andb_true_iff. split.
  - apply negb_true_iff, andb_false_iff.
    destruct (exceeds x y) eqn:E1; [| now left]. right.
    destruct (exceeds y x) eqn:E2; [| reflexivity].
    unfold rank_lt in *. destruct (proj1 Hxy eq_refl), (proj1 Hyx eq_refl); lia.
  - apply forallb_forall. intros z Hz.
    destruct (Hwf z Hz) as [Hbz Hnz].
    pose proof (exceeds_rank x z Hbx Hbz Hnx Hnz) as Hxz.
    pose proof (exceeds_rank y z Hby Hbz Hny Hnz) as Hyz.
    destruct (exceeds x z) eqn:E1; [| reflexivity]. cbn [implb].
    apply orb_true_iff.
    destruct (decide (rank_lt (rank y) (rank x))) as [Hlt | Hnlt];
      [left; now apply Hxy |].
    right. apply Hyz. unfold rank_lt in *.
    destruct (proj1 Hxz eq_refl); lia.
Qed.
End DoublesOrder.

Section DoublesBounds.

Lemma f64_div_lower_bounded (x y : float64) : lower_bounded (f64_div x y).
Proof.
  unfold f64_div, SFdiv.
  destruct x as [sx | sx | | sx mx ex], y as [sy | sy | | sy my ey]; try exact I.
  destruct (SFdiv_core_binary 53 1024 (Zpos mx) ex (Zpos my) ey) as [[mz ez] lz].
  pose proof (binary_round_aux_shape (xorb sx sy) mz ez lz) as Hs.
  destruct (binary_round_aux 53 1024 (xorb sx sy) mz ez lz); try exact I.
  exact (proj2 Hs).
Qed.

Lemma f64_add_lower_bounded (x y : float64) :
  lower_bounded x -> lower_bounded y -> lower_bounded (f64_add x y).
Proof.
  intros Hx Hy. unfold f64_add, SFadd.
  destruct x as [sx | sx | | sx mx ex], y as [sy | sy | | sy my ey];
    try exact I; try assumption.
  - destruct sx, sy; exact I.
  - destruct sx, sy; exact I.
  - match goal with |- lower_bounded (binary_normalize _ _ ?D ?e _) =>
      destruct D as [| m | m]; cbn [binary_normalize]; [exact I | |]
    end.
    + pose proof (binary_round_shape false m (Z.min ex ey)) as Hs.
      destruct (binary_round 53 1024 false m (Z.min ex ey)); try exact I.
      exact (proj2 Hs).
    + pose proof (binary_round_shape true m (Z.min ex ey)) as Hs.
      destruct (binary_round 53 1024 true m (Z.min ex ey)); try exact I.
      exact (proj2 Hs).
Qed.

Lemma f64_sum_lower_bounded (l : list float64) :
  Forall lower_bounded l -> lower_bounded (f64_sum l).
Proof.
  intros Hl. destruct Hl as [| x l Hx Hl]; [exact I |]. cbn [f64_sum].
  revert x Hx. induction Hl as [| y l Hy Hl IH]; intros x Hx; [exact Hx |].
  cbn [fold_left]. apply IH. now apply f64_add_lower_bounded.
Qed.

Lemma accumulated_revenue_lower_bounded `{Host} (lo hi : Date)
  (payments : list Payment) (i : string) :
  lower_bounded (accumulated_revenue lo hi payments i).
Proof.
  unfold accumulated_revenue. apply f64_sum_lower_bounded, Forall_map, Forall_forall.
  intros p _. apply f64_div_lower_bounded.
Qed.
End DoublesBounds.

Section DoublesSigns.

Lemma shr_fexp_nonneg (m e : Z) (l : location) :
  0 <= m -> 0 <= shr_m (shr_fexp 53 1024 m e l).1.
Proof.
  intros Hm. unfold shr_fexp, shr.
  assert (Hr : shr_m (shr_record_of_loc m l) = m) by (destruct l as [| []]; reflexivity).
  destruct (fexp 53 1024 (Zdigits2 m + e) - e) as [| n | n]; cbn [fst];
    try (rewrite Hr; exact Hm).
  rewrite iter_shr_1_m by (rewrite Hr; exact Hm). rewrite Hr.
  apply Z.div_pos; [exact Hm | apply Z.pow_pos_nonneg; lia].
Qed.

(** Rounding a number that is not negative does not give NaN. *)
Lemma binary_round_aux_nonneg (m e : Z) (l : location) :
  0 <= m -> not_negative (binary_round_aux 53 1024 false m e l).
Proof.
  intros Hm. unfold binary_round_aux.
  pose proof (shr_fexp_nonneg m e l Hm) as H1.
  destruct (shr_fexp 53 1024 m e l) as [mrs' e']. cbn [fst] in H1.
  pose proof (round_nearest_even_ge (shr_m mrs') (loc_of_shr_record mrs')) as Hr.
  assert (H2 : 0 <= round_nearest_even (shr_m mrs') (loc_of_shr_record mrs')) by lia.
  pose proof (shr_fexp_nonneg _ e' loc_Exact H2) as H3.
  destruct (shr_fexp 53 1024 _ e' loc_Exact) as [mrs'' e'']. cbn [fst] in H3.
  destruct (shr_m mrs'') as [| m2 | m2]; [exact I | | lia].
  destruct (e'' <=? 1024 - 53); exact I.
Qed.

Lemma f64_div_not_negative (x y : float64) :
  not_negative x -> (exists m e, y = S754_finite false m e) ->
  not_negative (f64_div x y).
Proof.
  intros Hx (my & ey & ->). unfold f64_div, SFdiv.
  destruct x as [[] | [] | | [] mx ex]; try contradiction; try exact I.
  cbn [xorb].
  destruct (SFdiv_core_binary 53 1024 (Zpos mx) ex (Zpos my) ey) as [[mz ez] lz] eqn:E.
  apply binary_round_aux_nonneg.
  unfold SFdiv_core_binary in E.
  match type of E with
  | (let '(q, r) := Z.div_eucl ?a ?b in _) = _ =>
    assert (Ha : 0 <= a);
    [| pose proof (Z_div_mod a b ltac:(lia)) as Hdm;
       destruct (Z.div_eucl a b) as [q r]; injection E as <- _ _; nia]
  end.
  destruct (ex - ey - _) as [| s | s]; [lia | apply Z.shiftl_nonneg; lia | lia].
Qed.

Lemma f64_of_Qc_not_negative (q : Qc) : (0 ≤ q)%Qc -> not_negative (f64_of_Qc q).
Proof.
  intros Hq. unfold f64_of_Qc.
  assert (Hn : 0 <= Qnum q).
  { unfold Qcle, Qle in Hq. simpl in Hq. lia. }
  destruct (Qnum q) as [| n | n]; [exact I | | lia].
  apply f64_div_not_negative; [exact I | eauto].
Qed.

Lemma f64_add_not_negative (x y : float64) :
  not_negative x -> not_negative y -> not_negative (f64_add x y).
Proof.
  intros Hx Hy. unfold f64_add, SFadd.
  destruct x as [[] | [] | | [] mx ex]; try contradiction;
    destruct y as [[] | [] | | [] my ey]; try contradiction; try exact I.
  cbn [cond_Zopp].
  match goal with |- not_negative (binary_normalize _ _ ?D ?e _) =>
    assert (HD : 0 < D) by lia;
    destruct D as [| m | m]; [lia | | lia]
  end.
  cbn [binary_normalize]. unfold binary_round.
  destruct (shl_align m _ _) as [mz ez]. apply binary_round_aux_nonneg. lia.
Qed.

Lemma f64_sum_not_negative (l : list float64) :
  Forall not_negative l -> not_negative (f64_sum l).
Proof.
  intros Hl. destruct Hl as [| x l Hx Hl]; [exact I |]. cbn [f64_sum].
  revert x Hx. induction Hl as [| y l Hy Hl IH]; intros x Hx; [exact Hx |].
  cbn [fold_left]. apply IH. now apply f64_add_not_negative.
Qed.

Lemma not_negative_not_nan (x : float64) : not_negative x -> x <> S754_nan.
Proof. intros Hx ->. exact Hx. Qed.
End DoublesSigns.

(** ** Top products on doubles *)

Section SortFacts64.
Variable S : list float64.
Hypothesis S_consistent : consistent S = true.

Lemma exceeds_asym (x y : float64) :
  x ∈ S -> y ∈ S -> exceeds x y = true -> exceeds y x = false.
Proof.
  intros Hx Hy Hxy. unfold consistent in S_consistent.
  rewrite forallb_forall in S_consistent.
  specialize (S_consistent x (proj1 (list_elem_of_In _ _) Hx)).
  rewrite forallb_forall in S_consistent.
  specialize (S_consistent y (proj1 (list_elem_of_In _ _) Hy)).
  apply andb_true_iff in S_consistent as [Hasym _].
  rewrite Hxy in Hasym. simpl in Hasym. now apply negb_true_iff in Hasym.
Qed.

Lemma exceeds_between (x y z : float64) :
  x ∈ S -> y ∈ S -> z ∈ S ->
  exceeds x y = false -> exceeds y z = false -> exceeds x z = false.
Proof.
  intros Hx Hy Hz Hxy Hyz. unfold consistent in S_consistent.
  rewrite forallb_forall in S_consistent.
  specialize (S_consistent x (proj1 (list_elem_of_In _ _) Hx)).
  rewrite forallb_forall in S_consistent.
  specialize (S_consistent y (proj1 (list_elem_of_In _ _) Hy)).
  apply andb_true_iff in S_consistent as [_ Htrans].
  rewrite forallb_forall in Htrans.
  specialize (Htrans z (proj1 (list_elem_of_In _ _) Hz)).
  rewrite Hxy, Hyz in Htrans. simpl in Htrans.
  destruct (exceeds x z); [discriminate | reflexivity].
Qed.

Lemma insert_sorted64_Permutation (a : R2F.ProductRevenue) (l : list R2F.ProductRevenue) :
  Permutation (R2F.insert_sorted a l) (a :: l).
Proof.
  induction l as [| b l IH]; simpl; [reflexivity |].
  destruct (is_positive (R2F.comparator a b)); [| reflexivity].
  rewrite IH. apply perm_swap.
Qed.

Lemma sort64_Permutation (l : list R2F.ProductRevenue) :
  Permutation (R2F.sort_by_revenue l) l.
Proof.
  induction l as [| a l IH]; simpl; [reflexivity |].
  rewrite insert_sorted64_Permutation. now apply perm_skip.
Qed.

Lemma insert_sorted64_sorted (a : R2F.ProductRevenue) (l : list R2F.ProductRevenue) :
  R2F.revenue a ∈ S -> Forall (fun e => R2F.revenue e ∈ S) l ->
  StronglySorted descending64 l ->
  StronglySorted descending64 (R2F.insert_sorted a l).
Proof.
  intros Ha Hl Hs. induction Hs as [| b l Hs IH Hb]; simpl.
  - repeat constructor.
  - apply Forall_cons in Hl as [Hbs Hl].
    change (is_positive (R2F.comparator a b))
      with (exceeds (R2F.revenue b) (R2F.revenue a)).
    destruct (exceeds (R2F.revenue b) (R2F.revenue a)) eqn:E.
    + constructor; [now apply IH |].
      rewrite insert_sorted64_Permutation.
      constructor; [| exact Hb]. unfold descending64.
      now apply exceeds_asym.
    + constructor; [constructor; assumption |].
      constructor; [exact E |].
      rewrite Forall_forall in Hb, Hl. apply Forall_forall. intros c Hc.
      unfold descending64 in *.
      apply exceeds_between with (R2F.revenue b); auto.
Qed.

Lemma sort64_sorted (l : list R2F.ProductRevenue) :
  Forall (fun e => R2F.revenue e ∈ S) l ->
  StronglySorted descending64 (R2F.sort_by_revenue l).
Proof.
  induction 1 as [| a l Ha Hl IH]; simpl; [constructor |].
  apply insert_sorted64_sorted; [exact Ha | | exact IH].
  now rewrite sort64_Permutation.
Qed.

Lemma tied_with_insert_sorted (e a : R2F.ProductRevenue) (l : list R2F.ProductRevenue) :
  R2F.revenue e ∈ S -> R2F.revenue a ∈ S ->
  Forall (fun b => R2F.revenue b ∈ S) l ->
  tied_with e (R2F.insert_sorted a l) = tied_with e (a :: l).
Proof.
  intros He Ha Hl. induction Hl as [| b l Hb Hl IH]; [reflexivity |].
  cbn [R2F.insert_sorted].
  change (is_positive (R2F.comparator a b))
    with (exceeds (R2F.revenue b) (R2F.revenue a)).
  destruct (exceeds (R2F.revenue b) (R2F.revenue a)) eqn:E; [| reflexivity].
  unfold tied_with in *. cbn [List.filter] in *. rewrite IH.
  destruct (tie e a) eqn:Ea; [| reflexivity].
  destruct (tie e b) eqn:Eb; [| reflexivity].
  exfalso. unfold tie in Ea, Eb.
  apply andb_true_iff in Ea as [Ea1 Ea2]. apply andb_true_iff in Eb as [Eb1 Eb2].
  apply negb_true_iff in Ea1, Ea2, Eb1, Eb2.
  rewrite (exceeds_between (R2F.revenue b) (R2F.revenue e) (R2F.revenue a)) in E
    by assumption.
  discriminate.
Qed.

Lemma tied_with_sort (e : R2F.ProductRevenue) (l : list R2F.ProductRevenue) :
  R2F.revenue e ∈ S -> Forall (fun b => R2F.revenue b ∈ S) l ->
  tied_with e (R2F.sort_by_revenue l) = tied_with e l.
Proof.
  intros He. induction 1 as [| a l Ha Hl IH]; [reflexivity |].
  cbn [R2F.sort_by_revenue foldr]. fold (R2F.sort_by_revenue l).
  rewrite tied_with_insert_sorted by (try assumption; now rewrite sort64_Permutation).
  unfold tied_with in *. cbn [List.filter]. now rewrite IH.
Qed.

(** Where no two entries tie, a descending ranking is strict. *)
Lemma descending64_strict (l : list R2F.ProductRevenue) :
  StronglySorted descending64 l -> no_tie l = true ->
  StronglySorted strictly_descending64 l.
Proof.
  induction 1 as [| a l Hl IH Ha]; intros Hnt; [constructor |].
  cbn [no_tie] in Hnt. apply andb_true_iff in Hnt as [Hnone Hnt].
  constructor; [now apply IH |].
  rewrite forallb_forall in Hnone. rewrite Forall_forall in Ha.
  apply Forall_forall. intros b Hb. specialize (Ha b Hb).
  specialize (Hnone b (proj1 (list_elem_of_In _ _) Hb)).
  unfold descending64 in Ha. unfold strictly_descending64, tie in *.
  rewrite Ha in Hnone. simpl in Hnone. rewrite andb_true_r in Hnone.
  now apply negb_false_iff, negb_true_iff.
Qed.
End SortFacts64.

Lemma tie_sym (a b : R2F.ProductRevenue) : tie a b = tie b a.
Proof. unfold tie. apply andb_comm. Qed.

Lemma no_tie_Permutation (l l' : list R2F.ProductRevenue) :
  Permutation l l' -> no_tie l = no_tie l'.
Proof.
  induction 1 as [| x l l' Hp IH | x y l | l l' l'' _ IH1 _ IH2].
  - reflexivity.
  - cbn [no_tie]. rewrite IH. f_equal.
    apply eq_true_iff_eq. rewrite !forallb_forall.
    split; intros Hall b Hb; apply Hall;
      [now rewrite Hp | now rewrite <- Hp].
  - cbn [no_tie forallb]. rewrite (tie_sym x y).
    destruct (tie y x); simpl; [reflexivity |].
    destruct (forallb (fun b => negb (tie y b)) l); simpl;
      [| now rewrite andb_false_r].
    reflexivity.
  - now rewrite IH1.
Qed.

(** The name of line 612 is the one the specification describes. *)
Lemma display_name_shown (products : list Product) (i : string) :
  display_name products i = shown_name products i.
Proof.
  unfold display_name, shown_name, listed_title.
  induction products as [| p products IH]; [reflexivity |].
  cbn [find List.filter].
  destruct (String.eqb_spec (product_id p) i) as [Heq | Hne].
  - rewrite bool_decide_eq_true_2 by exact Heq.
    destruct (title p) as [| | t]; try reflexivity.
    destruct (String.eqb_spec t "") as [-> | Hn].
    + now rewrite bool_decide_eq_true_2.
    + now rewrite bool_decide_eq_false_2.
  - rewrite bool_decide_eq_false_2 by exact Hne. exact IH.
Qed.

Lemma f64_sum_snoc (l : list float64) (r : float64) :
  f64_sum (l ++ [r]) = match l with [] => r | _ => f64_add (f64_sum l) r end.
Proof.
  destruct l as [| x l]; [reflexivity |].
  cbn [app f64_sum]. now rewrite fold_left_app.
Qed.

Section ProductMapFacts64.
Context `{Host}.
Variables lo hi : Date.
Variable products : list Product.

Lemma render64_ext (total total' : string -> float64) (ks : list string) :
  (forall i, i ∈ ks -> total i = total' i) ->
  render64 products total ks = render64 products total' ks.
Proof.
  intros Heq. unfold render64. apply map_ext_in. intros i Hi.
  rewrite (Heq i); [reflexivity |]. now apply list_elem_of_In.
Qed.

Lemma render64_snoc (total : string -> float64) (ks : list string) (i : string) :
  render64 products total (ks ++ [i])
  = render64 products total ks
    ++ [(i, {| R2F.name := display_name products i; R2F.revenue := total i |})].
Proof. unfold render64. now rewrite map_app. Qed.

Lemma map_get_render64 (total : string -> float64) (ks : list string) (i : string) :
  R2F.map_get i (render64 products total ks)
  = if bool_decide (i ∈ ks)
    then Some {| R2F.name := display_name products i; R2F.revenue := total i |}
    else None.
Proof.
  unfold R2F.map_get. induction ks as [| k ks IH].
  - reflexivity.
  - cbn [render64 map find fst]. destruct (String.eqb_spec k i) as [-> | Hne].
    + rewrite bool_decide_eq_true_2 by left. reflexivity.
    + fold (render64 products total ks). rewrite IH.
      destruct (bool_decide (i ∈ ks)) eqn:E.
      * apply bool_decide_eq_true_1 in E.
        rewrite bool_decide_eq_true_2 by now right. reflexivity.
      * apply bool_decide_eq_false_1 in E. rewrite bool_decide_eq_false_2; [reflexivity |].
        rewrite elem_of_cons. intros [-> | Hin]; tauto.
Qed.

Lemma add_revenue_render64 (total : string -> float64) (ks : list string)
  (i : string) (r : float64) :
  NoDup ks ->
  R2F.add_revenue i r (render64 products total ks)
  = render64 products
      (fun k => if bool_decide (k = i) then f64_add (total k) r else total k) ks.
Proof.
  induction 1 as [| k ks Hnotin Hnd IH].
  - reflexivity.
  - cbn [render64 map R2F.add_revenue]. destruct (String.eqb_spec k i) as [-> | Hne].
    + rewrite bool_decide_eq_true_2 by reflexivity. cbn [R2F.name R2F.revenue]. f_equal.
      apply render64_ext. intros k Hk. rewrite bool_decide_eq_false_2; [reflexivity |].
      intros ->. contradiction.
    + rewrite bool_decide_eq_false_2 by exact Hne. f_equal. exact IH.
Qed.

Lemma resolvable_product_id_spec (p : Payment) :
  resolvable_product_id p
  = if truthy_string (product_id_of p) then product_id_of p else None.
Proof.
  unfold resolvable_product_id, product_id_of, truthy_string.
  destruct (product p) as [r |]; [| reflexivity].
  destruct (ref_id r) as [| | i]; try reflexivity.
  destruct (String.eqb_spec i "") as [-> | Hne].
  - now rewrite bool_decide_eq_true_2.
  - now rewrite bool_decide_eq_false_2.
Qed.

Lemma counts_between_spec (p : Payment) :
  counts_between lo hi p
  = R2F.in_last_30_days lo hi p && truthy_string (product_id_of p).
Proof.
  unfold counts_between, R2F.in_last_30_days, within.
  rewrite resolvable_product_id_spec.
  destruct (R2.parseTimestamp (paid_at p)) as [d |]; [| reflexivity].
  f_equal. destruct (truthy_string (product_id_of p)) eqn:Ht.
  - unfold truthy_string in Ht. destruct (product_id_of p); [| discriminate].
    apply bool_decide_eq_true_2. eauto.
  - apply bool_decide_eq_false_2. now intros [? ?].
Qed.

Lemma product_counted_spec (p : Payment) :
  product_counted lo hi p
  = if R2F.in_last_30_days lo hi p && truthy_string (product_id_of p)
    then product_id_of p else None.
Proof.
  unfold product_counted. rewrite counts_between_spec, resolvable_product_id_spec.
  destruct (R2F.in_last_30_days lo hi p), (truthy_string (product_id_of p)); reflexivity.
Qed.

Lemma accumulated_revenue_snoc (ps : list Payment) (p : Payment) (i : string) :
  accumulated_revenue lo hi (ps ++ [p]) i
  = if bool_decide (product_counted lo hi p = Some i)
    then
      let r := f64_div (f64_of_Qc (amount_of p)) (f64_of_Z 100) in
      if bool_decide (i ∈ omap (product_counted lo hi) ps)
      then f64_add (accumulated_revenue lo hi ps i) r
      else r
    else accumulated_revenue lo hi ps i.
Proof.
  unfold accumulated_revenue. rewrite List.filter_app, map_app. cbn [List.filter].
  destruct (bool_decide (product_counted lo hi p = Some i)) eqn:Ec; cbn [map].
  2:{ now rewrite app_nil_r. }
  rewrite f64_sum_snoc. cbv zeta.
  destruct (bool_decide (i ∈ omap (product_counted lo hi) ps)) eqn:Es.
  - apply bool_decide_eq_true_1, list_elem_of_omap in Es as (q & Hq & Hc).
    destruct (List.filter _ ps) as [| q0 l0] eqn:Hf; [| reflexivity].
    exfalso.
    assert (Hin : q ∈ List.filter
                    (fun p0 => bool_decide (product_counted lo hi p0 = Some i)) ps).
    { apply list_elem_of_In, filter_In. split; [now apply list_elem_of_In |].
      now apply bool_decide_eq_true_2. }
    rewrite Hf in Hin. now apply elem_of_nil in Hin.
  - apply bool_decide_eq_false_1 in Es.
    rewrite (filter_all_false _ ps); [reflexivity |].
    apply Forall_forall. intros q Hq. apply bool_decide_eq_false_2. intros Hc.
    apply Es, list_elem_of_omap. eauto.
Qed.

(** A payment that does not count leaves the map as it is. *)
Lemma record_payment64_skipped (m : R2F.ProductMap) (p : Payment) :
  R2F.in_last_30_days lo hi p = true -> product_counted lo hi p = None ->
  R2F.record_payment products m p = m.
Proof.
  intros Hin Hnone. rewrite product_counted_spec, Hin in Hnone. simpl in Hnone.
  unfold R2F.record_payment. destruct (product_id_of p) as [i |]; [| reflexivity].
  destruct (truthy_string (Some i)); [discriminate | reflexivity].
Qed.

Lemma record_payment64_counted (m : R2F.ProductMap) (p : Payment) (i : string) :
  product_counted lo hi p = Some i ->
  R2F.in_last_30_days lo hi p = true /\
  R2F.record_payment products m p
  = let r := f64_div (f64_of_Qc (amount_of p)) (f64_of_Z 100) in
    match R2F.map_get i m with
    | Some _ => R2F.add_revenue i r m
    | None =>
      m ++ [(i, {| R2F.name := display_name products i; R2F.revenue := r |})]
    end.
Proof.
  rewrite product_counted_spec.
  destruct (R2F.in_last_30_days lo hi p); [| discriminate]. simpl.
  destruct (truthy_string (product_id_of p)) eqn:Ht; [| discriminate].
  intros Hid. split; [reflexivity |].
  unfold R2F.record_payment. rewrite Hid in *. rewrite Ht.
  now rewrite paymentTotal_amount_of.
Qed.

Lemma productRevenueMap64_render (ps : list Payment) :
  R2F.productRevenueMap lo hi ps products
  = render64 products (accumulated_revenue lo hi ps) (products_between lo hi ps).
Proof.
  unfold R2F.productRevenueMap, products_between.
  induction ps as [| p ps IH] using rev_ind; [reflexivity |].
  rewrite List.filter_app, fold_left_app, IH, omap_app. clear IH.
  destruct (product_counted lo hi p) as [i |] eqn:Hc.
  - destruct (record_payment64_counted
                (render64 products (accumulated_revenue lo hi ps)
                   (first_encounters (omap (product_counted lo hi) ps))) p i Hc)
      as [Hin Hstep].
    cbn [List.filter]. rewrite Hin. cbn [fold_left]. rewrite Hstep. cbv zeta.
    cbn [omap list_omap]. rewrite Hc. cbn [app].
    rewrite first_encounters_snoc, map_get_render64.
    rewrite (bool_decide_ext _ _ (elem_of_first_encounters _ i)).
    destruct (bool_decide (i ∈ omap (product_counted lo hi) ps)) eqn:Eseen.
    + rewrite add_revenue_render64 by apply NoDup_first_encounters.
      apply render64_ext. intros k _. rewrite accumulated_revenue_snoc, Hc. cbv zeta.
      destruct (decide (k = i)) as [-> | Hne].
      * rewrite !bool_decide_eq_true_2 by reflexivity. now rewrite Eseen.
      * now rewrite !bool_decide_eq_false_2 by congruence.
    + apply bool_decide_eq_false_1 in Eseen. rewrite render64_snoc. f_equal.
      * apply render64_ext. intros k Hk. rewrite accumulated_revenue_snoc, Hc.
        rewrite bool_decide_eq_false_2; [reflexivity |].
        intros [= ->]. apply Eseen. now apply elem_of_first_encounters.
      * rewrite accumulated_revenue_snoc, Hc. cbv zeta.
        rewrite bool_decide_eq_true_2 by reflexivity.
        now rewrite bool_decide_eq_false_2 by exact Eseen.
  - cbn [omap list_omap]. rewrite Hc, app_nil_r.
    assert (Hsame : render64 products (accumulated_revenue lo hi ps)
                      (first_encounters (omap (product_counted lo hi) ps))
                    = render64 products (accumulated_revenue lo hi (ps ++ [p]))
                        (first_encounters (omap (product_counted lo hi) ps))).
    { apply render64_ext. intros k _. rewrite accumulated_revenue_snoc, Hc.
      now rewrite bool_decide_eq_false_2 by discriminate. }
    cbn [List.filter]. destruct (R2F.in_last_30_days lo hi p) eqn:Hin.
    + cbn [fold_left]. rewrite record_payment64_skipped by assumption. exact Hsame.
    + exact Hsame.
Qed.

Lemma products_counted_filter (ps : list Payment) :
  omap (product_counted lo hi) (List.filter (counts_between lo hi) ps)
  = omap (product_counted lo hi) ps.
Proof.
  induction ps as [| p ps IH]; [reflexivity |].
  cbn [List.filter]. destruct (counts_between lo hi p) eqn:Hc.
  - rewrite !omap_cons, IH. reflexivity.
  - assert (Hnone : product_counted lo hi p = None)
      by (unfold product_counted; now rewrite Hc).
    now rewrite omap_cons, IH, Hnone.
Qed.

Lemma accumulated_revenue_filter (ps : list Payment) (i : string) :
  accumulated_revenue lo hi (List.filter (counts_between lo hi) ps) i
  = accumulated_revenue lo hi ps i.
Proof.
  unfold accumulated_revenue. do 2 f_equal.
  induction ps as [| p ps IH]; [reflexivity |].
  cbn [List.filter]. destruct (counts_between lo hi p) eqn:Hc.
  - cbn [List.filter]. now rewrite IH.
  - assert (Hnone : product_counted lo hi p = None)
      by (unfold product_counted; now rewrite Hc).
    rewrite IH, Hnone. now rewrite bool_decide_eq_false_2 by discriminate.
Qed.

Lemma topProducts64_only_counted (ps : list Payment) :
  R2F.topProducts lo hi (List.filter (counts_between lo hi) ps) products
  = R2F.topProducts lo hi ps products.
Proof.
  unfold R2F.topProducts. rewrite !productRevenueMap64_render.
  unfold products_between. rewrite products_counted_filter.
  do 3 f_equal. apply render64_ext. intros i _. apply accumulated_revenue_filter.
Qed.

Lemma values_render64 (payments : list Payment) :
  map snd (render64 products (accumulated_revenue lo hi payments)
             (products_between lo hi payments))
  = map (entry_of lo hi payments products) (products_between lo hi payments).
Proof.
  unfold render64. rewrite map_map. apply map_ext. intros i. cbn [snd].
  unfold entry_of. now rewrite display_name_shown.
Qed.
End ProductMapFacts64.

(** Payments that count and whose amounts are not negative accumulate
    to revenues none of which is NaN. *)
Lemma revenues_not_nan `{Host} (lo hi : Date) (payments : list Payment)
  (products : list Product) :
  Forall (fun p => counts_between lo hi p = true -> (0 ≤ amount_of p)%Qc) payments ->
  Forall (fun e => R2F.revenue e <> S754_nan)
    (map (entry_of lo hi payments products) (products_between lo hi payments)).
Proof.
  intros Hpos. rewrite Forall_forall in Hpos.
  apply Forall_map, Forall_forall. intros i _. cbn [entry_of R2F.revenue].
  apply not_negative_not_nan. unfold accumulated_revenue.
  apply f64_sum_not_negative, Forall_map, Forall_forall. intros p Hp.
  apply list_elem_of_In, filter_In in Hp as [Hin Hc].
  apply bool_decide_eq_true_1 in Hc.
  apply f64_div_not_negative; [| eexists _, _; reflexivity].
  apply f64_of_Qc_not_negative, Hpos; [now apply list_elem_of_In |].
  unfold product_counted in Hc. now destruct (counts_between lo hi p).
Qed.



(** The six payments rank as 6, 5, 4, 3, 2 major units; the product in
    the catalogue shows its title, the others the fallback label. *)
Example topProducts64_six :
  let top := R2F.topProducts noon_of_day_70 noon_of_day_100 six_payments catalogue in
  map R2F.name top
  = ["Product prod_b"; "Product prod_d"; "Product prod_f"; "Course";
     "Product prod_e"] /\
  map R2F.revenue top = map f64_of_Z [6; 5; 4; 3; 2].
Proof. vm_compute. split; reflexivity. Qed.

(** Two products with the same revenue keep the order in which they were
    first encountered. *)
Example topProducts64_tie :
  map R2F.name
    (R2F.topProducts noon_of_day_70 noon_of_day_100
       [payment_for "prod_x" 250; payment_for "prod_y" 700;
        payment_for "prod_z" 250; payment_for "prod_x" 450] catalogue)
  = ["Product prod_x"; "Product prod_y"; "Product prod_z"].
Proof. vm_compute. reflexivity. Qed.

(** Payments of 10 and 20 minor units accumulate to 0.30000000000000004,
    one of 30 to 0.3: the two products do not tie, and the one met second
    ranks first. *)
Example topProducts64_rounding :
  R2F.topProducts noon_of_day_70 noon_of_day_100 thirty_and_ten_plus_twenty catalogue
  = [{| R2F.name := "Product prod_a";
        R2F.revenue := S754_finite false 5404319552844596 (-54) |};
     {| R2F.name := "Product prod_b";
        R2F.revenue := S754_finite false 5404319552844595 (-54) |}].
Proof. vm_compute. reflexivity. Qed.

(** * Further properties of the code *)
Lemma truncate_Z (z : Z) : truncate (Qc_of_Z z) = z.
Proof.
  unfold truncate. destruct (decide _); [apply Qfloor_Z | apply Qceiling_Z].
Qed.

(** X1: a number above 8.64e15 gives none; above 10^12 it is read as
    milliseconds; from -8.64e12 up to 10^12 it is read as seconds; below
    -8.64e12 the seconds would not be a date and the number is read as
    milliseconds by the fallback [new Date(value)]; below -8.64e15 it gives
    none. *)
Theorem parseTimestamp_number_ranges `{Host} (x : Qc) :
  R2.parseTimestamp (TNum x)
  = if decide (Qc_of_Z max_time_value < x)%Qc then None
    else if decide (Qc_of_Z 1000000000000 < x)%Qc then Some (truncate x)
    else if decide (Qc_of_Z (-8640000000000) ≤ x)%Qc
         then Some (truncate (x * Qc_of_Z 1000)%Qc)
    else if decide (Qc_of_Z (- max_time_value) ≤ x)%Qc then Some (truncate x)
    else None.
Proof.
  destruct (decide (Qc_of_Z max_time_value < x)%Qc) as [Hbig | Hbig].
  { unfold R2.parseTimestamp, Date_of_value, Date_of_number.
    destruct (decide (Qc_of_Z 1000000000000 < x)%Qc) as [_ | Hn]; [| exfalso; qc_lra].
    destruct (decide _) as [[_ Hle] | _]; [exfalso; qc_lra | reflexivity]. }
  apply Qcnot_lt_le in Hbig.
  destruct (decide (Qc_of_Z 1000000000000 < x)%Qc) as [Hms | Hms].
  { now apply parseTimestamp_milliseconds. }
  apply Qcnot_lt_le in Hms.
  destruct (decide (Qc_of_Z (-8640000000000) ≤ x)%Qc) as [Hs | Hs].
  { now apply parseTimestamp_seconds. }
  apply Qcnot_le_lt in Hs.
  unfold R2.parseTimestamp, Date_of_value.
  destruct (decide (Qc_of_Z 1000000000000 < x)%Qc) as [Hgt | _]; [exfalso; qc_lra |].
  unfold Date_of_number at 1.
  destruct (decide _) as [[Hlo _] | _]; [exfalso; qc_lra |].
  unfold Date_of_number.
  destruct (decide (Qc_of_Z (- max_time_value) ≤ x)%Qc) as [Hlo | Hlo].
  - destruct (decide _) as [_ | Hn]; [reflexivity | exfalso; apply Hn; split; [exact Hlo | qc_lra]].
  - destruct (decide _) as [[Hlo' _] | _]; [contradiction | reflexivity].
Qed.

(** X2: a text that is not blank and that [Number] reads as a number
    between -8.64e12 and 8.64e15 is normalized like that number, and to an
    instant. *)
Theorem parseTimestamp_numeric_text `{Host} (s : string) (x : Qc) :
  trim s <> "" -> Number_of_string s = Some x ->
  (Qc_of_Z (-8640000000000) ≤ x)%Qc -> (x ≤ Qc_of_Z max_time_value)%Qc ->
  R2.parseTimestamp (TStr s) = R2.parseTimestamp (TNum x) /\
  R2.parseTimestamp (TStr s) <> None.
Proof.
  intros Htrim Hnum Hlo Hhi.
  assert (Hsome : exists d,
            Date_of_number (if decide (Qc_of_Z 1000000000000 < x)%Qc
                            then x else (x * Qc_of_Z 1000)%Qc) = Some d).
  { destruct (decide _) as [Hgt | Hle].
    - rewrite Date_of_number_in_range; [eauto | qc_lra | exact Hhi].
    - apply Qcnot_lt_le in Hle.
      rewrite Date_of_number_in_range; [eauto | qc_lra | qc_lra]. }
  destruct Hsome as [d Hd].
  unfold R2.parseTimestamp.
  destruct (String.eqb_spec (trim s) "") as [Heq | _]; [contradiction |].
  cbn [negb]. rewrite Hnum. cbv zeta. rewrite Hd. split; [reflexivity | discriminate].
Qed.

Lemma parseTimestamp_numeric_text_witness :
  R2.parseTimestamp (TStr "1700000000")
  = R2.parseTimestamp (TNum (Qc_of_Z 1700000000)).
Proof.
  apply (parseTimestamp_numeric_text "1700000000" (Qc_of_Z 1700000000)).
  - discriminate.
  - reflexivity.
  - vm_compute. discriminate.
  - vm_compute. discriminate.
Defined.

(** X3: a blank text is never read as a number (though [Number] makes
    it 0), nor is a text that [Number] cannot read: both go to the parsing
    of date texts. *)
Theorem parseTimestamp_other_text `{Host} (s : string) :
  trim s = "" \/ Number_of_string s = None ->
  R2.parseTimestamp (TStr s) = Date_of_string s.
Proof.
  intros Hcase. unfold R2.parseTimestamp, Date_of_value.
  destruct (String.eqb_spec (trim s) "") as [Heq | Hne]; [reflexivity |].
  cbn [negb]. destruct Hcase as [Heq | ->]; [contradiction | reflexivity].
Qed.

Lemma parseTimestamp_other_text_witness :
  R2.parseTimestamp (TStr "soon") = None.
Proof.
  exact (parseTimestamp_other_text "soon" (or_intror eq_refl)).
Defined.

(** X4: on every number other than 0 from -8.64e12 up to 10^12 the two
    normalizers give the same instant. *)
Theorem parsers_agree_on_seconds `{Host} (x : Qc) :
  x <> 0%Qc ->
  (Qc_of_Z (-8640000000000) ≤ x)%Qc -> (x ≤ Qc_of_Z 1000000000000)%Qc ->
  R1.parseTimestamp (TNum x) = R2.parseTimestamp (TNum x).
Proof.
  intros Hnz Hlo Hhi. rewrite parseTimestamp_seconds by assumption.
  unfold R1.parseTimestamp. rewrite bool_decide_eq_false_2 by exact Hnz.
  apply Date_of_number_in_range; qc_lra.
Qed.

Lemma parsers_agree_on_seconds_witness :
  R1.parseTimestamp (TNum (Qc_of_Z 1700000000))
  = R2.parseTimestamp (TNum (Qc_of_Z 1700000000)).
Proof.
  apply (parsers_agree_on_seconds (Qc_of_Z 1700000000)).
  - intros Heq. apply (f_equal this) in Heq. vm_compute in Heq. discriminate.
  - vm_compute. discriminate.
  - vm_compute. discriminate.
Defined.

(** X5: a whole number of milliseconds above 10^12 is the instant
    itself for the normalizer of lines 349-370, and a thousand times later
    for the one of lines 42-56, which multiplies every number by 1000. *)
Theorem parsers_differ_above_threshold `{Host} (z : Z) :
  1000000000000 < z <= 8640000000000 ->
  R2.parseTimestamp (TNum (Qc_of_Z z)) = Some z /\
  R1.parseTimestamp (TNum (Qc_of_Z z)) = Some (z * 1000).
Proof.
  intros [Hlo Hhi]. split.
  - rewrite parseTimestamp_milliseconds.
    + now rewrite truncate_Z.
    + exact (proj1 (Z2Qc_inj_lt _ _) Hlo).
    + apply (proj1 (Z2Qc_inj_le _ _)). unfold max_time_value. lia.
  - unfold R1.parseTimestamp. rewrite bool_decide_eq_false_2.
    2:{ intros Heq. rewrite <- Z2Qc_inj_0 in Heq. apply Z2Qc_inj in Heq. lia. }
    rewrite <- Z2Qc_inj_mul. rewrite Date_of_number_in_range.
    + now rewrite truncate_Z.
    + apply (proj1 (Z2Qc_inj_le _ _)). unfold max_time_value. lia.
    + apply (proj1 (Z2Qc_inj_le _ _)). unfold max_time_value. lia.
Qed.

Lemma parsers_differ_above_threshold_witness :
  R2.parseTimestamp (TNum (Qc_of_Z 1700000000000)) = Some 1700000000000 /\
  R1.parseTimestamp (TNum (Qc_of_Z 1700000000000)) = Some (1700000000000 * 1000).
Proof.
  apply (parsers_differ_above_threshold 1700000000000). lia.
Defined.
Section RetryCases.
Context {E T : Type}.
Variable fn : nat -> E + T.

Lemma first_success_or_all_fail (remaining : nat) :
  forall i : nat,
  (exists j v, (j < remaining)%nat /\ fn (i + j)%nat = inr v /\
               forall x, (i <= x < i + j)%nat -> exists e, fn x = inl e) \/
  (forall x, (i <= x < i + remaining)%nat -> exists e, fn x = inl e).
Proof.
  induction remaining as [| r IH]; intros i.
  - right. intros x Hx. lia.
  - destruct (fn i) as [e | v] eqn:Hi.
    + destruct (IH (S i)) as [(j & v & Hj & Hok & Hfail) | Hall].
      * left. exists (S j), v. split; [lia |]. split.
        { now replace (i + S j)%nat with (S i + j)%nat by lia. }
        intros x Hx. destruct (decide (x = i)) as [-> | Hne]; [eauto |].
        apply Hfail. lia.
      * right. intros x Hx. destruct (decide (x = i)) as [-> | Hne]; [eauto |].
        apply Hall. lia.
    + left. exists 0%nat, v. split; [lia |]. split.
      * now rewrite Nat.add_0_r.
      * intros x Hx. lia.
Qed.

Lemma retryWithBackoff_cases (n : nat) (d : Z) :
  (1 <= n)%nat ->
  (exists k v, (1 <= k <= n)%nat /\ fn (k - 1)%nat = inr v /\
               (forall j, (j < k - 1)%nat -> exists e, fn j = inl e) /\
               retryWithBackoff fn n d = (inr v, backoff_schedule d k)) \/
  (exists e, fn (n - 1)%nat = inl e /\
             (forall j, (j < n)%nat -> exists e', fn j = inl e') /\
             retryWithBackoff fn n d = (inl (Some e), backoff_schedule d n)).
Proof.
  intros Hn. destruct (first_success_or_all_fail n 0%nat)
    as [(j & v & Hj & Hok & Hfail) | Hall].
  - left. exists (S j), v. simpl in Hok. rewrite Nat.sub_1_r. simpl.
    split; [lia |]. split; [exact Hok |]. split.
    { intros x Hx. apply Hfail. lia. }
    unfold retryWithBackoff, backoff_schedule. rewrite Nat.sub_1_r. simpl.
    apply (retry_loop_succeeds fn n d j n 0%nat None v); try lia; assumption.
  - right.
    destruct (retry_loop_exhausted fn n d n 0%nat None) as (e & He & Hrun); try lia.
    { intros x Hx. apply Hall. lia. }
    exists e. split; [exact He |]. split; [| exact Hrun].
    intros x Hx. apply Hall. lia.
Qed.
End RetryCases.

(** X6: the wrapper returns [v] exactly when one of the first [n]
    invocations resolves to [v] and all invocations before it reject; it
    never returns the value of a later success. *)
Theorem retry_succeeds_iff {E T : Type} (fn : nat -> E + T) (n : nat) (d : Z)
  (v : T) :
  (retryWithBackoff fn n d).1 = inr v <->
  exists k, (k < n)%nat /\ fn k = inr v /\ forall j, (j < k)%nat -> exists e, fn j = inl e.
Proof.
  split.
  - intros Hres. destruct n as [| n]; [discriminate |].
    destruct (retryWithBackoff_cases fn (S n) d ltac:(lia))
      as [(k & v' & Hk & Hok & Hfail & Hrun) | (e & _ & _ & Hrun)];
      rewrite Hrun in Hres; [| discriminate].
    injection Hres as ->. exists (k - 1)%nat. split; [lia |]. split; assumption.
  - intros (k & Hk & Hok & Hfail).
    unfold retryWithBackoff.
    rewrite (retry_loop_succeeds fn n d k n 0%nat None v); try lia; try assumption.
    + reflexivity.
    + intros x Hx. apply Hfail. lia.
Qed.

(** X7: whatever the operation does, with at least one attempt allowed
    the wrapper's timeline is the backoff schedule of some [k] attempts,
    1 <= k <= n: it never attempts more than [n] times and its timers are
    [initialDelay * 2^i] for i = 0 .. k-2. *)
Theorem retry_timeline {E T : Type} (fn : nat -> E + T) (n : nat) (d : Z) :
  (1 <= n)%nat ->
  exists k, (1 <= k <= n)%nat /\
    (retryWithBackoff fn n d).2 = backoff_schedule d k /\
    sleeps (retryWithBackoff fn n d).2 = map (fun i => d * 2 ^ Z.of_nat i) (seq 0 (k - 1)).
Proof.
  intros Hn.
  destruct (retryWithBackoff_cases fn n d Hn)
    as [(k & v & Hk & _ & _ & Hrun) | (e & _ & _ & Hrun)]; rewrite Hrun.
  - exists k. split; [exact Hk |]. split; [reflexivity | apply sleeps_backoff_schedule].
  - exists n. split; [lia |]. split; [reflexivity | apply sleeps_backoff_schedule].
Qed.

Lemma total_sleep_schedule (d : Z) (k : nat) :
  total_sleep (backoff_schedule d k) = d * (2 ^ Z.of_nat (k - 1) - 1).
Proof.
  unfold total_sleep. rewrite sleeps_backoff_schedule.
  induction (k - 1)%nat as [| m IH]; [simpl; lia |].
  rewrite seq_S, map_app, foldr_app. simpl.
  assert (Hshift : forall (l : list Z) (a : Z), foldr Z.add a l = foldr Z.add 0 l + a).
  { induction l as [| x l IHl]; intros a; simpl; [lia | rewrite IHl; lia]. }
  rewrite Hshift, IH. rewrite Nat2Z.inj_succ, Z.pow_succ_r by lia. lia.
Qed.

(** X8: with a non-negative initial delay the wrapper never sleeps more
    than [initialDelay * (2^(n-1) - 1)] in total. *)
Theorem retry_total_sleep {E T : Type} (fn : nat -> E + T) (n : nat) (d : Z) :
  (1 <= n)%nat -> 0 <= d ->
  0 <= total_sleep (retryWithBackoff fn n d).2 <= d * (2 ^ Z.of_nat (n - 1) - 1).
Proof.
  intros Hn Hd.
  assert (Hmono : forall k, (1 <= k <= n)%nat ->
            0 <= d * (2 ^ Z.of_nat (k - 1) - 1) <= d * (2 ^ Z.of_nat (n - 1) - 1)).
  { intros k Hk.
    assert (1 <= 2 ^ Z.of_nat (k - 1))
      by (change 1 with (2 ^ 0); apply Z.pow_le_mono_r; lia).
    assert (2 ^ Z.of_nat (k - 1) <= 2 ^ Z.of_nat (n - 1)) by (apply Z.pow_le_mono_r; lia).
    nia. }
  destruct (retryWithBackoff_cases fn n d Hn)
    as [(k & v & Hk & _ & _ & Hrun) | (e & _ & _ & Hrun)];
    rewrite Hrun; cbn [snd]; rewrite total_sleep_schedule; apply Hmono; lia.
Qed.

Lemma fetch_timeline {A} (ep : Endpoint A) :
  exists k, (1 <= k <= 3)%nat /\ (fetch ep).2 = backoff_schedule 1000 k.
Proof.
  unfold fetch.
  destruct (retryWithBackoff_cases (respond ep) 3 1000 ltac:(lia))
    as [(k & v & Hk & _ & _ & Hrun) | (e & _ & _ & Hrun)]; rewrite Hrun.
  - exists k. split; [exact Hk | reflexivity].
  - exists 3%nat. split; [lia | reflexivity].
Qed.

Lemma fetch_rejected {A} (ep : Endpoint A) (e : option Thrown) :
  (fetch ep).1 = inl e ->
  exists err, e = Some err /\ respond ep 2%nat = inl err /\
    (fetch ep).2 = backoff_schedule 1000 3.
Proof.
  unfold fetch. intros Hres.
  destruct (retryWithBackoff_cases (respond ep) 3 1000 ltac:(lia))
    as [(k & v & Hk & _ & _ & Hrun) | (err & Herr & _ & Hrun)];
    rewrite Hrun in *; [discriminate |].
  injection Hres as <-. eauto.
Qed.

Lemma first_rejection_elem (settled : list (option (option Thrown) * Z))
  (e : option Thrown) :
  first_rejection settled = Some e -> exists t, (Some e, t) ∈ settled.
Proof.
  unfold first_rejection.
  assert (Hfold : forall (l : list (option (option Thrown) * Z))
                         (best : option (option Thrown * Z)) e0 t0,
            fold_left
              (fun best s =>
                 match s.1, best with
                 | None, _ => best
                 | Some e, None => Some (e, s.2)
                 | Some e, Some (_, t) =>
                   if decide (s.2 < t) then Some (e, s.2) else best
                 end) l best = Some (e0, t0) ->
            best = Some (e0, t0) \/ (Some e0, t0) ∈ l).
  { induction l as [| s l IH]; intros best e0 t0 Hf; [left; exact Hf |].
    cbn [fold_left] in Hf. apply IH in Hf as [Hb | Hin]; [| right; now right].
    destruct s as [[e1 |] t1]; cbn [fst snd] in Hb.
    - destruct best as [[e2 t2] |].
      + destruct (decide (t1 < t2)).
        * injection Hb as <- <-. right. left.
        * left. exact Hb.
      + injection Hb as <- <-. right. left.
    - left. exact Hb. }
  intros Hf. apply fmap_Some in Hf as ([e0 t0] & Hf & ->).
  apply Hfold in Hf as [Hb | Hin]; [discriminate | eauto].
Qed.

(** X9: with a company identifier, each of the four list calls is made
    at least once and at most three times, a failure of one not stopping
    the others. *)
Theorem handler_calls (configError : ErrorBody)
  (params : string -> ListParams * ListParams * ListParams * ListParams)
  (compute : Date -> list Membership -> list Payment -> list Product ->
             list PlanLike -> Thrown + Snapshot)
  (c : string) (sdk : Sdk) (now : Date) :
  truthy_string (Some c) = true ->
  exists k1 k2 k3 k4,
    ((1 <= k1 <= 3) /\ (1 <= k2 <= 3) /\ (1 <= k3 <= 3) /\ (1 <= k4 <= 3))%nat /\
    timelines (handler configError params compute (Some c) sdk now)
    = [backoff_schedule 1000 k1; backoff_schedule 1000 k2;
       backoff_schedule 1000 k3; backoff_schedule 1000 k4].
Proof.
  intros Hc. unfold handler, try_block. rewrite Hc. cbn [timelines].
  destruct (fetch_timeline (memberships_list sdk (params c).1.1.1)) as (k1 & H1 & E1).
  destruct (fetch_timeline (payments_list sdk (params c).1.1.2)) as (k2 & H2 & E2).
  destruct (fetch_timeline (products_list sdk (params c).1.2)) as (k3 & H3 & E3).
  destruct (fetch_timeline (plans_list sdk (params c).2)) as (k4 & H4 & E4).
  exists k1, k2, k3, k4. split; [tauto |].
  unfold fetch_and_compute. rewrite <- E1, <- E2, <- E3, <- E4.
  destruct (first_rejection _); [reflexivity |].
  destruct (compute _ _ _ _ _); reflexivity.
Qed.

Lemma handler_calls_witness :
  exists k1 k2 k3 k4,
    ((1 <= k1 <= 3) /\ (1 <= k2 <= 3) /\ (1 <= k3 <= 3) /\ (1 <= k4 <= 3))%nat /\
    timelines (R2.GET (Some "biz_1") payments_down 0)
    = [backoff_schedule 1000 k1; backoff_schedule 1000 k2;
       backoff_schedule 1000 k3; backoff_schedule 1000 k4].
Proof.
  exact (handler_calls R2.configError R2.params R2.compute "biz_1"
           payments_down 0 eq_refl).
Defined.

(** X10: when a list call is rejected, the message of the response is
    that of the third, last failure of one of the rejected calls (or
    "Unknown error" when that failure is not an [Error]). *)
Theorem error_message_origin (configError : ErrorBody)
  (params : string -> ListParams * ListParams * ListParams * ListParams)
  (compute : Date -> list Membership -> list Payment -> list Product ->
             list PlanLike -> Thrown + Snapshot)
  (c : string) (sdk : Sdk) (now : Date) :
  truthy_string (Some c) = true ->
  rejection (fetch (memberships_list sdk (params c).1.1.1)).1 <> None \/
  rejection (fetch (payments_list sdk (params c).1.1.2)).1 <> None \/
  rejection (fetch (products_list sdk (params c).1.2)).1 <> None \/
  rejection (fetch (plans_list sdk (params c).2)).1 <> None ->
  exists err,
    response (handler configError params compute (Some c) sdk now)
    = JsonError {| error := "Failed to fetch analytics data";
                   message := match err with
                              | ErrorObject msg => msg
                              | NotAnError => "Unknown error"
                              end |} 500 /\
    (respond (memberships_list sdk (params c).1.1.1) 2%nat = inl err \/
     respond (payments_list sdk (params c).1.1.2) 2%nat = inl err \/
     respond (products_list sdk (params c).1.2) 2%nat = inl err \/
     respond (plans_list sdk (params c).2) 2%nat = inl err).
Proof.
  intros Hc Hrej. rewrite handler_configured by exact Hc.
  unfold fetch_and_compute.
  destruct (first_rejection _) as [e |] eqn:Hfirst.
  2:{ exfalso. apply first_rejection_None in Hfirst.
      inversion_clear Hfirst as [| ? ? H1 Hf1]. inversion_clear Hf1 as [| ? ? H2 Hf2].
      inversion_clear Hf2 as [| ? ? H3 Hf3]. inversion_clear Hf3 as [| ? ? H4 _].
      simpl in *. tauto. }
  apply first_rejection_elem in Hfirst as [t Hin].
  assert (Hsrc : forall A (ep : Endpoint A),
            rejection (fetch ep).1 = Some e ->
            exists err, e = Some err /\ respond ep 2%nat = inl err).
  { intros A ep Hr. destruct (fetch ep).1 as [e' |] eqn:Hf; [| discriminate].
    injection Hr as ->. destruct (fetch_rejected ep e Hf) as (err & He & Hlast & _).
    eauto. }
  cbn [fst]. rewrite !elem_of_cons, elem_of_nil in Hin.
  destruct Hin as [Hin | [Hin | [Hin | [Hin | []]]]]; injection Hin as Hr _;
    symmetry in Hr; apply Hsrc in Hr as (err & -> & Hlast); exists err;
    (split; [reflexivity | tauto]).
Qed.

Lemma error_message_origin_witness :
  exists err,
    response (R2.GET (Some "biz_1") payments_down 0)
    = JsonError {| error := "Failed to fetch analytics data";
                   message := match err with
                              | ErrorObject msg => msg
                              | NotAnError => "Unknown error"
                              end |} 500 /\
    (respond (memberships_list payments_down (R2.params "biz_1").1.1.1) 2%nat = inl err \/
     respond (payments_list payments_down (R2.params "biz_1").1.1.2) 2%nat = inl err \/
     respond (products_list payments_down (R2.params "biz_1").1.2) 2%nat = inl err \/
     respond (plans_list payments_down (R2.params "biz_1").2) 2%nat = inl err).
Proof.
  apply (error_message_origin R2.configError R2.params R2.compute "biz_1"
           payments_down 0 eq_refl).
  right. left. vm_compute. discriminate.
Defined.

Lemma retry_timeline_witness :
  exists k, (1 <= k <= 3)%nat /\
    (retryWithBackoff fails_twice 3 1000).2 = backoff_schedule 1000 k /\
    sleeps (retryWithBackoff fails_twice 3 1000).2
    = map (fun i => 1000 * 2 ^ Z.of_nat i) (seq 0 (k - 1)).
Proof.
  apply (retry_timeline fails_twice 3 1000). lia.
Defined.

Lemma retry_total_sleep_witness :
  0 <= total_sleep (retryWithBackoff always_fails 3 1000).2
  <= 1000 * (2 ^ Z.of_nat (3 - 1) - 1).
Proof.
  apply (retry_total_sleep always_fails 3 1000); lia.
Defined.

(** ** Plan map *)

Lemma last_filter_cons {A} (f : A -> bool) (x : A) (l : list A) :
  last (List.filter f (x :: l))
  = match last (List.filter f l) with
    | Some y => Some y
    | None => if f x then Some x else None
    end.
Proof.
  cbn [List.filter]. destruct (f x); [| now destruct (last (List.filter f l))].
  rewrite last_cons. reflexivity.
Qed.

Lemma R2_planMap_acc (plans : list PlanLike) :
  forall (m0 : gmap string PlanLike) (i : string),
  fold_left
    (fun m plan =>
       match plan_id plan with
       | Value j => if negb (String.eqb j "") then <[j := plan]> m else m
       | _ => m
       end)
    plans m0 !! i
  = if String.eqb i "" then m0 !! i
    else match last (List.filter (has_id i) plans) with
         | Some p => Some p
         | None => m0 !! i
         end.
Proof.
  induction plans as [| p plans IH]; intros m0 i.
  - cbn. now destruct (String.eqb i "").
  - cbn [fold_left]. rewrite IH, last_filter_cons.
    destruct (String.eqb_spec i "") as [-> | Hi].
    + destruct (plan_id p) as [| | j]; try reflexivity.
      destruct (String.eqb_spec j "") as [-> | Hj]; [reflexivity |].
      cbn [negb]. now rewrite lookup_insert_ne.
    + destruct (last (List.filter (has_id i) plans)); [reflexivity |].
      unfold has_id.
      destruct (plan_id p) as [| | j]; try reflexivity.
      destruct (String.eqb_spec j i) as [-> | Hji].
      * destruct (String.eqb_spec i "") as [? | _]; [contradiction |].
        cbn [negb]. now rewrite lookup_insert_eq.
      * destruct (String.eqb j ""); cbn [negb]; [reflexivity |].
        now rewrite lookup_insert_ne.
Qed.

Lemma R1_planMap_acc (plans : list PlanLike) :
  forall (m0 : gmap string R1.PlanDetails) (i : string),
  fold_left
    (fun m plan =>
       match plan_id plan with
       | Value j =>
         <[j := {| R1.renewalPrice := nullish_or (renewal_price plan) 0%Qc;
                   R1.billingPeriodDays :=
                     match billing_period plan with
                     | Value b => Some b
                     | _ => None
                     end;
                   R1.planType := plan_type plan |}]> m
       | _ => m
       end)
    plans m0 !! i
  = match last (List.filter (has_id i) plans) with
    | Some p => Some (plan_details p)
    | None => m0 !! i
    end.
Proof.
  induction plans as [| p plans IH]; intros m0 i.
  - reflexivity.
  - cbn [fold_left]. rewrite IH, last_filter_cons.
    destruct (last (List.filter (has_id i) plans)); [reflexivity |].
    unfold has_id.
    destruct (plan_id p) as [| | j]; try reflexivity.
    destruct (String.eqb_spec j i) as [-> | Hji].
    + now rewrite lookup_insert_eq.
    + now rewrite lookup_insert_ne.
Qed.

(** X11: the plan map answers with the last plan of the collection that
    carries the id; the map of lines 424-429 never holds the empty id, the
    one of lines 116-125 keeps the price (0 when absent), the billing
    period and the type of that plan. *)
Theorem planMap_lookup (plans : list PlanLike) (i : string) :
  R2.planMap plans !! i
  = (if String.eqb i "" then None else last (List.filter (has_id i) plans)) /\
  R1.planMap plans !! i = plan_details <$> last (List.filter (has_id i) plans).
Proof.
  split.
  - unfold R2.planMap. rewrite R2_planMap_acc, lookup_empty.
    destruct (String.eqb i ""); [reflexivity |].
    now destruct (last (List.filter (has_id i) plans)).
  - unfold R1.planMap. rewrite R1_planMap_acc, lookup_empty.
    now destruct (last (List.filter (has_id i) plans)).
Qed.

(** ** Recurring revenue in doubles *)

Lemma active_status_iff (s : string) :
  s ∈ R2.activeStatuses <-> s = "active" \/ s = "trialing".
Proof.
  unfold R2.activeStatuses. now rewrite elem_of_union, !elem_of_singleton.
Qed.

Lemma f64_add_comm (x y : float64) : f64_add x y = f64_add y x.
Proof.
  unfold f64_add, SFadd.
  destruct x as [[] | [] | | sx mx ex], y as [[] | [] | | sy my ey]; try reflexivity.
  rewrite (Z.min_comm ex ey), Z.add_comm. reflexivity.
Qed.

Lemma f64_add_from_zero (x y : float64) :
  f64_add (f64_add f64_zero x) y = f64_add (f64_add f64_zero y) x.
Proof.
  destruct x as [[] | [] | | sx mx ex], y as [[] | [] | | sy my ey];
    try reflexivity.
  apply (f64_add_comm (S754_finite sx mx ex) (S754_finite sy my ey)).
Qed.

(** X12: the sum of lines 483-501 is taken in doubles.  It does not
    depend on the order of two memberships, but it can depend on the
    order of three: memberships paying 1 minor unit every 12, 3 and 12
    days add up to 0.49999999999999994 in this order and to 0.5 with the
    two of 12 days first, on either side of the point where [Math.round]
    passes from 0 to 1. *)
Theorem mrrCents_order (pm : gmap string PlanLike) (a b : Membership) :
  R2F.mrrCents pm [a; b] = R2F.mrrCents pm [b; a] /\
  exists ms ms' : list Membership,
    Permutation ms ms' /\
    R2F.mrrCents pm ms = S754_finite false 9007199254740991 (-54) /\
    R2F.mrrCents pm ms' = f64_div (f64_of_Z 1) (f64_of_Z 2) /\
    SFltb (R2F.mrrCents pm ms) (R2F.mrrCents pm ms') = true.
Proof.
  split.
  - unfold R2F.mrrCents, R2.activeMemberships. cbn [List.filter].
    destruct (bool_decide (status a ∈ R2.activeStatuses)),
      (bool_decide (status b ∈ R2.activeStatuses)); cbn [fold_left]; try reflexivity.
    destruct (R2F.monthlyPrice (R2.effectivePlan pm a)) as [pa |],
      (R2F.monthlyPrice (R2.effectivePlan pm b)) as [pb |]; try reflexivity.
    apply f64_add_from_zero.
  - exists [member_paying_every 12; member_paying_every 3; member_paying_every 12],
      [member_paying_every 12; member_paying_every 12; member_paying_every 3].
    split; [apply perm_skip, perm_swap |].
    repeat split; vm_compute; reflexivity.
Qed.

Lemma fold_left_skip {A B} (f : A -> B -> A) (l1 l2 : list B) (x : B) (a : A) :
  (forall s, f s x = s) ->
  fold_left f (l1 ++ x :: l2) a = fold_left f (l1 ++ l2) a.
Proof. intros Hx. rewrite !fold_left_app. cbn [fold_left]. now rewrite Hx. Qed.

Lemma not_renewal_no_price (p : PlanLike) :
  plan_type p <> Value "renewal" -> R2F.monthlyPrice p = None.
Proof.
  intros Hty. unfold R2F.monthlyPrice.
  destruct (plan_type p) as [| | t]; try reflexivity.
  destruct (String.eqb_spec t "renewal") as [-> | _]; [congruence | reflexivity].
Qed.

(** X13: a membership that is not active or trialing, or whose effective
    plan is not of type "renewal", adds nothing to the sum of lines
    483-501, whatever its price and wherever it stands among the others:
    the sum is the one of the collection without it. *)
Theorem mrrCents_nothing (pm : gmap string PlanLike) (before after : list Membership)
  (m : Membership) :
  status m ∉ R2.activeStatuses
  \/ plan_type (R2.effectivePlan pm m) <> Value "renewal" ->
  R2F.mrrCents pm (before ++ m :: after) = R2F.mrrCents pm (before ++ after).
Proof.
  intros Hm. unfold R2F.mrrCents, R2.activeMemberships.
  rewrite !List.filter_app. cbn [List.filter].
  destruct (bool_decide (status m ∈ R2.activeStatuses)) eqn:Est; [| reflexivity].
  destruct Hm as [Hst | Hty]; [now apply bool_decide_eq_true_1 in Est |].
  apply fold_left_skip. intros s. now rewrite (not_renewal_no_price _ Hty).
Qed.

Lemma mrrCents_nothing_witness :
  R2F.mrrCents ∅ [quarterly_membership; canceled_quarterly_membership;
                  embedded_membership]
  = R2F.mrrCents ∅ [quarterly_membership; embedded_membership].
Proof.
  apply (mrrCents_nothing ∅ [quarterly_membership] [embedded_membership]
           canceled_quarterly_membership).
  left. rewrite active_status_iff. intros [Hs | Hs]; discriminate.
Defined.

(** ** Rounding at the output boundary *)

Lemma Math_round_near (x : Qc) :
  (x - Q2Qc (1 # 2) < Qc_of_Z (Math_round x))%Qc /\
  (Qc_of_Z (Math_round x) ≤ x + Q2Qc (1 # 2))%Qc.
Proof.
  unfold Math_round.
  pose proof (Qfloor_le (x + Q2Qc (1 # 2))%Qc) as Hle.
  pose proof (Qlt_floor (x + Q2Qc (1 # 2))%Qc) as Hlt.
  rewrite inject_Z_plus in Hlt.
  set (z := Qfloor (x + Q2Qc (1 # 2))%Qc) in *.
  assert (Hz : (this (Qc_of_Z z) == inject_Z z)%Q) by reflexivity.
  unfold Qcle, Qclt. rewrite Hz. clear Hz.
  generalize dependent (inject_Z z). intros q Hle Hlt.
  unfold Qcplus, Qcminus, Qcopp, Q2Qc in *. simpl this in *.
  rewrite ?Qred_correct in *. change (inject_Z 1) with 1%Q in Hlt. split; lra.
Qed.

Lemma div_100_bounds (x y : Qc) :
  (x - Q2Qc (1 # 2) < y)%Qc -> (y ≤ x + Q2Qc (1 # 2))%Qc ->
  (x / Qc_of_Z 100 - Q2Qc (1 # 200) < y / Qc_of_Z 100)%Qc /\
  (y / Qc_of_Z 100 ≤ x / Qc_of_Z 100 + Q2Qc (1 # 200))%Qc.
Proof.
  intros Hlo Hhi.
  unfold Qcdiv, Qcinv, Qcle, Qclt, Qcmult, Qcplus, Qcminus, Qcopp, Q2Qc, Qc_of_Z in *.
  simpl this in *. rewrite ?Qred_correct in *.
  change (/ inject_Z 100)%Q with (1 # 100)%Q. split; lra.
Qed.

(** X14: the reported mrr is within half a minor unit (0.005) of
    [mrrCents / 100], and the reported churn rate within 0.005 of
    [churnRate]. *)
Theorem snapshot_rounding `{Host} (now : Date) (memberships : list Membership)
  (payments : list Payment) (products : list Product) (plans : list PlanLike) :
  let s := R2.snapshot now memberships payments products plans in
  let exact := (R2.mrrCents (R2.planMap plans) memberships / Qc_of_Z 100)%Qc in
  (exact - Q2Qc (1 # 200) < metrics_mrr (body_metrics s))%Qc /\
  (metrics_mrr (body_metrics s) ≤ exact + Q2Qc (1 # 200))%Qc /\
  (R2.churnRate now memberships - Q2Qc (1 # 200)
   < metrics_churnRate (body_metrics s))%Qc /\
  (metrics_churnRate (body_metrics s)
   ≤ R2.churnRate now memberships + Q2Qc (1 # 200))%Qc.
Proof.
  intros s exact. subst s exact. unfold R2.snapshot.
  cbn [body_metrics metrics_mrr metrics_churnRate].
  destruct (Math_round_near (R2.mrrCents (R2.planMap plans) memberships)) as [H1 H2].
  destruct (div_100_bounds _ _ H1 H2) as [H3 H4].
  destruct (Math_round_near (R2.churnRate now memberships * Qc_of_Z 100)%Qc) as [H5 H6].
  destruct (div_100_bounds _ _ H5 H6) as [H7 H8].
  assert (Hback : forall x : Qc, (x * Qc_of_Z 100 / Qc_of_Z 100)%Qc = x).
  { intros x. apply Qcdiv_mult_l. intros Heq. rewrite <- Z2Qc_inj_0 in Heq.
    apply Z2Qc_inj in Heq. discriminate. }
  rewrite Hback in H7, H8. tauto.
Qed.

(** ** Range of the churn rate *)

Lemma Qc_ratio_unit (a b : Qc) :
  (0 ≤ a)%Qc -> (a ≤ b)%Qc -> (0 < b)%Qc -> (0 ≤ a / b)%Qc /\ (a / b ≤ 1)%Qc.
Proof.
  intros Ha Hab Hb. unfold Qcdiv.
  assert (Hinv : (0 < / b)%Qc) by now apply Qcinv_pos.
  split.
  - apply Qcmult_nonneg_nonneg; [exact Ha | now apply Qclt_le_weak].
  - rewrite <- (Qcmult_inv_r b) by (apply not_eq_sym; now apply Qclt_not_eq).
    apply Qcmult_le_mono_nonneg_r; [now apply Qclt_le_weak | exact Hab].
Qed.

Lemma count_le {A} (f g : A -> bool) (l : list A) :
  Forall (fun x => f x = true -> g x = true) l -> (count f l <= count g l)%nat.
Proof.
  unfold count. induction 1 as [| x l Hx _ IH]; [reflexivity |].
  cbn [List.filter]. destruct (f x) eqn:Ef.
  - rewrite (Hx eq_refl). simpl. lia.
  - destruct (g x); simpl; lia.
Qed.



(** ** Window bounds of lines 504-532 *)

Lemma count_snoc {A} (f : A -> bool) (l : list A) (x : A) :
  f x = true -> length (List.filter f (l ++ [x])) = S (length (List.filter f l)).
Proof.
  intros Hx. rewrite List.filter_app, length_app. cbn [List.filter].
  rewrite Hx. cbn. lia.
Qed.



(** ** Daily buckets of lines 551-576 *)

Section BucketFacts.
Local Open Scope Qc_scope.
Context `{Host}.
Variable now : Date.

Lemma sum_filter_Permutation {A} (f : A -> Qc) (g : A -> bool) (l l' : list A) :
  Permutation l l' ->
  sum_Qc (map f (List.filter g l)) = sum_Qc (map f (List.filter g l')).
Proof.
  induction 1 as [| x l l' _ IH | x y l | l l' l'' _ IH1 _ IH2].
  - reflexivity.
  - cbn [List.filter]. destruct (g x); cbn [map sum_Qc foldr]; [| exact IH].
    fold (sum_Qc (map f (List.filter g l))). fold (sum_Qc (map f (List.filter g l'))).
    now rewrite IH.
  - cbn [List.filter]. destruct (g x), (g y); cbn [map sum_Qc foldr]; try reflexivity.
    ring.
  - now rewrite IH1.
Qed.


Lemma revenueByDay_present_acc (ps : list Payment) (k : Z) :
  forall m0 : gmap Z Qc,
  is_Some
    (fold_left
       (fun m payment =>
          match R2.parseTimestamp (paid_at payment) with
          | None => m
          | Some paymentDate =>
            if (paymentDate <? R2.ninetyDaysAgo now)%Z || (now <? paymentDate)%Z
            then m
            else
              let key := dateKey paymentDate in
              let current := default 0 (m !! key) in
              <[key := current + R2.paymentTotal payment]> m
          end)
       ps m0 !! k)
  <-> is_Some (m0 !! k)
      \/ existsb (fun p => in_last_90_days now p && paid_on k p) ps = true.
Proof.
  induction ps as [| p ps IH]; intros m0.
  - cbn. split; [tauto | intros [? | ?]; [assumption | discriminate]].
  - cbn [fold_left existsb]. rewrite IH. clear IH.
    unfold in_last_90_days, paid_on, within, R2.ninetyDaysAgo, getDaysAgo.
    destruct (R2.parseTimestamp (paid_at p)) as [d |]; [| cbn; tauto].
    destruct (Z.ltb_spec d (now - 90 * ms_per_day)) as [Hlo | Hlo].
    { destruct (Z.leb_spec (now - 90 * ms_per_day) d); [lia |]. cbn. tauto. }
    destruct (Z.leb_spec (now - 90 * ms_per_day) d); [| lia].
    destruct (Z.ltb_spec now d) as [Hhi | Hhi].
    { destruct (Z.leb_spec d now); [lia |]. cbn. tauto. }
    destruct (Z.leb_spec d now); [| lia]. cbn [orb andb]. cbv zeta.
    destruct (Z.eqb_spec (dateKey d) k) as [-> | Hne].
    + rewrite lookup_insert_eq. cbn [orb]. split; [tauto | intros _; left; eauto].
    + rewrite lookup_insert_ne by exact Hne. cbn [orb]. tauto.
Qed.

End BucketFacts.



(** ** Product names, the product map and the cut at five *)

Lemma display_name_cases (products : list Product) (i : string) :
  display_name products i = "Product " +:+ i \/
  exists p t, find (fun p => String.eqb (product_id p) i) products = Some p /\
              title p = Value t /\ t <> "" /\ display_name products i = t.
Proof.
  unfold display_name.
  destruct (find _ products) as [p |]; [| now left].
  destruct (title p) as [| | t] eqn:Ht; [now left | now left |].
  destruct (String.eqb_spec t "") as [-> | Hne]; [now left |].
  right. exists p, t. auto.
Qed.

Lemma display_name_nonempty (products : list Product) (i : string) :
  String.eqb (display_name products i) "" = false.
Proof.
  destruct (display_name_cases products i) as [-> | (p & t & _ & _ & Hne & ->)].
  - reflexivity.
  - now apply String.eqb_neq.
Qed.

(** X19: a display name is never empty: the first product with the id
    decides it, by its title when that is a non-empty text and by the
    label "Product {id}" otherwise; an id that no product has gets the
    label. *)
Theorem display_name_first_match (products before after : list Product) (p : Product)
  (i : string) :
  products = before ++ p :: after ->
  Forall (fun q => product_id q <> i) before ->
  product_id p = i ->
  String.eqb (display_name products i) "" = false /\
  display_name products i
  = match title p with
    | Value t => if String.eqb t "" then "Product " +:+ i else t
    | _ => "Product " +:+ i
    end /\
  (forall j, Forall (fun q => product_id q <> j) products ->
             display_name products j = "Product " +:+ j).
Proof.
  intros -> Hbefore Hp.
  split; [apply display_name_nonempty |]. split.
  - unfold display_name.
    assert (Hfind : find (fun q => String.eqb (product_id q) i) (before ++ p :: after)
                    = Some p).
    { induction Hbefore as [| q before Hq _ IH]; cbn [app find].
      - rewrite Hp, String.eqb_refl. reflexivity.
      - apply String.eqb_neq in Hq. now rewrite Hq. }
    now rewrite Hfind.
  - intros j Hnone. unfold display_name.
    assert (Hfind : find (fun q => String.eqb (product_id q) j) (before ++ p :: after)
                    = None).
    { induction Hnone as [| q l Hq _ IH]; [reflexivity |].
      cbn [find]. apply String.eqb_neq in Hq. now rewrite Hq. }
    now rewrite Hfind.
Qed.

Lemma length_first_encounters (l : list string) :
  (length (first_encounters l) <= length l)%nat.
Proof.
  induction l as [| x l IH]; [reflexivity |].
  cbn [first_encounters length].
  pose proof (length_filter (fun y => y <> x) (first_encounters l)). lia.
Qed.

Lemma length_omap_le {A B} (f : A -> option B) (l : list A) :
  (length (omap f l) <= length l)%nat.
Proof.
  induction l as [| x l IH]; [reflexivity |].
  rewrite omap_cons. destruct (f x); cbn [length]; lia.
Qed.

Section ProductMapInvariants.
Context `{Host}.
Variable now : Date.

Lemma products_seen_nonempty (payments : list Payment) (i : string) :
  i ∈ products_seen now payments -> String.eqb i "" = false.
Proof.
  unfold products_seen. rewrite elem_of_first_encounters, list_elem_of_omap.
  intros (p & _ & Hc). unfold counted_product, counts_for_products in Hc.
  destruct (within _ _ _); [| discriminate]. cbn [andb] in Hc.
  destruct (truthy_string (product_id_of p)) eqn:Ht; [| discriminate].
  rewrite Hc in Ht. cbn in Ht. now apply negb_true_iff in Ht.
Qed.

(** X20: the product map holds each product id once, never the empty
    id and never an empty name, and no more entries than there are
    payments. *)
Theorem productRevenueMap_keys (payments : list Payment) (products : list Product) :
  NoDup (map fst (R2.productRevenueMap now payments products)) /\
  Forall (fun kv => String.eqb kv.1 "" = false /\ String.eqb (name kv.2) "" = false)
    (R2.productRevenueMap now payments products) /\
  (length (R2.productRevenueMap now payments products) <= length payments)%nat.
Proof.
  rewrite productRevenueMap_render. unfold render. split; [| split].
  - rewrite map_map. cbn [fst]. rewrite List.map_id. apply NoDup_first_encounters.
  - apply Forall_map, Forall_forall. intros i Hi. cbn [fst snd name]. split.
    + now apply products_seen_nonempty in Hi.
    + apply display_name_nonempty.
  - rewrite length_map. unfold products_seen.
    transitivity (length (omap (counted_product now) payments)).
    + apply length_first_encounters.
    + apply length_omap_le.
Qed.
End ProductMapInvariants.

Lemma display_name_first_match_witness :
  display_name catalogue "prod_c" = "Course".
Proof.
  apply (display_name_first_match catalogue [] []
           {| product_id := "prod_c"; title := Value "Course" |} "prod_c").
  - reflexivity.
  - constructor.
  - reflexivity.
Defined.

(** ** The cut at five, and the other listing *)

Lemma StronglySorted_take_drop {A} (R : A -> A -> Prop) (l : list A) :
  StronglySorted R l ->
  forall n, Forall (fun a => Forall (R a) (drop n l)) (take n l).
Proof.
  induction 1 as [| a l Hl IH Ha]; intros [| n]; cbn [take drop]; try constructor.
  - now apply Forall_drop.
  - apply IH.
Qed.

(** X21: the products left out of the top five are those of least
    revenue: each has at most the revenue of every product that is in. *)
Theorem topProducts_cut `{Host} (now : Date) (payments : list Payment)
  (products : list Product) :
  exists rest,
    Permutation (R2.topProducts now payments products ++ rest)
      (map (product_entry now payments products) (products_seen now payments)) /\
    Forall (fun a => Forall (fun b => (revenue b ≤ revenue a)%Qc) rest)
      (R2.topProducts now payments products).
Proof.
  unfold R2.topProducts. rewrite productRevenueMap_render, values_render.
  set (entries := map (product_entry now payments products)
                    (products_seen now payments)).
  exists (drop 5 (sort_by_revenue entries)). split.
  - rewrite take_drop. apply sort_by_revenue_Permutation.
  - apply (StronglySorted_take_drop descending), sort_by_revenue_sorted.
Qed.

(** X29: the top products of lines 235-267 are at most five, largest
    revenue first. *)
Theorem R1_topProducts_sorted `{Host} (now : Date) (payments : list Payment)
  (products : list Product) :
  (length (R1.topProducts now payments products) <= 5)%nat /\
  StronglySorted descending (R1.topProducts now payments products).
Proof.
  unfold R1.topProducts. split.
  - rewrite length_take. lia.
  - apply StronglySorted_take, sort_by_revenue_sorted.
Qed.

(** X22: both listings select the same memberships as active. *)
Theorem activeMemberships_agree (memberships : list Membership) :
  R1.activeMemberships memberships = R2.activeMemberships memberships.
Proof.
  unfold R1.activeMemberships, R2.activeMemberships.
  apply List.filter_ext. intros m.
  destruct (String.eqb_spec (status m) "active") as [Ha | Hn1];
    [symmetry; apply bool_decide_eq_true_2, active_status_iff; now left |].
  destruct (String.eqb_spec (status m) "trialing") as [Ht | Hn2];
    [symmetry; apply bool_decide_eq_true_2, active_status_iff; now right |].
  symmetry. apply bool_decide_eq_false_2. rewrite active_status_iff. tauto.
Qed.

(** ** Cycle length and recurring revenue of lines 136-176 *)

Section R1Facts.
Local Open Scope Qc_scope.
Context `{Host}.

Lemma getCycleLengthInDays_pos (pm : gmap string R1.PlanDetails) (m : Membership)
  (c : Qc) :
  R1.getCycleLengthInDays pm m = Some c -> 0 < c.
Proof.
  unfold R1.getCycleLengthInDays.
  set (fromPlan := match R1.planDetails_of pm m ≫= R1.billingPeriodDays with
                   | Some b => if decide (b <> 0 /\ 0 < b) then Some b else None
                   | None => None
                   end).
  assert (Hplan : fromPlan = Some c -> 0 < c).
  { subst fromPlan. destruct (R1.planDetails_of pm m ≫= R1.billingPeriodDays) as [b |];
      [| discriminate].
    destruct (decide _) as [[_ Hb] | _]; [| discriminate]. now intros [= <-]. }
  destruct (R1.parseTimestamp (renewal_period_start m)) as [s |]; [| exact Hplan].
  destruct (R1.parseTimestamp (renewal_period_end m)) as [e |]; [| exact Hplan].
  destruct (decide _) as [Hpos | _]; [| exact Hplan].
  now intros [= <-].
Qed.

(** X23: a cycle length, when there is one, is positive. *)
Theorem cycle_length_positive (pm : gmap string R1.PlanDetails) (m : Membership)
  (c : Qc) :
  R1.getCycleLengthInDays pm m = Some c -> 0 < c.
Proof. apply getCycleLengthInDays_pos. Qed.

(** X24: a renewal period that ends after it starts gives the cycle
    length in days, whatever the plan's billing period. *)
Theorem cycle_length_from_period (pm : gmap string R1.PlanDetails)
  (m : Membership) (s e : Date) :
  R1.parseTimestamp (renewal_period_start m) = Some s ->
  R1.parseTimestamp (renewal_period_end m) = Some e ->
  (s < e)%Z ->
  R1.getCycleLengthInDays pm m = Some (Qc_of_Z (e - s) / Qc_of_Z ms_per_day).
Proof.
  intros Hs He Hlt. unfold R1.getCycleLengthInDays. rewrite Hs, He.
  destruct (decide _) as [_ | Hn]; [reflexivity |].
  exfalso. apply Hn. unfold Qcdiv. apply Qcmult_pos_pos.
  - rewrite <- Z2Qc_inj_0. apply (proj1 (Z2Qc_inj_lt _ _)). lia.
  - apply Qcinv_pos. rewrite <- Z2Qc_inj_0. apply (proj1 (Z2Qc_inj_lt _ _)).
    reflexivity.
Qed.

(** What a membership adds to [mrr]. *)
Lemma R1_mrr_snoc (pm : gmap string R1.PlanDetails) (ms : list Membership)
  (m : Membership) :
  R1.mrr pm (ms ++ [m])
  = fold_left
      (fun sum membership =>
         match R1.planDetails_of pm membership with
         | None => sum
         | Some planDetails =>
           match R1.planType planDetails with
           | Value t =>
             if String.eqb t "renewal" then
               if decide (R1.renewalPrice planDetails = 0) then sum
               else
                 let cycleDays :=
                   default (Qc_of_Z 30) (R1.getCycleLengthInDays pm membership) in
                 let monthlyPrice :=
                   if decide (0 < cycleDays)
                   then R1.renewalPrice planDetails * (Qc_of_Z 30 / cycleDays)
                   else R1.renewalPrice planDetails in
                 sum + monthlyPrice
             else sum
           | _ => sum
           end
         end)
      (R1.activeMemberships [m]) (R1.mrr pm ms).
Proof.
  unfold R1.mrr, R1.activeMemberships. now rewrite List.filter_app, fold_left_app.
Qed.

(** X25: in the reducer of lines 157-176 an active or trialing
    membership on a renewal plan found by id, with a price other than 0,
    adds its price times 30 over its cycle length in days, 30 days when it
    has none. *)
Theorem mrr_monthly_normalized (pm : gmap string R1.PlanDetails)
  (ms : list Membership) (m : Membership) (d : R1.PlanDetails) :
  status m = "active" \/ status m = "trialing" ->
  R1.planDetails_of pm m = Some d ->
  R1.planType d = Value "renewal" ->
  R1.renewalPrice d <> 0 ->
  R1.mrr pm (ms ++ [m])
  = R1.mrr pm ms
    + R1.renewalPrice d
      * (Qc_of_Z 30 / default (Qc_of_Z 30) (R1.getCycleLengthInDays pm m)).
Proof.
  intros Hst Hd Hty Hprice. rewrite R1_mrr_snoc. unfold R1.activeMemberships.
  cbn [List.filter].
  assert (Hact : String.eqb (status m) "active" || String.eqb (status m) "trialing"
                 = true).
  { destruct Hst as [-> | ->]; reflexivity. }
  rewrite Hact. cbn [fold_left]. rewrite Hd, Hty. cbn [String.eqb Ascii.eqb Bool.eqb].
  destruct (decide (R1.renewalPrice d = 0)) as [Hz | _]; [contradiction |].
  cbv zeta.
  destruct (decide _) as [_ | Hn]; [reflexivity |].
  exfalso. apply Hn.
  destruct (R1.getCycleLengthInDays pm m) as [c |] eqn:Hc.
  - cbn. now apply (getCycleLengthInDays_pos pm m).
  - cbn. rewrite <- Z2Qc_inj_0. apply (proj1 (Z2Qc_inj_lt _ _)). reflexivity.
Qed.

(** X26: in the reducer of lines 157-176 a membership whose plan id is
    missing, empty or unknown to the plan map adds nothing, whatever its
    embedded plan says. *)
Theorem mrr_unresolved_plan (pm : gmap string R1.PlanDetails)
  (ms : list Membership) :
  Forall (fun m => forall i, plan_id_of m = Some i -> i = "" \/ pm !! i = None) ms ->
  R1.mrr pm ms = 0.
Proof.
  intros Hall. unfold R1.mrr, R1.activeMemberships.
  assert (Hgen : forall a : Qc,
            fold_left
              (fun sum membership =>
                 match R1.planDetails_of pm membership with
                 | None => sum
                 | Some planDetails =>
                   match R1.planType planDetails with
                   | Value t =>
                     if String.eqb t "renewal" then
                       if decide (R1.renewalPrice planDetails = 0) then sum
                       else
                         let cycleDays :=
                           default (Qc_of_Z 30)
                             (R1.getCycleLengthInDays pm membership) in
                         let monthlyPrice :=
                           if decide (0 < cycleDays)
                           then R1.renewalPrice planDetails * (Qc_of_Z 30 / cycleDays)
                           else R1.renewalPrice planDetails in
                         sum + monthlyPrice
                     else sum
                   | _ => sum
                   end
                 end)
              (List.filter
                 (fun membership =>
                    String.eqb (status membership) "active"
                    || String.eqb (status membership) "trialing") ms) a = a).
  { induction Hall as [| m ms Hm _ IH]; intros a; [reflexivity |].
    cbn [List.filter]. destruct (_ || _); [| apply IH].
    cbn [fold_left]. rewrite IH.
    assert (Hnone : R1.planDetails_of pm m = None).
    { unfold R1.planDetails_of. destruct (plan_id_of m) as [i |] eqn:Hi; [| reflexivity].
      destruct (Hm i eq_refl) as [-> | Hmiss]; [reflexivity |].
      cbn. rewrite Hmiss. now destruct (negb _). }
    now rewrite Hnone. }
  apply Hgen.
Qed.
End R1Facts.

Lemma cycle_length_positive_witness :
  exists c, R1.getCycleLengthInDays (R1.planMap [quarterly_plan]) quarterly_membership
            = Some c /\ (0 < c)%Qc.
Proof.
  exists (Qc_of_Z 90).
  assert (Hc : R1.getCycleLengthInDays (R1.planMap [quarterly_plan])
                 quarterly_membership = Some (Qc_of_Z 90)) by reflexivity.
  split; [exact Hc |].
  exact (cycle_length_positive _ _ _ Hc).
Defined.

Lemma cycle_length_from_period_witness :
  R1.getCycleLengthInDays (R1.planMap [quarterly_plan]) renewing_membership
  = Some (Qc_of_Z (1702592000000 - 1700000000000) / Qc_of_Z ms_per_day)%Qc.
Proof.
  apply (cycle_length_from_period (R1.planMap [quarterly_plan])
           renewing_membership 1700000000000 1702592000000).
  - reflexivity.
  - reflexivity.
  - lia.
Defined.

Lemma mrr_monthly_normalized_witness :
  R1.mrr (R1.planMap [quarterly_plan]) ([] ++ [quarterly_membership])
  = (R1.mrr (R1.planMap [quarterly_plan]) []
     + R1.renewalPrice (plan_details quarterly_plan)
       * (Qc_of_Z 30
          / default (Qc_of_Z 30)
              (R1.getCycleLengthInDays (R1.planMap [quarterly_plan])
                 quarterly_membership)))%Qc.
Proof.
  apply (mrr_monthly_normalized (R1.planMap [quarterly_plan]) []
           quarterly_membership (plan_details quarterly_plan)).
  - left. reflexivity.
  - reflexivity.
  - reflexivity.
  - intros Heq. apply (f_equal this) in Heq. vm_compute in Heq. discriminate.
Defined.

Lemma mrr_unresolved_plan_witness :
  R1.mrr (R1.planMap [quarterly_plan]) [embedded_membership] = 0%Qc.
Proof.
  apply (mrr_unresolved_plan (R1.planMap [quarterly_plan]) [embedded_membership]).
  constructor; [| constructor]. intros i Hi. discriminate.
Defined.

(** ** Churn of lines 189-209 *)

Lemma length_filter_map {A B} (f : A -> B) (g : B -> bool) (l : list A) :
  length (List.filter (fun x => g (f x)) l) = length (List.filter g (map f l)).
Proof.
  induction l as [| x l IH]; [reflexivity |].
  cbn [List.filter map]. destruct (g (f x)); cbn [length]; now rewrite IH.
Qed.

(** X27: in lines 189-209 the number of subscribers of thirty days ago
    depends on the creation dates only, cancellations do not lower it; and
    when no membership has the status "canceled" or "past_due" nothing
    counts as canceled and the churn rate is 0. *)
Theorem R1_churn `{Host} (now : Date) (ms ms' : list Membership) :
  map created_at ms = map created_at ms' ->
  Forall (fun m => status m <> "canceled" /\ status m <> "past_due") ms ->
  R1.subscribersThirtyDaysAgo now ms = R1.subscribersThirtyDaysAgo now ms' /\
  R1.cancelledInLast30Days now ms = 0%nat /\
  R1.churnRate now ms = 0%Qc.
Proof.
  intros Hcreated Hstatus.
  assert (Hnone : R1.cancelledInLast30Days now ms = 0%nat).
  { unfold R1.cancelledInLast30Days. rewrite filter_all_false; [reflexivity |].
    eapply Forall_impl; [exact Hstatus |]. intros m [Hc Hp].
    apply String.eqb_neq in Hc, Hp. rewrite Hc, Hp.
    destruct (R1.parseTimestamp (canceled_at m)); [| reflexivity].
    now rewrite andb_false_r. }
  split; [| split; [exact Hnone |]].
  - unfold R1.subscribersThirtyDaysAgo.
    rewrite (length_filter_map created_at
               (fun t => match R1.parseTimestamp t with
                         | Some createdAt => createdAt <=? R1.thirtyDaysAgo now
                         | None => false
                         end) ms).
    rewrite (length_filter_map created_at
               (fun t => match R1.parseTimestamp t with
                         | Some createdAt => createdAt <=? R1.thirtyDaysAgo now
                         | None => false
                         end) ms').
    now rewrite Hcreated.
  - unfold R1.churnRate. rewrite Hnone. destruct (decide _); [| reflexivity].
    unfold Qcdiv. change (Z.of_nat 0) with 0%Z.
    assert (Qc_of_Z 0 = 0%Qc) as -> by apply Z2Qc_inj_0. now rewrite !Qcmult_0_l.
Qed.

Lemma R1_churn_witness :
  R1.subscribersThirtyDaysAgo noon_of_day_100 [boundary_membership]
  = R1.subscribersThirtyDaysAgo noon_of_day_100 [boundary_membership_canceled] /\
  R1.cancelledInLast30Days noon_of_day_100 [boundary_membership] = 0%nat /\
  R1.churnRate noon_of_day_100 [boundary_membership] = 0%Qc.
Proof.
  apply (R1_churn noon_of_day_100 [boundary_membership]
           [boundary_membership_canceled]).
  - reflexivity.
  - constructor; [| constructor]. split; discriminate.
Defined.

(** ** Revenue trend of lines 212-232 *)

Section R1Trend.
Local Open Scope Qc_scope.
Context `{Host}.
Variable now : Date.

Lemma fold_left_sum {A} (f : A -> Qc) (l : list A) :
  forall a : Qc, fold_left (fun sum x => sum + f x) l a = a + sum_Qc (map f l).
Proof.
  induction l as [| x l IH]; intros a; simpl.
  - ring.
  - rewrite IH. ring.
Qed.

Lemma R1_revenueTrend_days (ps : list Payment) :
  R1.revenueTrend now ps
  = map (fun k => {| date := k;
                     trend_revenue :=
                       sum_Qc (map R1.paymentTotal (List.filter (R1_paid_on k) ps))
                       / Qc_of_Z 100 |})
      (days_from (dateKey now - 89) 90).
Proof.
  unfold R1.revenueTrend.
  change (days_from (dateKey now - 89) 90)
    with (days_from (dateKey now - Z.of_nat 89) (S 89)).
  rewrite <- (countdown_days (dateKey now) 89), map_map.
  apply map_ext. intros i. cbv zeta.
  rewrite dateKey_getDaysAgo, fold_left_sum, Qcplus_0_l. reflexivity.
Qed.

Lemma R1_sum_days (ks : list Z) (ps : list Payment) :
  NoDup ks ->
  sum_Qc (map (fun k => sum_Qc (map R1.paymentTotal (List.filter (R1_paid_on k) ps))) ks)
  = sum_Qc (map R1.paymentTotal
              (List.filter
                 (fun p => match R1.parseTimestamp (paid_at p) with
                           | Some d => bool_decide (dateKey d ∈ ks)
                           | None => false
                           end)
                 ps)).
Proof.
  intros Hnd. induction ps as [| p ps IH].
  - apply sum_Qc_map_zero. reflexivity.
  - cbn [List.filter]. unfold R1_paid_on at 1.
    destruct (R1.parseTimestamp (paid_at p)) as [d |].
    2:{ exact IH. }
    rewrite (map_ext _ (fun k => (if (dateKey d =? k)%Z then R1.paymentTotal p else 0)
                                 + sum_Qc (map R1.paymentTotal
                                             (List.filter (R1_paid_on k) ps)))).
    2:{ intros k. destruct (dateKey d =? k)%Z; simpl; ring. }
    rewrite sum_Qc_map_plus, IH, (sum_Qc_indicator _ _ _ Hnd).
    destruct (bool_decide (dateKey d ∈ ks)); simpl; ring.
Qed.

(** The trend computed from one instant, with days of 86400000 ms. *)
Lemma R1_revenueTrend_from_instant (payments : list Payment) :
  length (R1.revenueTrend now payments) = 90%nat /\
  map date (R1.revenueTrend now payments) = days_from (dateKey now - 89) 90 /\
  trend_total (R1.revenueTrend now payments) = R1_calendar_total now payments.
Proof.
  split; [unfold R1.revenueTrend; now rewrite length_map |]. split.
  - rewrite R1_revenueTrend_days, map_map. cbn [date]. apply List.map_id.
  - unfold trend_total, R1_calendar_total. rewrite R1_revenueTrend_days, map_map.
    cbn [trend_revenue]. rewrite sum_Qc_map_div.
    rewrite R1_sum_days by apply days_from_NoDup.
    do 3 f_equal. apply List.filter_ext. intros p.
    destruct (R1.parseTimestamp (paid_at p)) as [d |]; [| reflexivity].
    destruct (Z.leb_spec (dateKey now - 89) (dateKey d));
      destruct (Z.leb_spec (dateKey d) (dateKey now)); cbn [andb];
      first [apply bool_decide_eq_true_2, elem_of_days_from; lia
            | apply bool_decide_eq_false_2; rewrite elem_of_days_from; lia].
Qed.
End R1Trend.

(** X28: on a server whose zone keeps one offset, and when the 90
    readings of the clock in the loop of lines 212-232 fall on one UTC
    day, the trend has 90 entries for the 90 days up to that day, and its
    entries add up to the major-unit total of the payments whose calendar
    day is one of them, whatever their instant. *)
Theorem R1_revenueTrend_total `{Host} (clock : Clock) (payments : list Payment) :
  fixed_offset (zone clock) ->
  (forall k, (2 <= k <= 91)%nat ->
             dateKey (reading clock k) = dateKey (reading clock 2)) ->
  let trend := R1T.revenueTrend clock payments in
  length trend = 90%nat /\
  map date trend = days_from (dateKey (reading clock 2) - 89) 90 /\
  trend_total trend = R1_calendar_total (reading clock 2) payments.
Proof.
  intros Hz Hr trend. subst trend.
  rewrite (R1T_revenueTrend_same_day clock (reading clock 2)) by assumption.
  apply R1_revenueTrend_from_instant.
Qed.

Lemma R1_revenueTrend_total_witness :
  let trend := R1T.revenueTrend (steady utc noon_of_day_100) [payment_later_today] in
  length trend = 90%nat /\
  map date trend = days_from (dateKey noon_of_day_100 - 89) 90 /\
  trend_total trend = R1_calendar_total noon_of_day_100 [payment_later_today].
Proof.
  apply (R1_revenueTrend_total (steady utc noon_of_day_100) [payment_later_today]).
  - exists 0. intros t. split; reflexivity.
  - intros k _. reflexivity.
Defined.

(** On the Berlin server of C4 the trend of lines 212-232 repeats a day
    as well. *)
Example R1_revenueTrend_clock_shift :
  map date (drop 87 (R1T.revenueTrend berlin_evening [payment_of_29_march]))
  = [20540; 20541; 20541].
Proof. vm_compute. reflexivity. Qed.
